(** * CI-LLM4APR: the incremental site builder, the score formatter,
      [limit_items] and the GitHub markdown-table committer.

    A shallow embedding of
      - [src/core/models.py]            (records, [to_dict], [limit_items]),
      - [src/publisher/static_site.py]  ([StaticSiteBuilder]),
      - [src/publisher/github_committer.py] ([GitHubCommitter]),
    followed by the properties stated about them.

    Conventions.
      - Python [str] is [string]; [int] is [Z]; [len] is [length] cast to [Z].
      - Python [float] is an IEEE 754 binary64 number ([spec_float] of the
        Standard Library with 53 bits of precision): sums, products and
        quotients are rounded to the nearest number, ties to even, as the
        hardware does it.
      - A Python [dict] is an insertion-ordered association list with unique
        keys ([dict V]); a Python [set] of strings is a [gset string].
      - [datetime.utcnow()] reads a clock that is part of the world; the
        [datetime] methods used by the code ([isocalendar], [isoformat],
        [strftime("%Y-%m-%d")]) are fields of the value the clock returns.
      - [print] appends a line to the log of the world. *)

From Stdlib Require Import String Ascii List ZArith QArith Lia Bool SpecFloat.
From stdpp Require Import base list strings gmap pretty.

Open Scope string_scope.
Open Scope Z_scope.

(* ===================================================================== *)
(** * Part I. Definitions                                                *)
(* ===================================================================== *)

(** ** Strings as Python uses them *)

Module Py.

(** The double quote character, code 34. *)
Definition dq : string := String "034"%char EmptyString.
Definition nl : string := String "010"%char EmptyString.

(** [sep.join(parts)] *)
Fixpoint join (sep : string) (parts : list string) : string :=
  match parts with
  | [] => ""
  | [p] => p
  | p :: rest => p ++ sep ++ join sep rest
  end.

(** [s.startswith(p)] *)
Definition startswith (p s : string) : bool := String.prefix p s.

(** [sub in s] *)
Fixpoint contains (sub s : string) : bool :=
  String.prefix sub s ||
  match s with
  | EmptyString => false
  | String _ s' => contains sub s'
  end.

(** [s.split(sep)] for a non-empty separator: the pieces between the
    non-overlapping occurrences of [sep], scanning from the left; never
    the empty list. [skip] counts the characters of a matched separator
    that are still to be passed over. *)
Fixpoint split_go (sep cur : string) (skip : nat) (s : string) : list string :=
  match s with
  | EmptyString => [cur]
  | String a s' =>
      match skip with
      | S k => split_go sep cur k s'
      | O =>
          if String.prefix sep s
          then cur :: split_go sep "" (String.length sep - 1) s'
          else split_go sep (cur ++ String a "") 0 s'
      end
  end.
Definition split (sep s : string) : list string := split_go sep "" 0 s.

(** [s.replace(old, new)] for a non-empty [old]. *)
Definition replace (old new s : string) : string := join new (split old s).

(** [s.lower()] on ASCII letters. *)
Definition lower_char (a : ascii) : ascii :=
  let n := nat_of_ascii a in
  if ((65 <=? n)%nat && (n <=? 90)%nat) then ascii_of_nat (n + 32) else a.
Fixpoint lower (s : string) : string :=
  match s with
  | EmptyString => ""
  | String a s' => String (lower_char a) (lower s')
  end.

(** Truth value of a string: non-empty. *)
Definition truthy (s : string) : bool := negb (String.eqb s "").

(** Characters Python treats as white space, within ASCII. *)
Definition is_space (a : ascii) : bool :=
  let n := nat_of_ascii a in
  ((9 <=? n)%nat && (n <=? 13)%nat) || ((28 <=? n)%nat && (n <=? 32)%nat).

Fixpoint lstrip (s : string) : string :=
  match s with
  | EmptyString => ""
  | String a s' => if is_space a then lstrip s' else s
  end.

Fixpoint rstrip (s : string) : string :=
  match s with
  | EmptyString => ""
  | String a s' =>
      match rstrip s' with
      | EmptyString => if is_space a then "" else String a ""
      | r => String a r
      end
  end.

(** [s.strip()] *)
Definition strip (s : string) : string := rstrip (lstrip s).

(** [s.split()]: the maximal runs of non-space characters. *)
Fixpoint words_go (cur : string) (s : string) : list string :=
  match s with
  | EmptyString => if String.eqb cur "" then [] else [cur]
  | String a s' =>
      if is_space a
      then (if String.eqb cur "" then words_go "" s' else cur :: words_go "" s')
      else words_go (cur ++ String a "") s'
  end.
Definition words (s : string) : list string := words_go "" s.

(** [s[1:]] *)
Definition tail (s : string) : string :=
  match s with EmptyString => "" | String _ s' => s' end.

(** [s[:n]] for a non-negative literal [n]. *)
Fixpoint take (n : nat) (s : string) : string :=
  match n, s with
  | S n', String a s' => String a (take n' s')
  | _, _ => ""
  end.

(** [str(n)] and [f"{n}"] for an integer. *)
Definition str_of_Z (n : Z) : string := pretty n.

(** [f"{n:02d}"]: the decimal numeral, padded on the left with ['0'] to
    two characters (a numeral of two or more characters is unchanged). *)
Definition fmt_02d (n : Z) : string :=
  let s := str_of_Z n in
  if (String.length s <? 2)%nat then "0" ++ s else s.

(** [l[:limit]] for a Python list and an integer bound: a negative bound
    counts from the end. *)
Definition slice_to {A} (l : list A) (limit : Z) : list A :=
  if 0 <=? limit then firstn (Z.to_nat limit) l
  else firstn (Z.to_nat (Z.of_nat (length l) + limit)) l.

End Py.

(** ** [core/models.py]: [limit_items] *)

Definition limit_items {A} (items : list A) (limit : option Z) : list A :=
  let materialised := items in
  match limit with
  | None => materialised
  | Some n => Py.slice_to materialised n
  end.

(** ** Fixed-point formatting of a number, [f"{x:.1f}"] and [f"{x:.2f}"]

    The value is rounded to [d] decimals, ties to the even neighbour, and
    printed with a sign, the integer part, a point and [d] digits. *)

Module Fmt.

Definition round_half_even (num : Z) (den : positive) : Z :=
  let a := Z.abs num in
  let q0 := a / Z.pos den in
  let r := a mod Z.pos den in
  if Z.pos den <? 2 * r then q0 + 1
  else if (2 * r =? Z.pos den) && Z.odd q0 then q0 + 1
  else q0.

Fixpoint zeros (n : nat) : string :=
  match n with O => "" | S n' => "0" ++ zeros n' end.

Fixpoint drop (n : nat) (s : string) : string :=
  match n, s with
  | S n', String _ s' => drop n' s'
  | _, _ => s
  end.

Definition fixed (d : nat) (x : Q) : string :=
  let scaled := Qnum x * 10 ^ Z.of_nat d in
  let m := round_half_even scaled (Qden x) in
  let digits := Py.str_of_Z m in
  let padded := zeros (S d - String.length digits) ++ digits in
  let k := (String.length padded - d)%nat in
  (if Qnum x <? 0 then "-" else "") ++ Py.take k padded ++ "." ++ drop k padded.

End Fmt.

(** ** Python [float]

    A binary64 number is a signed zero, a signed infinity, a NaN or a
    finite number [(-1)^s * m * 2^e]. The operations are those of IEEE 754
    with rounding to nearest, ties to even. *)

Module Float.

Definition float : Type := spec_float.
Definition prec : Z := 53.
Definition emax : Z := 1024.

(** [x + y], [x * y] *)
Definition add (x y : float) : float := SFadd prec emax x y.
Definition mul (x y : float) : float := SFmul prec emax x y.

(** [x / y] for [y != 0]; Python raises [ZeroDivisionError] otherwise. *)
Definition div (x y : float) : float := SFdiv prec emax x y.

(** [float(n)] for an integer [n]: an [int] operand of a float operation. *)
Definition of_Z (n : Z) : float := binary_normalize prec emax n 0 false.

(** [x == 0]: the floats that count as false in a condition. *)
Definition is_zero (x : float) : bool :=
  match x with S754_zero _ => true | _ => false end.

Definition is_finite (x : float) : bool :=
  match x with S754_zero _ | S754_finite _ _ _ => true | _ => false end.

(** The number [m * 2^e], exactly. *)
Definition magnitude (m : positive) (e : Z) : Q :=
  match e with
  | Z0 => Z.pos m # 1
  | Zpos k => Z.pos m * 2 ^ Z.pos k # 1
  | Zneg k => Z.pos m # 2 ^ k
  end.

(** The value of a finite float as a rational number. *)
Definition to_Q (x : float) : Q :=
  match x with
  | S754_finite s m e => if s then Qopp (magnitude m e) else magnitude m e
  | _ => 0%Q
  end.

(** [f"{x:.<d>f}"]: the exact value, rounded to [d] decimals, ties to
    even; the sign of a negative number or zero is kept. *)
Definition format (d : nat) (x : float) : string :=
  match x with
  | S754_zero s => (if s then "-" else "") ++ Fmt.fixed d 0
  | S754_infinity s => if s then "-inf" else "inf"
  | S754_nan => "nan"
  | S754_finite s m e => (if s then "-" else "") ++ Fmt.fixed d (magnitude m e)
  end.

End Float.

(** ** Python [dict]: insertion-ordered, unique keys *)

Definition dict (V : Type) : Type := list (string * V).

Section Dict.
Context {V : Type}.

(** [d.get(k)] *)
Fixpoint dict_get (k : string) (d : dict V) : option V :=
  match d with
  | [] => None
  | (k', v) :: d' => if String.eqb k' k then Some v else dict_get k d'
  end.

(** [k in d] *)
Definition dict_mem (k : string) (d : dict V) : bool :=
  match dict_get k d with Some _ => true | None => false end.

(** [d[k] = v]: a present key keeps its position, a new key goes last. *)
Fixpoint dict_set (k : string) (v : V) (d : dict V) : dict V :=
  match d with
  | [] => [(k, v)]
  | (k', v') :: d' =>
      if String.eqb k' k then (k', v) :: d' else (k', v') :: dict_set k v d'
  end.

Definition dict_keys (d : dict V) : list string := map fst d.

(** [len(d)] *)
Definition dict_len (d : dict V) : Z := Z.of_nat (length d).

(** The key set, for statements that do not depend on order. *)
Definition dict_dom (d : dict V) : gset string := list_to_set (dict_keys d).

End Dict.

(** [defaultdict(list)]: [groups[k].append(x)] *)
Definition group_append {A} (k : string) (x : A) (groups : dict (list A))
  : dict (list A) :=
  match dict_get k groups with
  | Some xs => dict_set k (xs ++ [x])%list groups
  | None => dict_set k [x] groups
  end.

(** ** [core/models.py]: the runtime data model *)

(** What the code asks of a [datetime]. *)
Record datetime := {
  isocalendar : Z * Z * Z;      (* (ISO year, ISO week, ISO weekday) *)
  isoformat : string;
  strftime_ymd : string         (* strftime("%Y-%m-%d") *)
}.

Record SiteConfig := { output_dir : string; base_url : string }.

Record TopicConfig := {
  topic_name : string;
  topic_label : string;
  interest_prompt : string
}.

Record PaperCandidate := {
  pc_topic : TopicConfig;
  arxiv_id : string;
  title : string;
  abstract : string;
  authors : list string;
  categories : list string;
  published : option datetime;
  updated : option datetime;
  arxiv_url : string;
  pdf_url : option string;
  affiliations : list string;
  comment : option string
}.

Record DimensionScore := {
  dim_name : string;
  weight : Float.float;
  value : Float.float
}.

Record ScoredPaper := {
  sp_paper : PaperCandidate;
  scores : list DimensionScore;
  total_score : Float.float
}.

Record TaskItem := { question : string; reason : string }.

Record TaskFinding := {
  task : TaskItem;
  answer : string;
  confidence : Float.float
}.

Record CoreSummary := {
  problem : string;
  solution : string;
  methodology : string;
  experiments : string;
  conclusion : string
}.

Record PaperSummary := {
  paper : PaperCandidate;
  topic : TopicConfig;
  core_summary : option CoreSummary;
  task_list : list TaskItem;
  findings : list TaskFinding;
  overview : string;
  score_details : ScoredPaper;
  markdown : string;
  brief_summary : string
}.

(** *** The serialised forms ([to_dict]) and what [json.load] gives back

    A key that the builder reads with [.get(key, default)] is an [option]:
    [None] is an absent key (or a JSON [null]). *)

Record paper_info := {
  pi_topic_name : string;
  pi_arxiv_id : option string;
  pi_title : option string;
  pi_abstract : string;
  pi_authors : option (list string);
  pi_categories : list string;
  pi_published : option string;
  pi_updated : option string;
  pi_arxiv_url : string;
  pi_pdf_url : option string;
  pi_affiliations : list string;
  pi_comment : option string
}.

Record topic_info := { ti_name : option string; ti_label : option string }.

Record score_info := {
  si_arxiv_id : string;
  si_title : string;
  si_total_score : option Float.float;
  si_scores : list DimensionScore
}.

Record paper_data := {
  pd_paper : option paper_info;
  pd_topic : option topic_info;
  pd_core_summary : option CoreSummary;
  pd_task_list : list TaskItem;
  pd_findings : list TaskFinding;
  pd_overview : string;
  pd_brief_summary : string;
  pd_score_details : option score_info;
  pd_batch_id : option string;
  pd_indexed_at : option string
}.

(** [PaperCandidate.to_dict] *)
Definition PaperCandidate_to_dict (p : PaperCandidate) : paper_info :=
  {| pi_topic_name := topic_name (pc_topic p);
     pi_arxiv_id := Some (arxiv_id p);
     pi_title := Some (title p);
     pi_abstract := abstract p;
     pi_authors := Some (authors p);
     pi_categories := categories p;
     pi_published := isoformat <$> published p;
     pi_updated := isoformat <$> updated p;
     pi_arxiv_url := arxiv_url p;
     pi_pdf_url := pdf_url p;
     pi_affiliations := affiliations p;
     pi_comment := comment p |}.

(** [ScoredPaper.to_dict] *)
Definition ScoredPaper_to_dict (s : ScoredPaper) : score_info :=
  {| si_arxiv_id := arxiv_id (sp_paper s);
     si_title := title (sp_paper s);
     si_total_score := Some (total_score s);
     si_scores := scores s |}.

(** [PaperSummary.to_dict]; the two ingestion keys are not set yet. *)
Definition PaperSummary_to_dict (s : PaperSummary) : paper_data :=
  {| pd_paper := Some (PaperCandidate_to_dict (paper s));
     pd_topic := Some {| ti_name := Some (topic_name (topic s));
                         ti_label := Some (topic_label (topic s)) |};
     pd_core_summary := core_summary s;
     pd_task_list := task_list s;
     pd_findings := findings s;
     pd_overview := overview s;
     pd_brief_summary := brief_summary s;
     pd_score_details := Some (ScoredPaper_to_dict (score_details s));
     pd_batch_id := None;
     pd_indexed_at := None |}.

(** ** [StaticSiteBuilder._format_score] *)

(** [sum(xs)] for floats: the items are added from the left onto the [int]
    zero that [sum] starts from. (This is the loop of CPython up to 3.11;
    from 3.12 on the float loop also carries a correction term, which
    changes nothing for one or two items.) *)
Definition py_sum (xs : list Float.float) : Float.float :=
  fold_left Float.add xs (Float.of_Z 0).

(** [x or 1.0] for a number [x]. *)
Definition or_one (x : Float.float) : Float.float :=
  if Float.is_zero x then Float.of_Z 1 else x.

Definition total_weight (sp : ScoredPaper) : Float.float :=
  or_one (py_sum (map weight (scores sp))).

Definition weighted_value (sp : ScoredPaper) : Float.float :=
  py_sum (map (fun score => Float.mul (weight score) (value score)) (scores sp)).

(** The number that is formatted: [(value / total_weight) * 100]. *)
Definition normalised_score (sp : ScoredPaper) : Float.float :=
  Float.mul (Float.div (weighted_value sp) (total_weight sp)) (Float.of_Z 100).

Definition _format_score (scored_paper : ScoredPaper) : string :=
  Float.format 1 (normalised_score scored_paper).

(** ** [html.escape(text, quote=True)] and [StaticSiteBuilder._escape] *)

Definition escape_char (a : ascii) : string :=
  if Ascii.eqb a "&" then "&amp;"
  else if Ascii.eqb a "<" then "&lt;"
  else if Ascii.eqb a ">" then "&gt;"
  else if Ascii.eqb a "034" then "&quot;"
  else if Ascii.eqb a "'" then "&#x27;"
  else String a "".

Fixpoint html_escape (s : string) : string :=
  match s with
  | EmptyString => ""
  | String a s' => escape_char a ++ html_escape s'
  end.

(** [_escape(text)]: [html.escape(text or "", quote=True)] *)
Definition _escape (text : option string) : string :=
  html_escape (default "" text).

(** ** Rendered pages

    A page is the list of lines that the code joins with a newline. A line
    is an f-string: a sequence of pieces, each of which is literal template
    text, a value passed through [_escape], or a value interpolated as it
    is. Keeping the pieces apart records where each character of the page
    comes from. *)

Inductive stylesheet := PaperStyle | IndexStyle.

Inductive piece :=
| Lit (s : string)                 (* template text *)
| Css (which : stylesheet)         (* the literal style block *)
| Esc (s : string)                 (* self._escape(s) *)
| EscBr (old : string) (s : string) (* self._escape(s).replace(old, "<br/>") *)
| Raw (s : string).                (* a value formatted without escaping *)

Definition line := list piece.
Definition page := list line.

(** The text of a page, given the text of the two style blocks. *)
Definition piece_text (css : stylesheet -> string) (p : piece) : string :=
  match p with
  | Lit s => s
  | Css w => css w
  | Esc s => _escape (Some s)
  | EscBr old s => Py.replace old "<br/>" (_escape (Some s))
  | Raw s => s
  end.

Definition line_text (css : stylesheet -> string) (l : line) : string :=
  fold_right (fun p acc => piece_text css p ++ acc) "" l.

Definition page_text (css : stylesheet -> string) (pg : page) : string :=
  Py.join Py.nl (map (line_text css) pg).

(** All the pieces of a page. *)
Definition pieces (pg : page) : list piece := concat pg.

(** [sep.join(lines)] inside one element of the page. *)
Fixpoint join_lines (sep : string) (ls : list line) : line :=
  match ls with
  | [] => []
  | [l] => l
  | l :: rest => (l ++ Lit sep :: join_lines sep rest)%list
  end.

(** The builder object: configuration and the normalised language. *)
Record StaticSiteBuilder := {
  site_config : SiteConfig;
  language : string
}.

Definition _normalise_language (language : option string) : string :=
  match language with
  | Some l =>
      if Py.truthy l && Py.startswith "en" (Py.lower l) then "en" else "zh-CN"
  | None => "zh-CN"
  end.

(** [StaticSiteBuilder(site_config, language)] *)
Definition new_builder (cfg : SiteConfig) (language : option string)
  : StaticSiteBuilder :=
  {| site_config := cfg; language := _normalise_language language |}.

Definition _html_lang (lang : string) : string :=
  if String.eqb lang "en" then "en" else "zh-cn".

Section Rendering.
Local Open Scope list_scope.

Variable self : StaticSiteBuilder.

(** [self._i18n(zh_text, en_text)] *)
Definition _i18n (zh_text en_text : string) : line :=
  let default_text :=
    if negb (String.eqb (language self) "en") then zh_text else en_text in
  [ Lit ("<span class=" +:+ Py.dq +:+ "i18n" +:+ Py.dq +:+ " data-lang-zh=" +:+ Py.dq);
    Esc zh_text;
    Lit (Py.dq +:+ " data-lang-en=" +:+ Py.dq);
    Esc en_text;
    Lit (Py.dq +:+ ">");
    Esc default_text;
    Lit "</span>" ].

Definition _lang_toggle_button : line :=
  [ Lit "<button id='lang-toggle' type='button' class='lang-toggle' aria-label='toggle language'>English</button>" ].

(** [self._language_script()]: one element of the page, with the default
    language interpolated. *)
Definition _language_script : line :=
  let default_lang := language self in
  [ Lit "
<script>
(function() {
  const defaultLang = '";
    Raw default_lang;
    Lit "';
  function normalise(lang) {
    if (!lang) return defaultLang;
    const lower = lang.toLowerCase();
    if (lower.startsWith('en')) return 'en';
    return 'zh-CN';
  }

  function apply(lang) {
    const norm = normalise(lang);
    document.documentElement.setAttribute('data-lang', norm);
    document.documentElement.lang = norm === 'en' ? 'en' : 'zh-cn';
    document.querySelectorAll('.i18n').forEach((el) => {
      const text = norm === 'en' ? el.dataset.langEn : el.dataset.langZh;
      if (text !== undefined) {
        el.textContent = text;
      }
    });
    const toggle = document.getElementById('lang-toggle');
    if (toggle) {
      toggle.textContent = norm === 'en' ? '中文' : 'English';
    }
    localStorage.setItem('ci-llm4apr-lang', norm);
  }

  const initial = localStorage.getItem('ci-llm4apr-lang') || defaultLang;
  apply(initial);
  const toggle = document.getElementById('lang-toggle');
  if (toggle) {
    toggle.addEventListener('click', () => {
      const current = document.documentElement.getAttribute('data-lang') || defaultLang;
      apply(current === 'en' ? 'zh-CN' : 'en');
    });
  }
})();
</script>
" ].

(** *** The paper detail page, [self._render_paper(summary)] *)

Definition sidebar_info_lines (item : line * line) : list line :=
  let '(label_html, value_html) := item in
  [ [Lit "        <div class='sidebar-info-item'>"];
    Lit "          <span class='sidebar-info-label'>" :: label_html ++ [Lit "</span>"];
    Lit "          <span class='sidebar-info-value'>" :: value_html ++ [Lit "</span>"];
    [Lit "        </div>"] ].

Definition toc_link_line (item : line * string) : line :=
  let '(label, href) := item in
  [Lit "          <li><a href='"; Lit href; Lit "'>"] ++ label ++ [Lit "</a></li>"].

Definition top_meta_lines (item : string * line * line) : list line :=
  let '(icon, label_html, value_html) := item in
  [ [Lit "            <div class='meta-item'>"];
    [Lit "              <span class='meta-icon'>"; Lit icon; Lit "</span>"];
    Lit "              <span class='meta-label'>" :: label_html ++ [Lit ":</span>"];
    Lit "              <span class='meta-value'>" :: value_html ++ [Lit "</span>"];
    [Lit "            </div>"] ].

(** The paragraphs of the brief summary:
    [[p.strip() for p in brief_summary.split("\n\n") if p.strip()]] *)
Definition brief_paragraphs (brief_summary : string) : list string :=
  map Py.strip
    (filter (fun p => Py.truthy (Py.strip p) = true)
            (Py.split (Py.nl +:+ Py.nl) brief_summary)).

Definition brief_summary_lines (brief_summary : string) : list line :=
  if Py.truthy brief_summary then
    [ [Lit "        <section class='section-card brief-summary' id='brief-summary'>"];
      Lit "          <h2>" :: _i18n "论文速览" "Brief Summary" ++ [Lit "</h2>"] ]
    ++ map (fun paragraph => [Lit "          <p>"; EscBr "\n" paragraph; Lit "</p>"])
           (brief_paragraphs brief_summary)
    ++ [ [Lit "        </section>"] ]
  else [].

Definition aspect_lines (item : line * string) : list line :=
  let '(title_html, content) := item in
  if Py.truthy content && Py.truthy (Py.strip content) then
    [ Lit "          <h3 style='margin-top:1.2rem;color:var(--accent);font-size:1.05rem;'>"
        :: title_html ++ [Lit "</h3>"];
      [Lit "          <p>"; EscBr "\n" content; Lit "</p>"] ]
  else [].

Definition core_summary_lines (cs : option CoreSummary) : list line :=
  match cs with
  | Some core =>
      let aspects :=
        [ (_i18n "1. 主要解决了什么问题？" "1. What problem does it solve?", problem core);
          (_i18n "2. 提出了什么解决方案？" "2. What solution is proposed?", solution core);
          (_i18n "3. 核心方法/步骤/策略" "3. Core methodology", methodology core);
          (_i18n "4. 实验设计" "4. Experiment design", experiments core);
          (_i18n "5. 结论" "5. Conclusion", conclusion core) ] in
      [ [Lit "        <section class='section-card' id='core-content'>"];
        Lit "          <h2>" :: _i18n "📖 论文核心内容" "📖 Core Content" ++ [Lit "</h2>"] ]
      ++ concat (map aspect_lines aspects)
      ++ [ [Lit "        </section>"] ]
  | None => []
  end.

Definition task_lines (t : TaskItem) : list line :=
  [ [Lit "            <li>"];
    [Lit "              <span class='todo-question'>"; Esc (question t); Lit "</span>"];
    [Lit "              <span class='todo-reason'>"; Esc (reason t); Lit "</span>"];
    [Lit "            </li>"] ].

Definition finding_lines (finding : TaskFinding) : list line :=
  let confidence := Float.format 2 (confidence finding) in
  [ [Lit "          <div class='finding'>"];
    [Lit "            <h3>"; Esc (question (task finding)); Lit "</h3>"];
    [Lit "            <p>"; EscBr Py.nl (answer finding); Lit "</p>"];
    Lit "            <p class='confidence'>" :: _i18n "信心指数" "Confidence"
      ++ [Lit ": "; Raw confidence; Lit "</p>"];
    [Lit "          </div>"] ].

Definition _render_paper (summary : PaperSummary) : page :=
  let html_lang := _html_lang (language self) in
  let paper := paper summary in
  let title := Esc (title paper) in
  let arxiv_link := Esc (arxiv_url paper) in
  let arxiv_id := Esc (arxiv_id paper) in
  let score := _format_score (score_details summary) in
  let brief_summary := Py.strip (brief_summary summary) in
  let published_display :=
    match published paper with Some d => strftime_ymd d | None => "" end in
  let authors_display :=
    match authors paper with
    | _ :: _ => [Esc (Py.join ", " (authors paper))]
    | [] => _i18n "未知作者" "Unknown authors"
    end in
  let sidebar_info_items : list (line * line) :=
    [ (_i18n "所属专题" "Topic", [Esc (topic_label (topic summary))]);
      (_i18n "相关度得分" "Relevance Score", [Raw score]);
      (_i18n "发表日期" "Published",
       if Py.truthy published_display then [Esc published_display]
       else _i18n "未知" "Unknown");
      ([Lit "arXiv"],
       [Lit "<a href='"; arxiv_link; Lit "' target='_blank' rel='noopener'>";
        arxiv_id; Lit "</a>"]) ] in
  let top_meta_items : list (string * line * line) :=
    [ ("👤", _i18n "作者" "Authors", authors_display) ]
    ++ match comment paper with
       | Some c =>
           if Py.truthy c then [ ("💬", _i18n "备注" "Comment", [Esc c]) ] else []
       | None => []
       end in
  let toc_links : list (line * string) :=
    [ (_i18n "论文速览" "Brief Summary", "#brief-summary");
      (_i18n "核心内容" "Core Content", "#core-content");
      (_i18n "关心的问题" "Questions", "#questions");
      (_i18n "逐项解答" "Findings", "#findings");
      (_i18n "综合总结" "Overview", "#overview") ] in
  [ [Lit "<!DOCTYPE html>"];
    [Lit "<html lang='"; Raw html_lang; Lit "'>"];
    [Lit "<head>"];
    [Lit "  <meta charset='utf-8'>"];
    [Lit "  <meta name='viewport' content='width=device-width, initial-scale=1'>"];
    [Lit "  <title>"; title; Lit "</title>"];
    [Lit "  <style>"; Css PaperStyle; Lit "</style>"];
    [Lit "</head>"];
    [Lit "<body data-lang='"; Raw (language self); Lit "'>"];
    [Lit "  <div class='page'>"];
    [Lit "    <aside class='sidebar-toc'>"];
    [Lit "      <div class='toc-header'>"];
    Lit "        <a href='../..'>" :: _i18n "🏠 首页" "🏠 HOME" ++ [Lit "</a>"];
    [Lit "      </div>"];
    [Lit "      <div class='sidebar-paper-info'>"];
    Lit "        <h3>" :: _i18n "论文信息" "Paper Info" ++ [Lit "</h3>"] ]
  ++ concat (map sidebar_info_lines sidebar_info_items)
  ++ [ [Lit "      </div>"];
       [Lit "      <div class='sidebar-nav-header'>"];
       Lit "        <h3>" :: _i18n "目录导航" "Navigation" ++ [Lit "</h3>"];
       [Lit "      </div>"];
       [Lit "      <nav class='toc-nav'>"];
       [Lit "        <ul>"] ]
  ++ map toc_link_line toc_links
  ++ [ [Lit "        </ul>"];
       [Lit "      </nav>"];
       [Lit "    </aside>"];
       [Lit "    <div class='main-content'>"];
       [Lit "      <header class='top-bar'>"];
       [Lit "        <div class='top-bar-title'>"];
       [Lit "          <h1 class='paper-title'>"; title; Lit "</h1>"];
       [Lit "        </div>"];
       [Lit "        <div class='top-bar-actions'>"];
       Lit "          " :: _lang_toggle_button;
       [Lit "        </div>"];
       [Lit "      </header>"];
       [Lit "      <main class='container'>"];
       [Lit "        <div class='paper-header'>"];
       [Lit "          <div class='meta-bar'>"] ]
  ++ concat (map top_meta_lines top_meta_items)
  ++ [ [Lit "          </div>"];
       [Lit "        </div>"] ]
  ++ brief_summary_lines brief_summary
  ++ core_summary_lines (core_summary summary)
  ++ [ [Lit "        <section class='section-card' id='questions'>"];
       Lit "          <h2>" :: _i18n "🤔 用户关心的问题" "🤔 Questions of Interest" ++ [Lit "</h2>"];
       [Lit "          <ul class='todo-list'>"] ]
  ++ concat (map task_lines (task_list summary))
  ++ [ [Lit "          </ul>"];
       [Lit "        </section>"];
       [Lit "        <section class='section-card' id='findings'>"];
       Lit "          <h2>" :: _i18n "💡 逐项解答" "💡 Detailed Findings" ++ [Lit "</h2>"] ]
  ++ concat (map finding_lines (findings summary))
  ++ [ [Lit "        </section>"];
       [Lit "        <section class='section-card' id='overview'>"];
       Lit "          <h2>" :: _i18n "📝 综合总结" "📝 Overall Summary" ++ [Lit "</h2>"];
       [Lit "          <p>"; EscBr Py.nl (overview summary); Lit "</p>"];
       [Lit "        </section>"];
       [Lit "      </main>"];
       Lit "      <footer class='site-footer'>"
         :: _i18n "由 CI-LLM4APR 自动生成" "Generated by the CI-LLM4APR pipeline"
         ++ [Lit "</footer>"];
       [Lit "    </div>"];
       [Lit "  </div>"];
       _language_script;
       [Lit "</body>"];
       [Lit "</html>"] ].

(** *** The current-batch index page,
    [self._render_index_with_archives(index_entries, total_papers,
    total_batches, current_batch_id)]; it renders entries of the store.
    [update_time] is [datetime.utcnow().strftime("%Y-%m-%d")], read from
    the clock by the caller in this model. *)

(** [topic_papers[0].get("topic", {}).get("label", topic_name)
     if topic_papers else topic_name] *)
Definition entry_topic_label (topic_name : string) (topic_papers : list paper_data)
  : string :=
  match topic_papers with
  | first :: _ =>
      match pd_topic first with
      | Some t => default topic_name (ti_label t)
      | None => topic_name
      end
  | [] => topic_name
  end.

Definition sidebar_nav_item (entry : string * list paper_data) : line :=
  let '(topic_name, topic_papers) := entry in
  let topic_label := entry_topic_label topic_name topic_papers in
  [Lit "<li><a href='#"; Raw topic_name; Lit "'>"; Esc topic_label; Lit "</a></li>"].

(** [", ".join(authors[:3])], with [", ..."] when there are more. *)
Definition author_preview (authors : list string) : string :=
  let preview := Py.join ", " (firstn 3 authors) in
  if (3 <? length authors)%nat then preview +:+ ", ..." else preview.

Definition index_paper_lines (topic_name : string) (paper_data : paper_data)
  : list line :=
  let arxiv_id :=
    match pd_paper paper_data with
    | Some paper_info => default "unknown" (pi_arxiv_id paper_info)
    | None => "unknown"
    end in
  let title :=
    match pd_paper paper_data with
    | Some paper_info => default "Untitled" (pi_title paper_info)
    | None => "Untitled"
    end in
  let score :=
    match pd_score_details paper_data with
    | Some score_details => default (Float.of_Z 0) (si_total_score score_details)
    | None => Float.of_Z 0
    end in
  let relative_path := "topics/" +:+ topic_name +:+ "/" +:+ arxiv_id +:+ ".html" in
  let url := relative_path in
  let authors :=
    match pd_paper paper_data with
    | Some paper_info => default [] (pi_authors paper_info)
    | None => []
    end in
  let author_text : option string :=
    match authors with
    | _ :: _ => Some (author_preview authors)
    | [] => None
    end in
  let pub_date :=
    match pd_paper paper_data with
    | Some paper_info => default "" (pi_published paper_info)
    | None => ""
    end in
  [ [Lit "            <li class='paper-item'>"];
    [Lit "              <a href='"; Esc url; Lit "'>"; Esc title; Lit "</a>"];
    [Lit "              <div class='paper-meta'>"];
    Lit "                <span class='paper-meta-item'>📊 " :: _i18n "相关度" "Score"
      ++ [Lit ": "; Raw (Float.format 1 score); Lit "</span>"] ]
  ++ match author_text with
     | Some a =>
         if Py.truthy (_escape (Some a))
         then [ [Lit "                <span class='paper-meta-item'>👤 "; Esc a; Lit "</span>"] ]
         else []
     | None => []
     end
  ++ (if Py.truthy pub_date
      then [ [Lit "                <span class='paper-meta-item'>📅 ";
              Raw (Py.take 10 pub_date); Lit "</span>"] ]
      else [])
  ++ [ [Lit "              </div>"];
       [Lit "            </li>"] ].

Definition index_topic_lines (entry : string * list paper_data) : list line :=
  let '(topic_name, topic_papers) := entry in
  let topic_label := entry_topic_label topic_name topic_papers in
  let count := Z.of_nat (length topic_papers) in
  [ [Lit "        <section class='topic-section' id='"; Raw topic_name; Lit "'>"];
    [Lit "          <div class='topic-header'>"];
    [Lit "            <h2 class='topic-title'>"; Esc topic_label; Lit "</h2>"];
    [Lit "            <span class='topic-count'>"; Raw (Py.str_of_Z count); Lit " "]
      ++ _i18n "篇" "papers" ++ [Lit "</span>"];
    [Lit "          </div>"];
    [Lit "          <ul class='paper-list'>"] ]
  ++ concat (map (index_paper_lines topic_name) topic_papers)
  ++ [ [Lit "          </ul>"];
       [Lit "        </section>"] ].

(** [sum(len(items) for _, items in index_entries)] *)
Definition batch_paper_count (index_entries : list (string * list paper_data)) : Z :=
  fold_right Z.add 0 (map (fun e => Z.of_nat (length (snd e))) index_entries).

Definition no_new_papers_lines : list line :=
  [ Lit "        <p>" :: _i18n "本周暂无新论文。" "No new papers this week."
      ++ [Lit "</p>"];
    Lit "        <p><a href='archives/'>" :: _i18n "查看历史归档" "View archives"
      ++ [Lit "</a></p>"] ].

(** The branch [if not index_entries or batch_paper_count == 0: ... else: ...] *)
Definition index_main_lines (index_entries : list (string * list paper_data))
  : list line :=
  match index_entries with
  | [] => no_new_papers_lines
  | _ :: _ =>
      if batch_paper_count index_entries =? 0 then no_new_papers_lines
      else concat (map index_topic_lines index_entries)
  end.

Definition _render_index_with_archives
    (update_time : string)
    (index_entries : list (string * list paper_data))
    (total_papers total_batches : Z) (current_batch_id : string) : page :=
  let html_lang := _html_lang (language self) in
  let batch_paper_count := batch_paper_count index_entries in
  let sidebar_nav := map sidebar_nav_item index_entries in
  [ [Lit "<!DOCTYPE html>"];
    [Lit "<html lang='"; Raw html_lang; Lit "'>"];
    [Lit "<head>"];
    [Lit "  <meta charset='utf-8'>"];
    [Lit "  <meta name='viewport' content='width=device-width, initial-scale=1'>"];
    [Lit "  <title>"; Esc "CI-LLM4APR"; Lit "</title>"];
    [Lit "  <style>"; Css IndexStyle; Lit "</style>"];
    [Lit "</head>"];
    [Lit "<body data-lang='"; Raw (language self); Lit "'>"];
    [Lit "  <div class='page'>"];
    [Lit "    <aside class='sidebar'>"];
    [Lit "      <div class='sidebar-header'>"];
    Lit "        <h1>" :: _i18n "CI-LLM4APR" "CI-LLM4APR" ++ [Lit "</h1>"];
    [Lit "      </div>"];
    [Lit "      <div class='sidebar-stats'>"];
    Lit "        <h3>" :: _i18n "统计信息" "Statistics" ++ [Lit "</h3>"];
    [Lit "        <div class='sidebar-stat-item'>"];
    [Lit "          <span class='sidebar-stat-icon'>📄</span>"];
    Lit "          <span class='sidebar-stat-label'>" :: _i18n "总论文数" "Total Papers"
      ++ [Lit "</span>"];
    [Lit "          <span class='sidebar-stat-value'>"; Raw (Py.str_of_Z total_papers);
     Lit "</span>"];
    [Lit "        </div>"];
    [Lit "        <div class='sidebar-stat-item'>"];
    [Lit "          <span class='sidebar-stat-icon'>📦</span>"];
    Lit "          <span class='sidebar-stat-label'>" :: _i18n "历史批次" "Batches"
      ++ [Lit "</span>"];
    [Lit "          <span class='sidebar-stat-value'>"; Raw (Py.str_of_Z total_batches);
     Lit "</span>"];
    [Lit "        </div>"];
    [Lit "        <div class='sidebar-stat-item'>"];
    [Lit "          <span class='sidebar-stat-icon'>🕒</span>"];
    Lit "          <span class='sidebar-stat-label'>" :: _i18n "更新" "Updated"
      ++ [Lit "</span>"];
    [Lit "          <span class='sidebar-stat-value'>"; Raw update_time; Lit "</span>"];
    [Lit "        </div>"];
    [Lit "      </div>"];
    [Lit "      <nav class='sidebar-nav'>"];
    Lit "        <h3>" :: _i18n "专题导航" "Topics" ++ [Lit "</h3>"];
    [Lit "        <ul>"];
    join_lines Py.nl (map (fun item => Lit "          " :: item) sidebar_nav);
    [Lit "        </ul>"];
    [Lit "      </nav>"];
    [Lit "      <div class='sidebar-archive-link'>"];
    Lit "        <a href='archives/'>" :: _i18n "📚 查看历史归档" "📚 View Archives"
      ++ [Lit "</a>"];
    [Lit "      </div>"];
    [Lit "    </aside>"];
    [Lit "    <div class='main-content'>"];
    [Lit "      <header class='top-bar'>"];
    [Lit "        <div class='top-bar-title'>"];
    Lit "          <h1>" :: _i18n "每周精选科技论文" "Weekly Research Highlights"
      ++ [Lit "</h1>"];
    Lit "          <p>"
      :: _i18n ("本周批次: " +:+ current_batch_id +:+ " ("
                +:+ Py.str_of_Z batch_paper_count +:+ " 篇)")
               ("Current Batch: " +:+ current_batch_id +:+ " ("
                +:+ Py.str_of_Z batch_paper_count +:+ " papers)")
      ++ [Lit "</p>"];
    [Lit "        </div>"];
    Lit "        " :: _lang_toggle_button;
    [Lit "      </header>"];
    [Lit "      <main class='container'>"] ]
  ++ index_main_lines index_entries
  ++ [ [Lit "      </main>"];
       Lit "      <footer class='site-footer'>"
         :: _i18n "由 CI-LLM4APR 自动生成" "Generated by the CI-LLM4APR pipeline"
         ++ [Lit "</footer>"];
       [Lit "    </div>"];
       [Lit "  </div>"];
       _language_script;
       [Lit "</body>"];
       [Lit "</html>"] ].

End Rendering.

(** ** The persisted documents *)

Record batch := {
  batch_id : string;
  batch_generated : string;
  paper_count : Z;
  batch_topics : option (list string)
}.

Record statistics := {
  total_papers : option Z;
  total_batches : option Z
}.

(** A lightweight index entry of the manifest. *)
Record index_entry := {
  ie_topic : option string;
  ie_batch : string;
  ie_title : string;
  ie_published : string;
  ie_score : string      (* float(...) of this text *)
}.

(** [manifest.json]. Every key may be absent in a loaded document. *)
Record manifest := {
  m_version : option string;
  m_base_url : option string;
  m_last_updated : option string;
  m_statistics : option statistics;
  m_batches : option (list batch);
  m_papers : option (dict index_entry);
  m_generated : option string;
  m_topics : option (dict (list string))
}.

(** [data/papers.json] *)
Record papers_doc := {
  pdoc_version : option string;
  pdoc_papers : option (dict paper_data)
}.

(** [archives/<batch-id>/batch.json] *)
Record batch_meta := {
  bm_id : string;
  bm_generated : string;
  bm_papers : list string
}.

(** The empty dict [{}] that [__init__] assigns. *)
Definition empty_dict_manifest : manifest :=
  {| m_version := None; m_base_url := None; m_last_updated := None;
     m_statistics := None; m_batches := None; m_papers := None;
     m_generated := None; m_topics := None |}.

Definition set_m_base_url (v : string) (m : manifest) : manifest :=
  {| m_version := m_version m; m_base_url := Some v;
     m_last_updated := m_last_updated m; m_statistics := m_statistics m;
     m_batches := m_batches m; m_papers := m_papers m;
     m_generated := m_generated m; m_topics := m_topics m |}.

Definition set_m_last_updated (v : string) (m : manifest) : manifest :=
  {| m_version := m_version m; m_base_url := m_base_url m;
     m_last_updated := Some v; m_statistics := m_statistics m;
     m_batches := m_batches m; m_papers := m_papers m;
     m_generated := m_generated m; m_topics := m_topics m |}.

Definition set_m_statistics (v : statistics) (m : manifest) : manifest :=
  {| m_version := m_version m; m_base_url := m_base_url m;
     m_last_updated := m_last_updated m; m_statistics := Some v;
     m_batches := m_batches m; m_papers := m_papers m;
     m_generated := m_generated m; m_topics := m_topics m |}.

Definition set_m_batches (v : list batch) (m : manifest) : manifest :=
  {| m_version := m_version m; m_base_url := m_base_url m;
     m_last_updated := m_last_updated m; m_statistics := m_statistics m;
     m_batches := Some v; m_papers := m_papers m;
     m_generated := m_generated m; m_topics := m_topics m |}.

Definition set_m_papers (v : dict index_entry) (m : manifest) : manifest :=
  {| m_version := m_version m; m_base_url := m_base_url m;
     m_last_updated := m_last_updated m; m_statistics := m_statistics m;
     m_batches := m_batches m; m_papers := Some v;
     m_generated := m_generated m; m_topics := m_topics m |}.

Definition set_m_generated (v : string) (m : manifest) : manifest :=
  {| m_version := m_version m; m_base_url := m_base_url m;
     m_last_updated := m_last_updated m; m_statistics := m_statistics m;
     m_batches := m_batches m; m_papers := m_papers m;
     m_generated := Some v; m_topics := m_topics m |}.

Definition set_m_topics (v : dict (list string)) (m : manifest) : manifest :=
  {| m_version := m_version m; m_base_url := m_base_url m;
     m_last_updated := m_last_updated m; m_statistics := m_statistics m;
     m_batches := m_batches m; m_papers := m_papers m;
     m_generated := m_generated m; m_topics := Some v |}.

(** ** The world the builder runs in *)

(** What reading a JSON document from a path can give. *)
Inductive file (D : Type) :=
| Missing                 (* path.exists() is false *)
| Unreadable              (* open or read raises IOError *)
| Malformed               (* json.load raises json.JSONDecodeError *)
| Faulty (e : string)     (* another exception, e.g. UnicodeDecodeError *)
| Holds (d : D).          (* json.load returns the document *)
Arguments Missing {D}.
Arguments Unreadable {D}.
Arguments Malformed {D}.
Arguments Faulty {D} e.
Arguments Holds {D} d.

(** What the builder writes besides the two JSON documents. *)
Inductive content :=
| PageHtml (pg : page)
| BatchIndexHtml (batch_id : string) (papers : list PaperSummary)
    (* the text of _render_batch_index_html(batch_id, papers) *)
| ArchiveListingHtml (batches : list batch)
    (* the text of _render_archive_listing_html(batches) *)
| BatchJson (meta : batch_meta).

(** The output directory. [written] maps a path to what was last written
    there. Directory creation ([mkdir(exist_ok=True)]) changes nothing that
    is read back and is left out; a write is taken to succeed. *)
Record filesystem := {
  manifest_json : file manifest;
  papers_json : file papers_doc;
  written : dict content
}.

(** The builder's two fields together with the world. *)
Record state := {
  _existing_papers : dict paper_data;
  _existing_manifest : manifest;
  fs : filesystem;
  clock : nat -> datetime;    (* the n-th call of utcnow() returns clock n *)
  ticks : nat;                (* calls of utcnow() so far *)
  stdout : list string;       (* printed lines, oldest first *)
  PIPELINE_RUN_AT : option string   (* os.environ.get("PIPELINE_RUN_AT") *)
}.

Definition set_papers (v : dict paper_data) (s : state) : state :=
  {| _existing_papers := v; _existing_manifest := _existing_manifest s;
     fs := fs s; clock := clock s; ticks := ticks s; stdout := stdout s;
     PIPELINE_RUN_AT := PIPELINE_RUN_AT s |}.

Definition set_manifest (v : manifest) (s : state) : state :=
  {| _existing_papers := _existing_papers s; _existing_manifest := v;
     fs := fs s; clock := clock s; ticks := ticks s; stdout := stdout s;
     PIPELINE_RUN_AT := PIPELINE_RUN_AT s |}.

Definition set_fs (v : filesystem) (s : state) : state :=
  {| _existing_papers := _existing_papers s;
     _existing_manifest := _existing_manifest s;
     fs := v; clock := clock s; ticks := ticks s; stdout := stdout s;
     PIPELINE_RUN_AT := PIPELINE_RUN_AT s |}.

(** ** A state-and-exception monad for the builder's methods *)

Inductive outcome (A : Type) :=
| Returns (a : A) (s : state)
| Raises (e : string).
Arguments Returns {A} a s.
Arguments Raises {A} e.

Definition M (A : Type) : Type := state -> outcome A.

#[export] Instance M_ret : MRet M := fun A a s => Returns a s.
#[export] Instance M_bind : MBind M := fun A B f m s =>
  match m s with
  | Returns a s' => f a s'
  | Raises e => Raises e
  end.

Definition get_state : M state := fun s => Returns s s.
Definition modify (f : state -> state) : M unit := fun s => Returns tt (f s).
Definition raise {A} (e : string) : M A := fun _ => Raises e.

(** [datetime.utcnow()] *)
Definition utcnow : M datetime := fun s =>
  Returns (clock s (ticks s))
    {| _existing_papers := _existing_papers s;
       _existing_manifest := _existing_manifest s;
       fs := fs s; clock := clock s; ticks := S (ticks s); stdout := stdout s;
       PIPELINE_RUN_AT := PIPELINE_RUN_AT s |}.

(** [print(text)] *)
Definition print (text : string) : M unit := fun s =>
  Returns tt
    {| _existing_papers := _existing_papers s;
       _existing_manifest := _existing_manifest s;
       fs := fs s; clock := clock s; ticks := ticks s;
       stdout := (stdout s ++ [text])%list;
       PIPELINE_RUN_AT := PIPELINE_RUN_AT s |}.

(** [path.write_text(...)] for a page or batch document. *)
Definition write_text (path : string) (c : content) : M unit :=
  modify (fun s =>
    set_fs {| manifest_json := manifest_json (fs s);
              papers_json := papers_json (fs s);
              written := dict_set path c (written (fs s)) |} s).

(** [for x in xs: body(x)] *)
Fixpoint for_each {A} (xs : list A) (body : A -> M unit) : M unit :=
  match xs with
  | [] => mret tt
  | x :: rest => body x ;; for_each rest body
  end.

(** [a / b] on paths. *)
Definition path_join (a b : string) : string := a +:+ "/" +:+ b.

(** [for x in xs: ...] where the body updates local variables [acc]. *)
Fixpoint for_each_acc {A B} (xs : list A) (acc : B) (body : A -> B -> M B) : M B :=
  match xs with
  | [] => mret acc
  | x :: rest => acc' ← body x acc; for_each_acc rest acc' body
  end.

(** ** [StaticSiteBuilder]: the data persistence layer *)

Section Builder.
Variable self : StaticSiteBuilder.

Definition _create_empty_manifest : manifest :=
  {| m_version := Some "2.0";
     m_base_url := Some (base_url (site_config self));
     m_last_updated := None;
     m_statistics := Some {| total_papers := Some 0; total_batches := Some 0 |};
     m_batches := Some [];
     m_papers := Some [];
     m_generated := None;
     m_topics := None |}.

(** [_load_existing_data]: a missing file, an [IOError] and a
    [JSONDecodeError] give the default; any other exception escapes. *)
Definition _load_existing_data : M unit :=
  s ← get_state;
  loaded_manifest ←
    match manifest_json (fs s) with
    | Missing => mret _create_empty_manifest
    | Unreadable | Malformed => mret _create_empty_manifest
    | Faulty e => raise e
    | Holds d => mret d
    end;
  modify (set_manifest loaded_manifest);;
  loaded_papers ←
    match papers_json (fs s) with
    | Missing => mret []
    | Unreadable | Malformed => mret []
    | Faulty e => raise e
    | Holds data => mret (default [] (pdoc_papers data))
    end;
  modify (set_papers loaded_papers).

(** [_get_batch_id] *)
Definition _get_batch_id : M string :=
  now ← utcnow;
  let '(year, week, _) := isocalendar now in
  mret (Py.str_of_Z year +:+ "-W" +:+ Py.fmt_02d week).

(** [list(set(names))]: the distinct names, in an order the set decides. *)
Definition list_of_set (X : gset string) : list string := elements X.

(** Apply [f] to the first element that satisfies [p]; this is the
    in-place update of the object that [next(...)] found. *)
Fixpoint update_first {A} (p : A -> bool) (f : A -> A) (l : list A) : list A :=
  match l with
  | [] => []
  | x :: l' => if p x then f x :: l' else x :: update_first p f l'
  end.

(** [_update_batch_info(batch_id, papers)] *)
Definition _update_batch_info (batch_id0 : string) (papers : list PaperSummary)
  : M unit :=
  let topics : list string :=
    list_of_set (list_to_set (map (fun p => topic_name (topic p)) papers)) in
  s ← get_state;
  let is_it := fun b : batch => String.eqb (batch_id b) batch_id0 in
  let existing_batch :=
    find is_it (default [] (m_batches (_existing_manifest s))) in
  match existing_batch with
  | Some _ =>
      modify (fun s =>
        let m := _existing_manifest s in
        set_manifest
          (set_m_batches
             (update_first is_it
                (fun b =>
                   {| batch_id := batch_id b;
                      batch_generated := batch_generated b;
                      paper_count := paper_count b + Z.of_nat (length papers);
                      batch_topics :=
                        Some (list_of_set
                                (list_to_set (default [] (batch_topics b))
                                 ∪ list_to_set topics)) |})
                (default [] (m_batches m))) m) s)
  | None =>
      now ← utcnow;
      modify (fun s =>
        let m := _existing_manifest s in
        set_manifest
          (set_m_batches
             ({| batch_id := batch_id0;
                 batch_generated := isoformat now;
                 paper_count := Z.of_nat (length papers);
                 batch_topics := Some topics |}
              :: default [] (m_batches m)) m) s)
  end;;
  (* Update statistics *)
  modify (fun s =>
    let m := _existing_manifest s in
    set_manifest
      (set_m_statistics
         {| total_papers := Some (dict_len (_existing_papers s));
            total_batches :=
              Some (Z.of_nat (length (default [] (m_batches m)))) |} m) s);;
  now ← utcnow;
  modify (fun s =>
    set_manifest (set_m_last_updated (isoformat now) (_existing_manifest s)) s).

(** The legacy topic mapping that [_save_manifest] rebuilds. *)
Definition topics_mapping (papers : dict index_entry) : dict (list string) :=
  fold_left (fun mapping '(arxiv_id, info) =>
               group_append (default "unknown" (ie_topic info)) arxiv_id mapping)
            papers [].

(** [_save_manifest(output_dir)] *)
Definition _save_manifest : M unit :=
  modify (fun s =>
    set_manifest (set_m_base_url (base_url (site_config self)) (_existing_manifest s)) s);;
  s ← get_state;
  generated ←
    match PIPELINE_RUN_AT s with
    | Some v => if Py.truthy v then mret v else (now ← utcnow; mret (isoformat now))
    | None => now ← utcnow; mret (isoformat now)
    end;
  modify (fun s =>
    set_manifest (set_m_generated generated (_existing_manifest s)) s);;
  modify (fun s =>
    let m := _existing_manifest s in
    set_manifest (set_m_topics (topics_mapping (default [] (m_papers m))) m) s);;
  modify (fun s =>
    set_fs {| manifest_json := Holds (_existing_manifest s);
              papers_json := papers_json (fs s);
              written := written (fs s) |} s).

(** [_save_paper_data(output_dir)] *)
Definition _save_paper_data : M unit :=
  modify (fun s =>
    set_fs {| manifest_json := manifest_json (fs s);
              papers_json :=
                Holds {| pdoc_version := Some "1.0";
                         pdoc_papers := Some (_existing_papers s) |};
              written := written (fs s) |} s).

(** [_render_batch_archive(output_dir, batch_id, papers)] *)
Definition _render_batch_archive (output_dir0 batch_id0 : string)
    (papers : list PaperSummary) : M unit :=
  let batch_dir := path_join (path_join output_dir0 "archives") batch_id0 in
  now ← utcnow;
  let batch_meta0 :=
    {| bm_id := batch_id0;
       bm_generated := isoformat now;
       bm_papers := map (fun p => arxiv_id (paper p)) papers |} in
  write_text (path_join batch_dir "batch.json") (BatchJson batch_meta0);;
  write_text (path_join batch_dir "index.html") (BatchIndexHtml batch_id0 papers).

(** [_render_main_index(output_dir, current_batch_id)] *)
Definition current_batch_entries (papers : dict paper_data) (current_batch_id : string)
  : list (string * list paper_data) :=
  let current_batch_papers :=
    filter (fun paper_data => pd_batch_id paper_data = Some current_batch_id)
           (map snd papers) in
  fold_left (fun topic_groups paper_data =>
               let topic_name :=
                 match pd_topic paper_data with
                 | Some t => default "Unknown" (ti_name t)
                 | None => "Unknown"
                 end in
               group_append topic_name paper_data topic_groups)
            current_batch_papers [].

Definition _render_main_index (output_dir0 current_batch_id : string) : M unit :=
  s ← get_state;
  let index_entries := current_batch_entries (_existing_papers s) current_batch_id in
  let total_papers0 :=
    match m_statistics (_existing_manifest s) with
    | Some st => default (dict_len (_existing_papers s)) (total_papers st)
    | None => dict_len (_existing_papers s)
    end in
  let total_batches0 :=
    Z.of_nat (length (default [] (m_batches (_existing_manifest s)))) in
  now ← utcnow;
  let index_html :=
    _render_index_with_archives self (strftime_ymd now) index_entries
      total_papers0 total_batches0 current_batch_id in
  write_text (path_join output_dir0 "index.html") (PageHtml index_html).

(** [_render_archive_index(output_dir)] *)
Definition _render_archive_index (output_dir0 : string) : M unit :=
  s ← get_state;
  let batches := default [] (m_batches (_existing_manifest s)) in
  write_text (path_join (path_join output_dir0 "archives") "index.html")
             (ArchiveListingHtml batches).

(** ** [StaticSiteBuilder.build] *)

(** The manifest index entry of an accepted summary. *)
Definition index_entry_of (batch_id0 : string) (summary : PaperSummary) : index_entry :=
  {| ie_topic := Some (topic_name (topic summary));
     ie_batch := batch_id0;
     ie_title := title (paper summary);
     ie_published :=
       match published (paper summary) with
       | Some d => strftime_ymd d
       | None => ""
       end;
     ie_score := _format_score (score_details summary) |}.

Definition stamp (batch_id0 indexed_at : string) (d : paper_data) : paper_data :=
  {| pd_paper := pd_paper d; pd_topic := pd_topic d;
     pd_core_summary := pd_core_summary d; pd_task_list := pd_task_list d;
     pd_findings := pd_findings d; pd_overview := pd_overview d;
     pd_brief_summary := pd_brief_summary d;
     pd_score_details := pd_score_details d;
     pd_batch_id := Some batch_id0;
     pd_indexed_at := Some indexed_at |}.

(** The body of the loop of step 3; the local variables are
    [(new_papers, topic_groups)]. *)
Definition process_summary (batch_id0 : string) (summary : PaperSummary)
    (locals : list PaperSummary * dict (list PaperSummary))
  : M (list PaperSummary * dict (list PaperSummary)) :=
  let '(new_papers, topic_groups) := locals in
  let arxiv_id0 := arxiv_id (paper summary) in
  s ← get_state;
  if dict_mem arxiv_id0 (_existing_papers s) then
    print ("[INFO] Paper " +:+ arxiv_id0 +:+ " already exists, skipping...");;
    mret (new_papers, topic_groups)
  else
    now ← utcnow;
    let paper_data0 := stamp batch_id0 (isoformat now) (PaperSummary_to_dict summary) in
    modify (fun s => set_papers (dict_set arxiv_id0 paper_data0 (_existing_papers s)) s);;
    modify (fun s =>
      let m := _existing_manifest s in
      set_manifest
        (set_m_papers
           (dict_set arxiv_id0 (index_entry_of batch_id0 summary)
                     (default [] (m_papers m))) m) s);;
    mret ((new_papers ++ [summary])%list,
          group_append (topic_name (topic summary)) summary topic_groups).

(** Step 4: the detail pages of the accepted summaries. *)
Definition write_detail_pages (output_dir0 : string)
    (topic_groups : dict (list PaperSummary)) : M unit :=
  for_each topic_groups (fun '(topic_name0, topic_summaries) =>
    let topic_dir := path_join (path_join output_dir0 "topics") topic_name0 in
    for_each topic_summaries (fun summary =>
      let file_name := arxiv_id (paper summary) +:+ ".html" in
      write_text (path_join topic_dir file_name)
                 (PageHtml (_render_paper self summary)))).

Definition build (summaries : list PaperSummary) : M (dict string) :=
  let output_dir0 := output_dir (site_config self) in
  (* Step 1 *)
  _load_existing_data;;
  (* Step 3 *)
  batch_id0 ← _get_batch_id;
  '(new_papers, topic_groups) ←
    for_each_acc summaries ([], []) (process_summary batch_id0);
  (* Step 4 *)
  write_detail_pages output_dir0 topic_groups;;
  (* Step 5 *)
  match new_papers with
  | _ :: _ =>
      _update_batch_info batch_id0 new_papers;;
      _render_batch_archive output_dir0 batch_id0 new_papers;;
      print ("[INFO] Added " +:+ Py.str_of_Z (Z.of_nat (length new_papers))
             +:+ " new papers to batch " +:+ batch_id0)
  | [] => print "[INFO] No new papers to add"
  end;;
  (* Step 6 *)
  _render_main_index output_dir0 batch_id0;;
  _render_archive_index output_dir0;;
  (* Step 7 *)
  _save_manifest;;
  _save_paper_data;;
  mret [("index", path_join output_dir0 "index.html")].

End Builder.

(** ** [publisher/github_committer.py] *)

Module GitHub.

Record PaperMetadata := {
  title : string;
  published_date : string;
  venue : string;
  arxiv_id : string;
  arxiv_url : string
}.

(** [PaperMetadata.to_markdown_row] *)
Definition to_markdown_row (self : PaperMetadata) : string :=
  let cleaned_title := Py.join " " (Py.words (title self)) in
  let cleaned_venue := Py.join " " (Py.words (venue self)) in
  let title_with_link :=
    if Py.truthy (arxiv_url self)
    then "[" +:+ cleaned_title +:+ "](" +:+ arxiv_url self +:+ ")"
    else cleaned_title in
  "| " +:+ title_with_link +:+ " | " +:+ published_date self +:+ " | "
  +:+ cleaned_venue +:+ " |".

Definition table_header : string :=
  "| Title | Published Date | Venue/Conference |" +:+ Py.nl +:+ "| --- | --- | --- |".

(** Is [line] a table row that carries a title? *)
Definition is_title_row (line : string) : bool :=
  Py.startswith "| [" line
  || (Py.startswith "| " line
      && negb (Py.startswith "| Title" line)
      && negb (Py.startswith "| ---" line)).

(** The title that the parser reads off a row, when the row has one. *)
Definition row_title (line : string) : option string :=
  let parts := Py.split "|" line in
  match parts with
  | _ :: part1 :: _ =>
      let title_part := Py.strip part1 in
      if Py.startswith "[" title_part
      then Some (Py.tail (hd "" (Py.split "]" title_part)))
      else Some title_part
  | _ => None
  end.

(** The set [existing_titles]. *)
Definition existing_titles (existing_content : string) : gset string :=
  if Py.truthy existing_content then
    fold_left (fun titles line =>
                 if is_title_row line then
                   match row_title line with
                   | Some t => titles ∪ {[ t ]}
                   | None => titles
                   end
                 else titles)
              (Py.split Py.nl existing_content) ∅
  else ∅.

(** The rows of the papers whose title is not in the table yet. *)
Definition new_rows (papers : list PaperMetadata) (existing_content : string)
  : list string :=
  map to_markdown_row
    (filter (fun paper => title paper ∉ existing_titles existing_content) papers).

(** The loop that copies the lines and puts the new rows after the first
    separator line; [inserted] is the flag of the source. *)
Fixpoint insert_after_separator (rows : list string) (inserted : bool)
    (lines : list string) : list string * bool :=
  match lines with
  | [] => ([], inserted)
  | line :: rest =>
      if negb inserted && Py.startswith "| ---" line && Py.contains "---" line
      then let '(out, fl) := insert_after_separator rows true rest in
           ((line :: rows) ++ out, fl)%list
      else let '(out, fl) := insert_after_separator rows inserted rest in
           (line :: out, fl)
  end.

(** [GitHubCommitter._build_markdown_table(papers, existing_content)];
    [timestamp] is [datetime.utcnow().strftime("%Y-%m-%d %H:%M UTC")]. *)
Definition _build_markdown_table (timestamp : string)
    (papers : list PaperMetadata) (existing_content : string) : string :=
  let rows := new_rows papers existing_content in
  match rows with
  | [] => existing_content
  | _ :: _ =>
      if Py.contains table_header existing_content
         || Py.contains "| Title |" existing_content
      then
        let lines := Py.split Py.nl existing_content in
        let '(result_lines, inserted) := insert_after_separator rows false lines in
        let result_lines :=
          if inserted then result_lines else (result_lines ++ rows)%list in
        Py.join Py.nl result_lines
      else
        let content_lines :=
          ([ "# Paper Updates"; "";
             "*Last updated: " +:+ timestamp +:+ "*"; "";
             table_header ] ++ rows)%list in
        let content_lines :=
          if Py.truthy existing_content
          then (content_lines ++ [""; "---"; ""; existing_content])%list
          else content_lines in
        Py.join Py.nl content_lines
  end.

(** The remote repository as [commit_papers] sees it. *)
Inductive api_call :=
| create_git_ref
| update_file (content : string)
| create_file (content : string).

Record remote := {
  repo_accessible : bool;      (* get_repo succeeds *)
  branch_exists : bool;        (* get_branch succeeds *)
  branch_creatable : bool;     (* create_git_ref succeeds *)
  file_content : option string; (* the file on the branch, if it exists *)
  update_succeeds : bool;
  create_succeeds : bool;
  calls : list api_call        (* the writing calls made, oldest first *)
}.

Definition called (c : api_call) (r : remote) : remote :=
  {| repo_accessible := repo_accessible r; branch_exists := branch_exists r;
     branch_creatable := branch_creatable r; file_content := file_content r;
     update_succeeds := update_succeeds r; create_succeeds := create_succeeds r;
     calls := (calls r ++ [c])%list |}.

(** [_get_or_create_branch]: [inl] is the [ValueError] it raises. *)
Definition _get_or_create_branch (r : remote) : string + remote :=
  if negb (repo_accessible r) then inl "ValueError"
  else if branch_exists r then inr r
  else if branch_creatable r then inr (called create_git_ref r)
  else inl "ValueError".

(** [_get_existing_content] *)
Definition _get_existing_content (r : remote) : string :=
  default "" (file_content r).

(** [commit_papers(papers, commit_message)]: the returned flag and the
    remote afterwards, or the exception. *)
Definition commit_papers (timestamp : string) (papers : list PaperMetadata)
    (r : remote) : string + (bool * remote) :=
  match papers with
  | [] => inr (true, r)
  | _ :: _ =>
      match _get_or_create_branch r with
      | inl e => inl e
      | inr r =>
          let existing_content := _get_existing_content r in
          let new_content := _build_markdown_table timestamp papers existing_content in
          if String.eqb new_content existing_content then inr (true, r)
          else
            match file_content r with
            | Some _ =>
                let r := called (update_file new_content) r in
                if update_succeeds r then inr (true, r)
                else
                  let r := called (create_file new_content) r in
                  if create_succeeds r then inr (true, r) else inr (false, r)
            | None =>
                let r := called (create_file new_content) r in
                if create_succeeds r then inr (true, r) else inr (false, r)
            end
      end
  end.

End GitHub.

(** ** Notions used to state the properties *)

(** *** Batch identifiers *)

Definition digit_char (d : Z) : ascii := ascii_of_nat (48 + Z.to_nat d).

(** The two decimal digits of a number below 100. *)
Definition two_digits (n : Z) : string :=
  String (digit_char (n / 10)) (String (digit_char (n mod 10)) "").

(** *** Escaped text *)




(** The values that a page interpolates without escaping, in page order. *)
Definition raw_of (p : piece) : option string :=
  match p with Raw x => Some x | _ => None end.

Definition raw_texts (pg : page) : list string := omap raw_of (pieces pg).

(** A page with the content of every escaped piece blanked: what is left
    is the template and the unescaped values. *)
Definition erase (p : piece) : piece :=
  match p with
  | Esc _ => Esc ""
  | EscBr old _ => EscBr old ""
  | other => other
  end.
Definition skeleton (pg : page) : list piece := map erase (pieces pg).





(** *** Ingestion *)

Definition summary_id (s : PaperSummary) : string := arxiv_id (paper s).

(** The summaries that a build accepts when the store holds the keys
    [seen]: those whose identifier is not in the store when their turn
    comes. *)
Fixpoint accepted (seen : list string) (xs : list PaperSummary) : list PaperSummary :=
  match xs with
  | [] => []
  | x :: rest =>
      if bool_decide (summary_id x ∈ seen) then accepted seen rest
      else x :: accepted (seen ++ [summary_id x])%list rest
  end.

(** A sequence of summaries with each identifier kept once, at its first
    occurrence. *)
Fixpoint dedup_by_id (xs : list PaperSummary) : list PaperSummary :=
  match xs with
  | [] => []
  | x :: rest =>
      x :: filter (fun y => summary_id y ≠ summary_id x) (dedup_by_id rest)
  end.

(** *** What is on disk *)


(** Reading the document does not raise an exception that the loader lets
    through. *)
Definition readable {D} (f : file D) : Prop :=
  match f with Faulty _ => False | _ => True end.

Definition loadable (s : state) : Prop :=
  readable (manifest_json (fs s)) /\ readable (papers_json (fs s)).

(** The Paper Store that a build starts from. *)
Definition stored_papers (s : state) : dict paper_data :=
  match papers_json (fs s) with
  | Holds data => default [] (pdoc_papers data)
  | _ => []
  end.

(** The manifest that a build starts from. *)
Definition stored_manifest (self : StaticSiteBuilder) (s : state) : manifest :=
  match manifest_json (fs s) with
  | Holds d => d
  | _ => _create_empty_manifest self
  end.

Definition batches_of (m : manifest) : list batch := default [] (m_batches m).
Definition index_of (m : manifest) : dict index_entry := default [] (m_papers m).
Definition topics_of (b : batch) : list string := default [] (batch_topics b).

(** The statistics invariant on the persisted documents. *)
Definition statistics_consistent (s : state) : Prop :=
  exists m store,
    manifest_json (fs s) = Holds m /\
    papers_json (fs s) = Holds store /\
    (total_papers <$> m_statistics m)
      = Some (Some (dict_len (default [] (pdoc_papers store)))) /\
    (total_batches <$> m_statistics m)
      = Some (Some (Z.of_nat (length (batches_of m)))).

(** [old] survives in [new]: the entries of [old] are the last entries of
    [new], in the same order, each with the same id, a paper count that is
    not smaller and a topic set that is not smaller. *)
Definition batch_le (b b' : batch) : Prop :=
  batch_id b' = batch_id b /\
  paper_count b <= paper_count b' /\
  (forall t, t ∈ topics_of b -> t ∈ topics_of b').

Definition batches_grow (old new : list batch) : Prop :=
  exists added : nat,
    (added + length old = length new)%nat /\
    Forall2 batch_le old (skipn added new).

(** Successive builds, each starting from what the previous one left. *)
Fixpoint builds (self : StaticSiteBuilder) (runs : list (list PaperSummary))
  : M unit :=
  match runs with
  | [] => mret tt
  | xs :: rest => build self xs ;; builds self rest
  end.

(** How many lines of [content] are the table row of [paper]. *)
Definition row_count (paper : GitHub.PaperMetadata) (content : string) : nat :=
  length (filter (fun line => line = GitHub.to_markdown_row paper)
                 (Py.split Py.nl content)).

(** Reading something off the state that a run leaves. *)
Definition after {A} (o : outcome unit) (f : state -> option A) : option A :=
  match o with Returns _ s => f s | Raises _ => None end.

(** *** The score as the specification writes it *)

Definition Qsum (l : list Q) : Q := fold_left Qplus l 0%Q.

(** [100 * Σ(weight·value) / Σ(weight)] in exact arithmetic, with the
    denominator 1 when the weights add up to zero. *)
Definition exact_quotient (sp : ScoredPaper) : Q :=
  let W := Qsum (map (fun d => Float.to_Q (weight d)) (scores sp)) in
  let V := Qsum (map (fun d => (Float.to_Q (weight d) * Float.to_Q (value d))%Q)
                     (scores sp)) in
  (100 * V / (if Qeq_bool W 0 then 1 else W))%Q.

Definition finite_scores (sp : ScoredPaper) : Prop :=
  Forall (fun d => Float.is_finite (weight d) = true /\
                   Float.is_finite (value d) = true) (scores sp).

(** "The rendered normalized score equals 100 * Σ(weight·value) /
    Σ(weight)", for finite weights and values. *)
Definition rendered_score_is_exact_quotient : Prop :=
  forall sp, finite_scores sp -> _format_score sp = Fmt.fixed 1 (exact_quotient sp).

(** *** Three sentences of the specification, as they are written *)

(** "After any build, total_papers == size(paper store) and
    total_batches == length(manifest.batches)." *)
Definition statistics_hold_after_any_build : Prop :=
  forall self xs s r s',
    build self xs s = Returns r s' -> statistics_consistent s'.



(** *** Relations between the states of a run, used in the proofs *)

(** What the loop of step 3 leaves unchanged, and what it adds. *)
Record loop_post (xs : list PaperSummary) (s s' : state) : Prop := {
  lp_keys :
    dict_keys (_existing_papers s')
    = (dict_keys (_existing_papers s)
       ++ map summary_id (accepted (dict_keys (_existing_papers s)) xs))%list;
  lp_old_papers :
    forall k, k ∈ dict_keys (_existing_papers s) ->
      dict_get k (_existing_papers s') = dict_get k (_existing_papers s);
  lp_old_index :
    forall k, k ∈ dict_keys (_existing_papers s) ->
      dict_get k (index_of (_existing_manifest s'))
      = dict_get k (index_of (_existing_manifest s));
  lp_none :
    accepted (dict_keys (_existing_papers s)) xs = [] ->
    _existing_papers s' = _existing_papers s /\
    _existing_manifest s' = _existing_manifest s;
  lp_batches : m_batches (_existing_manifest s') = m_batches (_existing_manifest s);
  lp_statistics :
    m_statistics (_existing_manifest s') = m_statistics (_existing_manifest s);
  lp_last_updated :
    m_last_updated (_existing_manifest s') = m_last_updated (_existing_manifest s);
  lp_fs : fs s' = fs s;
  lp_clock : clock s' = clock s;
  lp_env : PIPELINE_RUN_AT s' = PIPELINE_RUN_AT s;
  lp_ticks : (ticks s <= ticks s')%nat
}.

(** A step that touches neither the builder's two fields nor the two JSON
    documents: it may write pages, print and read the clock. *)
Record same_data (s s' : state) : Prop := {
  sd_papers : _existing_papers s' = _existing_papers s;
  sd_manifest : _existing_manifest s' = _existing_manifest s;
  sd_manifest_json : manifest_json (fs s') = manifest_json (fs s);
  sd_papers_json : papers_json (fs s') = papers_json (fs s);
  sd_clock : clock s' = clock s;
  sd_env : PIPELINE_RUN_AT s' = PIPELINE_RUN_AT s;
  sd_ticks : (ticks s <= ticks s')%nat
}.

(** The batch entry that [_update_batch_info] leaves for an existing one. *)
Definition bump (n : nat) (topics : list string) (b : batch) : batch :=
  {| batch_id := batch_id b;
     batch_generated := batch_generated b;
     paper_count := paper_count b + Z.of_nat n;
     batch_topics :=
       Some (list_of_set (list_to_set (topics_of b) ∪ list_to_set topics)) |}.

Definition run_topics (papers : list PaperSummary) : list string :=
  list_of_set (list_to_set (map (fun p => topic_name (topic p)) papers)).

Definition has_id (bid : string) (b : batch) : bool := String.eqb (batch_id b) bid.

(** The batch entry made for a batch id that the manifest does not have. *)
Definition fresh_batch (bid generated : string) (papers : list PaperSummary) : batch :=
  {| batch_id := bid; batch_generated := generated;
     paper_count := Z.of_nat (length papers);
     batch_topics := Some (run_topics papers) |}.

(** The effect of [_update_batch_info(bid, np)]. *)
Record batch_info_updated (bid : string) (np : list PaperSummary) (s s' : state)
  : Prop := {
  bu_papers : _existing_papers s' = _existing_papers s;
  bu_fs : fs s' = fs s;
  bu_clock : clock s' = clock s;
  bu_env : PIPELINE_RUN_AT s' = PIPELINE_RUN_AT s;
  bu_ticks : (ticks s <= ticks s')%nat;
  bu_index : m_papers (_existing_manifest s') = m_papers (_existing_manifest s);
  bu_statistics :
    m_statistics (_existing_manifest s')
    = Some {| total_papers := Some (dict_len (_existing_papers s));
              total_batches :=
                Some (Z.of_nat (length (batches_of (_existing_manifest s')))) |};
  bu_last_updated :
    exists k, (ticks s <= k < ticks s')%nat /\
      m_last_updated (_existing_manifest s') = Some (isoformat (clock s k));
  bu_batches :
    match find (has_id bid) (batches_of (_existing_manifest s)) with
    | Some _ =>
        batches_of (_existing_manifest s')
        = update_first (has_id bid) (bump (length np) (run_topics np))
            (batches_of (_existing_manifest s))
    | None =>
        exists g,
          batches_of (_existing_manifest s')
          = fresh_batch bid g np :: batches_of (_existing_manifest s)
    end
}.

(** The effect of [_save_manifest]. *)
Record manifest_saved (self : StaticSiteBuilder) (s s' : state) : Prop := {
  ms_json : manifest_json (fs s') = Holds (_existing_manifest s');
  ms_papers_json : papers_json (fs s') = papers_json (fs s);
  ms_papers : _existing_papers s' = _existing_papers s;
  ms_index : m_papers (_existing_manifest s') = m_papers (_existing_manifest s);
  ms_batches : m_batches (_existing_manifest s') = m_batches (_existing_manifest s);
  ms_statistics :
    m_statistics (_existing_manifest s') = m_statistics (_existing_manifest s);
  ms_last_updated :
    m_last_updated (_existing_manifest s') = m_last_updated (_existing_manifest s);
  ms_clock : clock s' = clock s;
  ms_env : PIPELINE_RUN_AT s' = PIPELINE_RUN_AT s;
  ms_ticks : (ticks s <= ticks s')%nat;
  ms_base_url :
    m_base_url (_existing_manifest s') = Some (base_url (site_config self));
  ms_generated : is_Some (m_generated (_existing_manifest s'))
}.

(** The effect of [_save_paper_data]. *)
Record papers_saved (s s' : state) : Prop := {
  ps_json :
    papers_json (fs s')
    = Holds {| pdoc_version := Some "1.0"; pdoc_papers := Some (_existing_papers s) |};
  ps_manifest_json : manifest_json (fs s') = manifest_json (fs s);
  ps_clock : clock s' = clock s;
  ps_env : PIPELINE_RUN_AT s' = PIPELINE_RUN_AT s;
  ps_ticks : ticks s' = ticks s
}.

(** The batch id computed from a time. *)
Definition batch_id_of (now : datetime) : string :=
  let '(year, week, _) := isocalendar now in
  Py.str_of_Z year +:+ "-W" +:+ Py.fmt_02d week.

(** What one [build] does to the persisted documents: [s] is the state
    before, [s'] the state after. *)
Record build_post (self : StaticSiteBuilder) (xs : list PaperSummary)
    (s s' : state) : Prop := {
  bp_manifest_json : manifest_json (fs s') = Holds (stored_manifest self s');
  bp_papers_json :
    papers_json (fs s')
    = Holds {| pdoc_version := Some "1.0"; pdoc_papers := Some (stored_papers s') |};
  bp_keys :
    dict_keys (stored_papers s')
    = (dict_keys (stored_papers s)
       ++ map summary_id (accepted (dict_keys (stored_papers s)) xs))%list;
  bp_old_papers :
    forall k, k ∈ dict_keys (stored_papers s) ->
      dict_get k (stored_papers s') = dict_get k (stored_papers s);
  bp_old_index :
    forall k, k ∈ dict_keys (stored_papers s) ->
      dict_get k (index_of (stored_manifest self s'))
      = dict_get k (index_of (stored_manifest self s));
  bp_none :
    accepted (dict_keys (stored_papers s)) xs = [] ->
    stored_papers s' = stored_papers s /\
    m_papers (stored_manifest self s') = m_papers (stored_manifest self s) /\
    m_batches (stored_manifest self s') = m_batches (stored_manifest self s) /\
    m_statistics (stored_manifest self s') = m_statistics (stored_manifest self s) /\
    m_last_updated (stored_manifest self s')
    = m_last_updated (stored_manifest self s);
  bp_some :
    accepted (dict_keys (stored_papers s)) xs <> [] ->
    m_statistics (stored_manifest self s')
    = Some {| total_papers := Some (dict_len (stored_papers s'));
              total_batches :=
                Some (Z.of_nat (length (batches_of (stored_manifest self s')))) |} /\
    (exists k, (ticks s <= k < ticks s')%nat /\
       m_last_updated (stored_manifest self s') = Some (isoformat (clock s k))) /\
    let bid := batch_id_of (clock s (ticks s)) in
    let np := accepted (dict_keys (stored_papers s)) xs in
    match find (has_id bid) (batches_of (stored_manifest self s)) with
    | Some _ =>
        batches_of (stored_manifest self s')
        = update_first (has_id bid) (bump (length np) (run_topics np))
            (batches_of (stored_manifest self s))
    | None =>
        exists g,
          batches_of (stored_manifest self s')
          = fresh_batch bid g np :: batches_of (stored_manifest self s)
    end;
  bp_clock : clock s' = clock s;
  bp_env : PIPELINE_RUN_AT s' = PIPELINE_RUN_AT s;
  bp_ticks : (ticks s < ticks s')%nat;
  bp_base_url :
    m_base_url (stored_manifest self s') = Some (base_url (site_config self));
  bp_generated : is_Some (m_generated (stored_manifest self s'))
}.

(** ** Sample inputs, used by the examples *)

Module Sample.

Definition site : SiteConfig :=
  {| output_dir := "site"; base_url := "https://example.org/radar" |}.

Definition builder : StaticSiteBuilder := new_builder site (Some "en").

(** A clock inside ISO week 37 of 2024. *)
Definition week37 (n : nat) : datetime :=
  {| isocalendar := (2024, 37, 2);
     isoformat := "2024-09-10T08:00:00." +:+ Py.str_of_Z (Z.of_nat n);
     strftime_ymd := "2024-09-10" |}.

Definition nlp : TopicConfig :=
  {| topic_name := "nlp"; topic_label := "NLP"; interest_prompt := "" |}.

Definition candidate (id t : string) : PaperCandidate :=
  {| pc_topic := nlp; arxiv_id := id; title := t; abstract := "";
     authors := ["A. Author"]; categories := ["cs.CL"];
     published := Some (week37 0); updated := Some (week37 0);
     arxiv_url := "https://arxiv.org/abs/" +:+ id;
     pdf_url := None; affiliations := []; comment := None |}.

(** The float that a decimal literal [n/d] denotes. *)
Definition decimal (n d : Z) : Float.float := Float.div (Float.of_Z n) (Float.of_Z d).
Definition one : Float.float := Float.of_Z 1.
Definition half : Float.float := decimal 5 10.

Definition scored (id t : string) : ScoredPaper :=
  {| sp_paper := candidate id t;
     scores := [ {| dim_name := "novelty"; weight := one; value := half |};
                 {| dim_name := "fit"; weight := Float.of_Z 3; value := one |} ];
     total_score := Float.div (Float.of_Z 7) (Float.of_Z 2) |}.

Definition summary (id t : string) : PaperSummary :=
  {| paper := candidate id t; topic := nlp; core_summary := None;
     task_list := [ {| question := "What is new?"; reason := "novelty" |} ];
     findings := [ {| task := {| question := "What is new?"; reason := "novelty" |};
                      answer := "A <b>bold</b> claim";
                      confidence := decimal 9 10 |} ];
     overview := "Overview"; score_details := scored id t;
     markdown := ""; brief_summary := "Brief" |}.

Definition p1 : PaperSummary := summary "2401.00001" "First paper".
Definition p2 : PaperSummary := summary "2401.00002" "<script>alert(1)</script>".
Definition p3 : PaperSummary := summary "2401.00003" "Third paper".

(** An output directory with nothing in it. *)
Definition empty_world : state :=
  {| _existing_papers := []; _existing_manifest := empty_dict_manifest;
     fs := {| manifest_json := Missing; papers_json := Missing; written := [] |};
     clock := week37; ticks := 0; stdout := [];
     PIPELINE_RUN_AT := None |}.

(** The same directory after [manifest.json] was lost: the store still
    holds the first paper, ingested a week earlier. *)
Definition manifest_lost : state :=
  {| _existing_papers := []; _existing_manifest := empty_dict_manifest;
     fs := {| manifest_json := Missing;
              papers_json :=
                Holds {| pdoc_version := Some "1.0";
                         pdoc_papers :=
                           Some [ ("2401.00001",
                                   stamp "2024-W36" "2024-09-03T08:00:00"
                                         (PaperSummary_to_dict p1)) ] |};
              written := [] |};
     clock := week37; ticks := 0; stdout := [];
     PIPELINE_RUN_AT := None |}.

(** The directory after a first run of week 37 that took in the first
    two papers. *)
Definition started : state :=
  {| _existing_papers := []; _existing_manifest := empty_dict_manifest;
     fs := {| manifest_json :=
                Holds {| m_version := Some "2.0";
                         m_base_url := Some "https://example.org/radar";
                         m_last_updated := Some "2024-09-09T08:00:00";
                         m_statistics :=
                           Some {| total_papers := Some 2; total_batches := Some 1 |};
                         m_batches :=
                           Some [ {| batch_id := "2024-W37";
                                     batch_generated := "2024-09-09T08:00:00";
                                     paper_count := 2;
                                     batch_topics := Some ["nlp"] |} ];
                         m_papers :=
                           Some [ ("2401.00001", index_entry_of "2024-W37" p1);
                                  ("2401.00002", index_entry_of "2024-W37" p2) ];
                         m_generated := Some "2024-09-09T08:00:00";
                         m_topics := Some [ ("nlp", ["2401.00001"; "2401.00002"]) ] |};
              papers_json :=
                Holds {| pdoc_version := Some "1.0";
                         pdoc_papers :=
                           Some [ ("2401.00001",
                                   stamp "2024-W37" "2024-09-09T08:00:00"
                                         (PaperSummary_to_dict p1));
                                  ("2401.00002",
                                   stamp "2024-W37" "2024-09-09T08:00:00"
                                         (PaperSummary_to_dict p2)) ] |};
              written := [] |};
     clock := week37; ticks := 0; stdout := [];
     PIPELINE_RUN_AT := None |}.

(** A style sheet text, for examples that print a page. *)
Definition css (w : stylesheet) : string :=
  match w with PaperStyle => "/* paper */" | IndexStyle => "/* index */" end.

(** The candidate that [_build_offline_demo_candidate] makes for the
    topic, as the pipeline hands it to the committer. *)
Definition demo_row : GitHub.PaperMetadata :=
  {| GitHub.title := "[Demo] NLP Automated Test Example";
     GitHub.published_date := "2024-09-10";
     GitHub.venue := "arXiv";
     GitHub.arxiv_id := "demo-nlp-080000";
     GitHub.arxiv_url := "https://arxiv.org/abs/0000.00000" |}.

(** A title as the arXiv feed wraps it: a line break inside. *)
Definition wrapped_row : GitHub.PaperMetadata :=
  {| GitHub.title := "Automated Program Repair" +:+ Py.nl +:+ "  with Language Models";
     GitHub.published_date := "2024-09-10";
     GitHub.venue := "ICSE 2025";
     GitHub.arxiv_id := "2401.00001";
     GitHub.arxiv_url := "https://arxiv.org/abs/2401.00001" |}.

Definition plain_row : GitHub.PaperMetadata :=
  {| GitHub.title := "Automated Program Repair";
     GitHub.published_date := "2024-09-10";
     GitHub.venue := "ICSE 2025";
     GitHub.arxiv_id := "2401.00002";
     GitHub.arxiv_url := "https://arxiv.org/abs/2401.00002" |}.

Definition timestamp : string := "2024-09-10 08:00 UTC".

(** A repository whose branch exists and whose file holds [content]. *)
Definition remote_with (content : option string) : GitHub.remote :=
  {| GitHub.repo_accessible := true; GitHub.branch_exists := true;
     GitHub.branch_creatable := true; GitHub.file_content := content;
     GitHub.update_succeeds := true; GitHub.create_succeeds := true;
     GitHub.calls := [] |}.

(** Weights 0.25 and 0.75 with values 0.0 and 0.55. *)
Definition rounding_case : ScoredPaper :=
  {| sp_paper := candidate "2401.00004" "Fourth paper";
     scores := [ {| dim_name := "novelty"; weight := decimal 25 100;
                    value := Float.of_Z 0 |};
                 {| dim_name := "fit"; weight := decimal 75 100;
                    value := decimal 55 100 |} ];
     total_score := decimal 4125 10000 |}.

End Sample.

(** ** Notions for the further properties *)

(** The distinct elements of a list, in order of first appearance. *)
Fixpoint first_seen (l : list string) : list string :=
  match l with
  | [] => []
  | k :: rest => k :: filter (fun k' => k' <> k) (first_seen rest)
  end.

(** [groups[key(x)].append(val(x))] for each [x] of [xs], in order: the
    loop that fills a [defaultdict(list)]. *)
Definition grouped {A B} (key : A -> string) (val : A -> B) (xs : list A)
    (groups : dict (list B)) : dict (list B) :=
  fold_left (fun g x => group_append (key x) (val x) g) xs groups.

(** The topic under which [_save_manifest] files an index entry. *)
Definition index_topic (p : string * index_entry) : string :=
  default "unknown" (ie_topic (snd p)).

(** The topic under which [_render_main_index] groups a stored record. *)
Definition record_topic (d : paper_data) : string :=
  match pd_topic d with
  | Some t => default "Unknown" (ti_name t)
  | None => "Unknown"
  end.

(** *** What a build does besides updating the two documents *)

(** The summaries that a build skips when the store holds the keys
    [seen]: those whose identifier is in the store when their turn comes. *)
Fixpoint skipped (seen : list string) (xs : list PaperSummary) : list PaperSummary :=
  match xs with
  | [] => []
  | x :: rest =>
      if bool_decide (summary_id x ∈ seen) then x :: skipped seen rest
      else skipped (seen ++ [summary_id x])%list rest
  end.

(** The line printed for a skipped summary. *)
Definition skip_line (x : PaperSummary) : string :=
  "[INFO] Paper " +:+ summary_id x +:+ " already exists, skipping...".

(** The line printed by step 5. *)
Definition summary_line (bid : string) (new_papers : list PaperSummary) : string :=
  match new_papers with
  | _ :: _ =>
      "[INFO] Added " +:+ Py.str_of_Z (Z.of_nat (length new_papers))
      +:+ " new papers to batch " +:+ bid
  | [] => "[INFO] No new papers to add"
  end.

(** Where the detail page of a summary goes. *)
Definition detail_path (out : string) (x : PaperSummary) : string :=
  path_join (path_join (path_join out "topics") (topic_name (topic x)))
            (summary_id x +:+ ".html").

(** The topic of a summary, as the loop of step 3 groups by it. *)
Definition summary_topic (x : PaperSummary) : string := topic_name (topic x).

(** Writing the files [ws], oldest first, onto the files [w]. *)
Definition write_all (ws : list (string * content)) (w : dict content)
  : dict content :=
  fold_left (fun w pc => dict_set (fst pc) (snd pc) w) ws w.

(** The files written and the lines printed between two states. *)
Record io_effect (ws : list (string * content)) (lines : list string)
    (s s' : state) : Prop := {
  io_written : written (fs s') = write_all ws (written (fs s));
  io_stdout : stdout s' = (stdout s ++ lines)%list
}.

(** The detail pages that step 4 writes for the groups of step 3. *)
Definition detail_writes (self : StaticSiteBuilder) (out : string)
    (topic_groups : dict (list PaperSummary)) : list (string * content) :=
  concat (map (fun '(topic_name0, topic_summaries) =>
                 map (fun summary =>
                        (path_join (path_join (path_join out "topics") topic_name0)
                                   (arxiv_id (paper summary) +:+ ".html"),
                         PageHtml (_render_paper self summary)))
                     topic_summaries)
              topic_groups).

(** The two files of the batch archive. *)
Definition batch_writes (out bid generated : string) (papers : list PaperSummary)
  : list (string * content) :=
  let batch_dir := path_join (path_join out "archives") bid in
  [ (path_join batch_dir "batch.json",
     BatchJson {| bm_id := bid; bm_generated := generated;
                  bm_papers := map summary_id papers |});
    (path_join batch_dir "index.html", BatchIndexHtml bid papers) ].

(** Step 5 of [build], for the new papers of step 3. *)
Definition step5 (out bid : string) (new_papers : list PaperSummary) : M unit :=
  match new_papers with
  | _ :: _ =>
      _update_batch_info bid new_papers;;
      _render_batch_archive out bid new_papers;;
      print ("[INFO] Added " +:+ Py.str_of_Z (Z.of_nat (length new_papers))
             +:+ " new papers to batch " +:+ bid)
  | [] => print "[INFO] No new papers to add"
  end.

(** The index page that [_render_main_index] computes from the store
    [papers] and the manifest [m], at the date [update_time]. *)
Definition main_index_page (self : StaticSiteBuilder) (bid update_time : string)
    (papers : dict paper_data) (m : manifest) : page :=
  _render_index_with_archives self update_time
    (current_batch_entries papers bid)
    (match m_statistics m with
     | Some st => default (dict_len papers) (total_papers st)
     | None => dict_len papers
     end)
    (Z.of_nat (length (batches_of m))) bid.

(** Every file that a build writes besides the two documents, oldest
    first: [g] is the time stamp of the batch archive, [d] the date on the
    index page, [papers] and [m] the documents as the build leaves them. *)
Definition build_writes (self : StaticSiteBuilder) (bid g d : string)
    (new_papers : list PaperSummary) (papers : dict paper_data) (m : manifest)
  : list (string * content) :=
  let out := output_dir (site_config self) in
  (detail_writes self out (grouped summary_topic id new_papers [])
   ++ match new_papers with
      | _ :: _ => batch_writes out bid g new_papers
      | [] => []
      end
   ++ [ (path_join out "index.html", PageHtml (main_index_page self bid d papers m));
        (path_join (path_join out "archives") "index.html",
         ArchiveListingHtml (batches_of m)) ])%list.

(** The characters of a string. *)
Definition chars (s : string) : list ascii := list_ascii_of_string s.

(** The detail page of a summary and where it goes. *)
Definition detail_page_of (self : StaticSiteBuilder) (out : string)
    (x : PaperSummary) : string * content :=
  (detail_path out x, PageHtml (_render_paper self x)).

(** The paths that a build writes pages and batch documents to. *)
Definition build_paths (self : StaticSiteBuilder) (bid : string)
    (new_papers : list PaperSummary) : list string :=
  let out := output_dir (site_config self) in
  let batch_dir := path_join (path_join out "archives") bid in
  (map (detail_path out) new_papers
   ++ match new_papers with
      | _ :: _ => [path_join batch_dir "batch.json"; path_join batch_dir "index.html"]
      | [] => []
      end
   ++ [path_join out "index.html";
       path_join (path_join out "archives") "index.html"])%list.

(** A text without white space. *)
Definition spaceless (s : string) : Prop :=
  Forall (fun a => Py.is_space a = false) (chars s).

(** The test that [_build_markdown_table] makes for the separator line of
    the table. *)
Definition is_separator (line : string) : bool :=
  Py.startswith "| ---" line && Py.contains "---" line.

(** A paper whose row the parser of [_build_markdown_table] reads back
    with the title it was made from: the paper has a link, its title is
    already in the form that [to_markdown_row] gives it (single blanks, no
    white space at the ends) and holds neither a bar nor a closing
    bracket, and its date and link hold no line break. *)
Definition read_back (p : GitHub.PaperMetadata) : Prop :=
  Py.truthy (GitHub.arxiv_url p) = true /\
  Py.join " " (Py.words (GitHub.title p)) = GitHub.title p /\
  ("|"%char ∉ chars (GitHub.title p)) /\
  ("]"%char ∉ chars (GitHub.title p)) /\
  ("010"%char ∉ chars (GitHub.published_date p)) /\
  ("010"%char ∉ chars (GitHub.arxiv_url p)).

(* ===================================================================== *)
(** * Part II. Properties                                                *)
(* ===================================================================== *)

(** ** [limit_items] *)

Example limit_items_first_two : limit_items [10; 20; 30] (Some 2) = [10; 20].
Proof. reflexivity. Qed.

Example limit_items_beyond : limit_items [10; 20; 30] (Some 7) = [10; 20; 30].
Proof. reflexivity. Qed.

Example limit_items_no_limit : limit_items [10; 20; 30] None = [10; 20; 30].
Proof. reflexivity. Qed.

(** C9. [limit_items(items, None)] is all the items in order; for a
    non-negative [n], [limit_items(items, n)] is the first
    [min(n, len(items))] items in order, so its length is at most [n]. *)
Theorem limit_items_spec {A} (items : list A) :
  limit_items items None = items /\
  forall n : Z, 0 <= n ->
    limit_items items (Some n) = firstn (Z.to_nat n) items /\
    length (limit_items items (Some n)) = Nat.min (Z.to_nat n) (length items) /\
    Z.of_nat (length (limit_items items (Some n))) <= n.
Proof.
  split; [reflexivity|].
  intros n Hn. unfold limit_items, Py.slice_to.
  destruct (Z.leb_spec 0 n) as [_|Hneg]; [|lia].
  rewrite length_firstn. repeat split; lia.
Qed.

Lemma limit_items_spec_witness :
  0 <= 2 /\ limit_items [10; 20; 30] (Some 2) = firstn (Z.to_nat 2) [10; 20; 30].
Proof.
  split; [lia|].
  exact (proj1 (proj2 (limit_items_spec [10; 20; 30]) 2 ltac:(lia))).
Defined.

(** ** The batch identifier *)

Lemma fmt_02d_weeks :
  forallb (fun n => String.eqb (Py.fmt_02d (Z.of_nat n)) (two_digits (Z.of_nat n)))
          (seq 0 100) = true.
Proof. vm_compute. reflexivity. Qed.

Lemma fmt_02d_two_digits (n : Z) : 0 <= n < 100 -> Py.fmt_02d n = two_digits n.
Proof.
  intros Hn. pose proof fmt_02d_weeks as H.
  rewrite forallb_forall in H.
  specialize (H (Z.to_nat n)).
  rewrite Z2Nat.id in H by lia.
  apply String.eqb_eq, H, in_seq. lia.
Qed.

Example batch_id_2024_W37 :
  forall s, isocalendar (clock s (ticks s)) = (2024, 37, 2) ->
    exists s', _get_batch_id s = Returns "2024-W37" s'.
Proof.
  intros s H. unfold _get_batch_id, mbind, M_bind, utcnow. rewrite H.
  eexists. reflexivity.
Qed.

(** C8. The batch id of a build is the ISO year of the current time, then
    [-W], then the ISO week number as two decimal digits. *)
Theorem batch_id_format (s : state) (year week weekday : Z) :
  isocalendar (clock s (ticks s)) = (year, week, weekday) ->
  1 <= week <= 53 ->
  exists s',
    _get_batch_id s = Returns (Py.str_of_Z year +:+ "-W" +:+ two_digits week) s' /\
    String.length (two_digits week) = 2%nat /\
    ticks s' = S (ticks s) /\ stdout s' = stdout s /\ fs s' = fs s.
Proof.
  intros Hcal Hweek.
  unfold _get_batch_id, mbind, M_bind, utcnow. rewrite Hcal.
  rewrite fmt_02d_two_digits by lia.
  eexists. repeat split.
Qed.

(** ** Score normalisation *)


Lemma or_one_of_nonzero (x : Float.float) : Float.is_zero x = false -> or_one x = x.
Proof. unfold or_one. intros ->. reflexivity. Qed.



Example format_score_two_dimensions :
  _format_score (Sample.scored "2401.00001" "First paper") = "87.5".
Proof. vm_compute. reflexivity. Qed.

Example format_score_zero_weights :
  _format_score
    {| sp_paper := Sample.candidate "2401.00001" "First paper";
       scores := [ {| dim_name := "novelty"; weight := Float.of_Z 0;
                      value := Sample.half |} ];
       total_score := Float.of_Z 0 |} = "0.0".
Proof. vm_compute. reflexivity. Qed.

Example format_score_rounding_case :
  _format_score Sample.rounding_case = "41.2" /\
  Fmt.fixed 1 (exact_quotient Sample.rounding_case) = "41.3".
Proof. vm_compute. split; reflexivity. Qed.



(** The sentence of the specification fails in double arithmetic: for the
    weights 0.25 and 0.75 with the values 0.0 and 0.55 the page shows
    41.2, and the exact quotient of these numbers rounds to 41.3. *)
Lemma score_is_not_the_exact_quotient : ~ rendered_score_is_exact_quotient.
Proof.
  intros Hclaim.
  assert (Hfin : finite_scores Sample.rounding_case).
  { repeat constructor. }
  specialize (Hclaim Sample.rounding_case Hfin).
  vm_compute in Hclaim. discriminate Hclaim.
Qed.

(** ** Escaping *)

Lemma append_String (a : ascii) (s1 s2 : string) :
  String a s1 +:+ s2 = String a (s1 +:+ s2).
Proof. reflexivity. Qed.

Lemma append_empty (s : string) : "" +:+ s = s.
Proof. reflexivity. Qed.

Lemma prefix_empty (s : string) : String.prefix "" s = true.
Proof. destruct s; reflexivity. Qed.



Example escape_script_title :
  _escape (Some "<script>alert('x')</script>")
  = "&lt;script&gt;alert(&#x27;x&#x27;)&lt;/script&gt;".
Proof. reflexivity. Qed.

(** *** Where the unescaped values of a page come from *)

Lemma raw_texts_nil : raw_texts [] = [].
Proof. reflexivity. Qed.












(** *** The title reaches a page through [_escape] only *)


Lemma skeleton_cons (l : line) (pg : page) :
  skeleton (l :: pg) = (map erase l ++ skeleton pg)%list.
Proof. unfold skeleton, pieces. cbn [concat]. apply map_app. Qed.
















Example detail_page_escapes_script_title :
  let text := page_text Sample.css (_render_paper Sample.builder Sample.p2) in
  Py.contains "<title>&lt;script&gt;alert(1)&lt;/script&gt;</title>" text = true /\
  Py.contains "<h1 class='paper-title'>&lt;script&gt;alert(1)&lt;/script&gt;</h1>" text = true /\
  Py.contains "<script>alert(1)" text = false.
Proof. vm_compute. repeat split. Qed.


(** ** Python dicts *)

Section DictFacts.
Context {V : Type}.
Implicit Types (d : dict V) (k : string) (v : V).

Lemma dict_get_None k d : dict_get k d = None <-> k ∉ dict_keys d.
Proof.
  induction d as [|[k' v'] d IH]; cbn [dict_get dict_keys map fst].
  - split; [intros _; apply not_elem_of_nil | reflexivity].
  - destruct (String.eqb_spec k' k) as [->|Hne].
    + split; [discriminate|]. intros H. exfalso. apply H. left.
    + rewrite IH. unfold dict_keys. rewrite not_elem_of_cons.
      split; [intros H; split; [congruence | exact H] | intros [_ H]; exact H].
Qed.

Lemma dict_mem_keys k d : dict_mem k d = bool_decide (k ∈ dict_keys d).
Proof.
  unfold dict_mem. destruct (dict_get k d) eqn:E.
  - symmetry. apply bool_decide_eq_true.
    destruct (decide (k ∈ dict_keys d)) as [H|H]; [exact H|].
    apply dict_get_None in H. congruence.
  - symmetry. apply bool_decide_eq_false. apply dict_get_None, E.
Qed.

Lemma dict_keys_set_new k v d :
  k ∉ dict_keys d -> dict_keys (dict_set k v d) = (dict_keys d ++ [k])%list.
Proof.
  induction d as [|[k' v'] d IH]; intros H; [reflexivity|].
  cbn [dict_set]. unfold dict_keys in *. cbn [map fst] in *.
  apply not_elem_of_cons in H as [Hne H].
  destruct (String.eqb_spec k' k) as [->|_]; [congruence|].
  cbn [map fst app]. f_equal. apply IH, H.
Qed.

Lemma dict_get_set_eq k v d : dict_get k (dict_set k v d) = Some v.
Proof.
  induction d as [|[k' v'] d IH]; cbn [dict_set dict_get].
  - rewrite String.eqb_refl. reflexivity.
  - destruct (String.eqb_spec k' k) as [->|Hne]; cbn [dict_get].
    + rewrite String.eqb_refl. reflexivity.
    + apply String.eqb_neq in Hne. rewrite Hne. exact IH.
Qed.

Lemma dict_get_set_ne k k' v d :
  k <> k' -> dict_get k' (dict_set k v d) = dict_get k' d.
Proof.
  intros Hne. induction d as [|[k0 v0] d IH]; cbn [dict_set dict_get].
  - apply String.eqb_neq in Hne. rewrite Hne. reflexivity.
  - destruct (String.eqb_spec k0 k) as [->|Hne0]; cbn [dict_get].
    + apply String.eqb_neq in Hne. rewrite Hne. reflexivity.
    + rewrite IH. reflexivity.
Qed.

Lemma dict_len_keys d : dict_len d = Z.of_nat (length (dict_keys d)).
Proof. unfold dict_len, dict_keys. rewrite length_map. reflexivity. Qed.

Lemma dict_dom_keys d1 d2 : dict_keys d1 = dict_keys d2 -> dict_dom d1 = dict_dom d2.
Proof. unfold dict_dom. intros ->. reflexivity. Qed.

End DictFacts.

(** ** Running the builder *)

Ltac run_step :=
  unfold mbind, M_bind, mret, M_ret, get_state, modify, utcnow, print, raise;
  cbn beta iota.

Lemma process_loop bid (xs : list PaperSummary) :
  forall np tg s, exists tg' s',
    for_each_acc xs (np, tg) (process_summary bid) s
    = Returns ((np ++ accepted (dict_keys (_existing_papers s)) xs)%list, tg') s' /\
    loop_post xs s s'.
Proof.
  induction xs as [|x xs IH]; intros np tg s.
  - exists tg, s. cbn [for_each_acc accepted]. rewrite app_nil_r.
    split; [reflexivity|]. split; try reflexivity; try lia; auto.
    cbn [map]. rewrite app_nil_r. reflexivity.
  - cbn [for_each_acc accepted]. run_step. unfold process_summary at 1. run_step.
    rewrite dict_mem_keys. fold (summary_id x).
    destruct (bool_decide (summary_id x ∈ dict_keys (_existing_papers s))) eqn:Hin.
    + apply bool_decide_eq_true in Hin.
      match goal with |- context [for_each_acc xs _ _ ?s1] =>
        destruct (IH np tg s1) as (tg' & s' & Hrun & Hpost) end.
      exists tg', s'. split; [exact Hrun|].
      destruct Hpost as [Pk Pop Poi Pn Pb Pst Plu Pfs Pcl Penv Ptk].
      cbn [_existing_papers _existing_manifest fs clock ticks PIPELINE_RUN_AT] in *.
      split; cbn [accepted]; rewrite ?bool_decide_eq_true_2 by exact Hin;
        assumption.
    + apply bool_decide_eq_false in Hin.
      cbn [_existing_papers _existing_manifest fs clock ticks PIPELINE_RUN_AT
           stdout set_papers set_manifest].
      match goal with |- context [for_each_acc xs (?np1, ?tg1) _ ?s1] =>
        destruct (IH np1 tg1 s1) as (tg' & s' & Hrun & Hpost) end.
      cbn [_existing_papers _existing_manifest fs clock ticks PIPELINE_RUN_AT
           set_papers set_manifest] in Hrun.
      rewrite dict_keys_set_new in Hrun by exact Hin.
      exists tg', s'. split.
      { rewrite Hrun. rewrite <- app_assoc. reflexivity. }
      destruct Hpost as [Pk Pop Poi Pn Pb Pst Plu Pfs Pcl Penv Ptk].
      cbn [_existing_papers _existing_manifest fs clock ticks PIPELINE_RUN_AT
           set_papers set_manifest] in *.
      rewrite dict_keys_set_new in * by exact Hin.
      assert (Hne : forall k, k ∈ dict_keys (_existing_papers s) -> summary_id x <> k).
      { intros k Hk E. apply Hin. rewrite E. exact Hk. }
      split; cbn [accepted]; rewrite ?bool_decide_eq_false_2 by exact Hin;
        try assumption; try discriminate.
      * rewrite Pk. cbn [map]. rewrite <- app_assoc. reflexivity.
      * intros k Hk. rewrite Pop by (apply elem_of_app; left; exact Hk).
        apply dict_get_set_ne, Hne, Hk.
      * intros k Hk. rewrite Poi by (apply elem_of_app; left; exact Hk).
        unfold index_of. cbn [set_m_papers m_papers default].
        apply dict_get_set_ne, Hne, Hk.
      * lia.
Qed.

Lemma same_data_refl s : same_data s s.
Proof. split; reflexivity || lia. Qed.

Lemma same_data_trans s1 s2 s3 : same_data s1 s2 -> same_data s2 s3 -> same_data s1 s3.
Proof.
  intros [A1 A2 A3 A4 A5 A6 A7] [B1 B2 B3 B4 B5 B6 B7].
  split; try congruence. lia.
Qed.

Lemma write_text_same path c s :
  exists s', write_text path c s = Returns tt s' /\ same_data s s'.
Proof. eexists. split; [reflexivity|]. split; reflexivity || (cbn; lia). Qed.

Lemma print_same text s :
  exists s', print text s = Returns tt s' /\ same_data s s'.
Proof. eexists. split; [reflexivity|]. split; reflexivity || (cbn; lia). Qed.

Lemma for_each_same {A} (xs : list A) (body : A -> M unit) :
  (forall x s, exists s', body x s = Returns tt s' /\ same_data s s') ->
  forall s, exists s', for_each xs body s = Returns tt s' /\ same_data s s'.
Proof.
  intros Hbody. induction xs as [|x xs IH]; intros s.
  - exists s. split; [reflexivity | apply same_data_refl].
  - cbn [for_each]. run_step.
    destruct (Hbody x s) as (s1 & -> & H1).
    destruct (IH s1) as (s2 & -> & H2).
    exists s2. split; [reflexivity | eapply same_data_trans; eassumption].
Qed.

Lemma write_detail_pages_same self out tg s :
  exists s', write_detail_pages self out tg s = Returns tt s' /\ same_data s s'.
Proof.
  unfold write_detail_pages. apply for_each_same.
  intros [name summaries] s0. apply for_each_same.
  intros x s1. apply write_text_same.
Qed.

Lemma render_batch_archive_same out bid papers s :
  exists s', _render_batch_archive out bid papers s = Returns tt s' /\ same_data s s'.
Proof.
  unfold _render_batch_archive, write_text. run_step.
  eexists. split; [reflexivity|]. split; reflexivity || (cbn; lia).
Qed.

Lemma render_main_index_same self out bid s :
  exists s', _render_main_index self out bid s = Returns tt s' /\ same_data s s'.
Proof.
  unfold _render_main_index, write_text. run_step.
  eexists. split; [reflexivity|]. split; reflexivity || (cbn; lia).
Qed.

Lemma render_archive_index_same out s :
  exists s', _render_archive_index out s = Returns tt s' /\ same_data s s'.
Proof.
  unfold _render_archive_index, write_text. run_step.
  eexists. split; [reflexivity|]. split; reflexivity || (cbn; lia).
Qed.

Lemma load_existing_data_run self s :
  loadable s ->
  exists s',
    _load_existing_data self s = Returns tt s' /\
    _existing_papers s' = stored_papers s /\
    _existing_manifest s' = stored_manifest self s /\
    fs s' = fs s /\ clock s' = clock s /\ ticks s' = ticks s /\
    stdout s' = stdout s /\ PIPELINE_RUN_AT s' = PIPELINE_RUN_AT s.
Proof.
  intros [Hm Hp]. unfold _load_existing_data, stored_papers, stored_manifest.
  run_step.
  destruct (manifest_json (fs s)); try contradiction;
    destruct (papers_json (fs s)); try contradiction;
    (eexists; split; [reflexivity|]; repeat split).
Qed.

Lemma update_batch_info_run bid (np : list PaperSummary) s :
  exists s',
    _update_batch_info bid np s = Returns tt s' /\ batch_info_updated bid np s s'.
Proof.
  unfold _update_batch_info. run_step.
  change (fun b : batch => String.eqb (batch_id b) bid) with (has_id bid).
  destruct (find (has_id bid) (default [] (m_batches (_existing_manifest s)))) eqn:Hfind;
    run_step; (eexists; split; [reflexivity|]);
    (split; unfold batches_of;
     cbn [_existing_papers _existing_manifest fs clock ticks PIPELINE_RUN_AT
          set_manifest set_m_batches set_m_statistics set_m_last_updated
          m_papers m_statistics m_last_updated m_batches default];
     rewrite ?Hfind; try reflexivity; try lia).
  - exists (ticks s). split; [lia | reflexivity].
  - exists (S (ticks s)). split; [lia | reflexivity].
  - eexists. reflexivity.
Qed.

Lemma save_manifest_run self s :
  exists s', _save_manifest self s = Returns tt s' /\ manifest_saved self s s'.
Proof.
  unfold _save_manifest. run_step.
  cbn [PIPELINE_RUN_AT set_manifest].
  destruct (PIPELINE_RUN_AT s) as [v|] eqn:Henv; [destruct (Py.truthy v)|];
    run_step; (eexists; split; [reflexivity|]);
    (split; cbn; lia || reflexivity || exact Henv || (eexists; reflexivity)).
Qed.

Lemma save_paper_data_run s :
  exists s', _save_paper_data s = Returns tt s' /\ papers_saved s s'.
Proof. eexists. split; [reflexivity|]. split; reflexivity. Qed.

Lemma get_batch_id_run s :
  exists s',
    _get_batch_id s = Returns (batch_id_of (clock s (ticks s))) s' /\
    same_data s s' /\ ticks s' = S (ticks s).
Proof.
  unfold _get_batch_id, batch_id_of. run_step.
  destruct (isocalendar (clock s (ticks s))) as [[year week] weekday].
  eexists. split; [reflexivity|]. split; [|reflexivity].
  split; reflexivity || (cbn; lia).
Qed.

Ltac step L :=
  let s' := fresh "s" in
  let Heq := fresh "Hrun" in
  let H := fresh "Hstep" in
  destruct L as (s' & Heq & H); rewrite Heq; cbn beta iota.

Ltac next :=
  match goal with
  | |- context [_update_batch_info ?a ?b ?st] => step (update_batch_info_run a b st)
  | |- context [_render_batch_archive ?a ?b ?c ?st] =>
      step (render_batch_archive_same a b c st)
  | |- context [_render_main_index ?a ?b ?c ?st] =>
      step (render_main_index_same a b c st)
  | |- context [_render_archive_index ?a ?st] => step (render_archive_index_same a st)
  | |- context [_save_manifest ?a ?st] => step (save_manifest_run a st)
  | |- context [_save_paper_data ?st] => step (save_paper_data_run st)
  end.

Lemma stored_manifest_holds self s m :
  manifest_json (fs s) = Holds m -> stored_manifest self s = m.
Proof. unfold stored_manifest. intros ->. reflexivity. Qed.

Lemma stored_papers_holds s v P :
  papers_json (fs s) = Holds {| pdoc_version := v; pdoc_papers := Some P |} ->
  stored_papers s = P.
Proof. unfold stored_papers. intros ->. reflexivity. Qed.

Lemma tail_facts self st s4 s5 s6 s7 :
  same_data st s4 -> same_data s4 s5 -> manifest_saved self s5 s6 ->
  papers_saved s6 s7 ->
  manifest_json (fs s7) = Holds (stored_manifest self s7) /\
  papers_json (fs s7)
  = Holds {| pdoc_version := Some "1.0"; pdoc_papers := Some (stored_papers s7) |} /\
  stored_papers s7 = _existing_papers st /\
  m_papers (stored_manifest self s7) = m_papers (_existing_manifest st) /\
  m_batches (stored_manifest self s7) = m_batches (_existing_manifest st) /\
  m_statistics (stored_manifest self s7) = m_statistics (_existing_manifest st) /\
  m_last_updated (stored_manifest self s7) = m_last_updated (_existing_manifest st) /\
  clock s7 = clock st /\ PIPELINE_RUN_AT s7 = PIPELINE_RUN_AT st /\
  (ticks st <= ticks s7)%nat /\
  m_base_url (stored_manifest self s7) = Some (base_url (site_config self)) /\
  is_Some (m_generated (stored_manifest self s7)).
Proof.
  intros [A1 A2 A3 A4 A5 A6 A7] [B1 B2 B3 B4 B5 B6 B7]
         [C1 C2 C3 C4 C5 C6 C7 C8 C9 C10 C11 C12] [D1 D2 D3 D4 D5].
  assert (HM : stored_manifest self s7 = _existing_manifest s6).
  { apply stored_manifest_holds. rewrite D2. exact C1. }
  assert (HP : stored_papers s7 = _existing_papers s6).
  { eapply stored_papers_holds. exact D1. }
  rewrite HM, HP.
  repeat split; try congruence; try lia; try exact C12.
Qed.

Lemma build_run self (xs : list PaperSummary) s :
  loadable s ->
  exists r s', build self xs s = Returns r s' /\ build_post self xs s s'.
Proof.
  intros Hload. unfold build. run_step.
  step (load_existing_data_run self s Hload).
  destruct Hstep as (Ep0 & Em0 & Efs0 & Ecl0 & Etk0 & Eso0 & Eenv0).
  step (get_batch_id_run s0). destruct Hstep as [[Ep1 Em1 Emj1 Epj1 Ecl1 Eenv1 _] Etk1].
  destruct (process_loop (batch_id_of (clock s0 (ticks s0))) xs [] [] s1)
    as (tg & s2 & Hloop & Hpost).
  unfold dict in Hloop. rewrite Hloop. cbn beta iota. cbn [app] in *.
  step (write_detail_pages_same self (output_dir (site_config self)) tg s2).
  destruct Hstep as [Ep3 Em3 Emj3 Epj3 Ecl3 Eenv3 Etk3].
  destruct Hpost as [Pk Pop Poi Pn Pb Pst Plu Pfs Pcl Penv Ptk].
  rewrite Ep1, Ep0 in *. rewrite Em1, Em0 in *. rewrite Ecl0, Etk0 in *.
  destruct (accepted (dict_keys (stored_papers s)) xs) as [|a acc] eqn:Hacc;
    cbn beta iota.
  - repeat next.
    destruct (tail_facts self _ _ _ _ _ Hstep Hstep0 Hstep1 Hstep2)
      as (T1 & T2 & T3 & T4 & T5 & T6 & T7 & T8 & T9 & T10 & T11 & T12).
    cbn [_existing_papers _existing_manifest clock ticks PIPELINE_RUN_AT] in *.
    destruct (Pn eq_refl) as [Pn1 Pn2].
    do 2 eexists. split; [reflexivity|].
    split; rewrite ?Hacc; try assumption.
    + rewrite T3, Ep3. exact Pk.
    + intros k Hk. rewrite T3, Ep3. apply Pop, Hk.
    + intros k Hk. unfold index_of. rewrite T4, Em3. apply Poi, Hk.
    + intros _. rewrite T3, T4, T5, T6, T7, Ep3, Em3, Pn1, Pn2. repeat split.
    + intros H. contradiction H. reflexivity.
    + congruence.
    + congruence.
    + lia.
  - repeat next.
    destruct Hstep as [U1 U2 U3 U4 U5 U6 U7 U8 U9].
    destruct (tail_facts self _ _ _ _ _ Hstep1 Hstep2 Hstep3 Hstep4)
      as (T1 & T2 & T3 & T4 & T5 & T6 & T7 & T8 & T9 & T10 & T11 & T12).
    destruct Hstep0 as [V1 V2 V3 V4 V5 V6 V7].
    cbn [_existing_papers _existing_manifest clock ticks PIPELINE_RUN_AT] in *.
    do 2 eexists. split; [reflexivity|].
    split; rewrite ?Hacc; try assumption.
    + rewrite T3, V1, U1, Ep3. exact Pk.
    + intros k Hk. rewrite T3, V1, U1, Ep3. apply Pop, Hk.
    + intros k Hk. unfold index_of. rewrite T4, V2, U6, Em3. apply Poi, Hk.
    + discriminate.
    + intros _. split; [|split].
      * rewrite T6, V2, U7. unfold batches_of. rewrite T5, V2, T3, V1, U1.
        reflexivity.
      * destruct U8 as (k & Hk & E). exists k. split; [lia|].
        rewrite T7, V2, E. congruence.
      * cbv zeta. unfold batches_of in *. rewrite T5, V2.
        rewrite Em3, Pb in U9. exact U9.
    + congruence.
    + congruence.
    + lia.
Qed.

(** ** Which summaries a build accepts *)

Lemma accepted_ext (seen seen' : list string) (xs : list PaperSummary) :
  (forall k, k ∈ seen <-> k ∈ seen') -> accepted seen xs = accepted seen' xs.
Proof.
  revert seen seen'. induction xs as [|x xs IH]; intros seen seen' H; [reflexivity|].
  cbn [accepted].
  rewrite (bool_decide_ext _ _ (H (summary_id x))).
  destruct (bool_decide (summary_id x ∈ seen')).
  - apply IH, H.
  - f_equal. apply IH. intros k. rewrite !elem_of_app, H. reflexivity.
Qed.

Lemma accepted_nil_iff (seen : list string) (xs : list PaperSummary) :
  accepted seen xs = [] <-> forall x, x ∈ xs -> summary_id x ∈ seen.
Proof.
  revert seen. induction xs as [|x xs IH]; intros seen; cbn [accepted].
  - split; [intros _ y Hy; inversion Hy | reflexivity].
  - destruct (bool_decide (summary_id x ∈ seen)) eqn:E.
    + apply bool_decide_eq_true in E. rewrite IH. split.
      * intros H y Hy. apply elem_of_cons in Hy as [->|Hy]; [exact E | apply H, Hy].
      * intros H y Hy. apply H. right. exact Hy.
    + apply bool_decide_eq_false in E. split; [discriminate|].
      intros H. exfalso. apply E, H. left.
Qed.

Lemma accepted_app (seen : list string) (xs ys : list PaperSummary) :
  accepted seen (xs ++ ys)%list
  = (accepted seen xs
     ++ accepted (seen ++ map summary_id (accepted seen xs)) ys)%list.
Proof.
  revert seen. induction xs as [|x xs IH]; intros seen; cbn [app accepted map].
  - rewrite app_nil_r. reflexivity.
  - destruct (bool_decide (summary_id x ∈ seen)).
    + apply IH.
    + cbn [app map]. f_equal. rewrite IH, <- app_assoc. reflexivity.
Qed.

Lemma accepted_filter_seen (k : string) (seen : list string) (zs : list PaperSummary) :
  k ∈ seen ->
  accepted seen (filter (fun y => summary_id y ≠ k) zs) = accepted seen zs.
Proof.
  revert seen. induction zs as [|z zs IH]; intros seen Hk; [reflexivity|].
  rewrite filter_cons. destruct (decide (summary_id z ≠ k)) as [Hne|Heq].
  - cbn [accepted]. destruct (bool_decide (summary_id z ∈ seen)).
    + apply IH, Hk.
    + f_equal. apply IH. apply elem_of_app. left. exact Hk.
  - assert (E : summary_id z = k) by (destruct (decide (summary_id z = k)); tauto).
    cbn [accepted]. rewrite E, (bool_decide_eq_true_2 _ Hk). apply IH, Hk.
Qed.

Lemma accepted_dedup (seen : list string) (xs : list PaperSummary) :
  accepted seen (dedup_by_id xs) = accepted seen xs.
Proof.
  revert seen. induction xs as [|x xs IH]; intros seen; [reflexivity|].
  cbn [dedup_by_id accepted].
  destruct (bool_decide (summary_id x ∈ seen)) eqn:E.
  - apply bool_decide_eq_true in E. rewrite accepted_filter_seen by exact E. apply IH.
  - f_equal. rewrite accepted_filter_seen by (apply elem_of_app; right; left).
    apply IH.
Qed.

Lemma accepted_NoDup (seen : list string) (xs : list PaperSummary) :
  NoDup seen -> NoDup (seen ++ map summary_id (accepted seen xs))%list.
Proof.
  revert seen. induction xs as [|x xs IH]; intros seen Hnd; cbn [accepted map].
  - rewrite app_nil_r. exact Hnd.
  - destruct (bool_decide (summary_id x ∈ seen)) eqn:E.
    + apply IH, Hnd.
    + apply bool_decide_eq_false in E. cbn [map].
      change (summary_id x :: map summary_id (accepted (seen ++ [summary_id x]) xs))%list
        with ([summary_id x] ++ map summary_id (accepted (seen ++ [summary_id x]) xs))%list.
      rewrite app_assoc. apply IH.
      apply NoDup_app. split; [exact Hnd|]. split.
      * intros k Hk Hin. apply list_elem_of_singleton in Hin. subst k. exact (E Hk).
      * apply NoDup_singleton.
Qed.

(** ** Batches only grow *)

Lemma batch_le_refl (b : batch) : batch_le b b.
Proof. split; [reflexivity|]. split; [lia | auto]. Qed.

Lemma batch_le_trans (b1 b2 b3 : batch) : batch_le b1 b2 -> batch_le b2 b3 -> batch_le b1 b3.
Proof.
  intros (A1 & A2 & A3) (B1 & B2 & B3). split; [congruence|]. split; [lia | auto].
Qed.

Lemma batch_le_bump (n : nat) (topics : list string) (b : batch) :
  batch_le b (bump n topics b).
Proof.
  split; [reflexivity|]. split; [cbn; lia|].
  intros t Ht. unfold bump, topics_of at 1, list_of_set. cbn [batch_topics default].
  apply elem_of_elements, elem_of_union. left. apply elem_of_list_to_set, Ht.
Qed.

Lemma batch_le_all_refl (l : list batch) : Forall2 batch_le l l.
Proof. induction l; constructor; [apply batch_le_refl | assumption]. Qed.

Lemma update_first_bump_le (p : batch -> bool) n topics (l : list batch) :
  Forall2 batch_le l (update_first p (bump n topics) l).
Proof.
  induction l as [|b l IH]; cbn [update_first]; [constructor|].
  destruct (p b).
  - constructor; [apply batch_le_bump | apply batch_le_all_refl].
  - constructor; [apply batch_le_refl | exact IH].
Qed.

Lemma batches_grow_refl (l : list batch) : batches_grow l l.
Proof.
  exists 0%nat. split; [reflexivity|]. cbn [skipn]. apply batch_le_all_refl.
Qed.

Lemma batches_grow_trans (l1 l2 l3 : list batch) :
  batches_grow l1 l2 -> batches_grow l2 l3 -> batches_grow l1 l3.
Proof.
  intros (d1 & Hl1 & H1) (d2 & Hl2 & H2).
  exists (d2 + d1)%nat. split; [lia|].
  apply (Forall2_drop _ _ _ d1) in H2.
  rewrite drop_drop in H2.
  eapply Forall2_trans; [|exact H1|exact H2].
  intros x y z. apply batch_le_trans.
Qed.

(** ** Builds, one after another *)

Lemma build_post_loadable self xs s s' : build_post self xs s s' -> loadable s'.
Proof.
  intros H. split.
  - rewrite (bp_manifest_json _ _ _ _ H). exact I.
  - rewrite (bp_papers_json _ _ _ _ H). exact I.
Qed.

Lemma build_post_consistent self xs s s' :
  build_post self xs s s' ->
  accepted (dict_keys (stored_papers s)) xs <> [] ->
  statistics_consistent s'.
Proof.
  intros H Hacc. destruct (bp_some _ _ _ _ H Hacc) as (Hst & _ & _).
  eexists _, _. split; [apply (bp_manifest_json _ _ _ _ H)|].
  split; [apply (bp_papers_json _ _ _ _ H)|].
  rewrite Hst. cbn. split; reflexivity.
Qed.

Lemma statistics_consistent_stored self s :
  statistics_consistent s ->
  (total_papers <$> m_statistics (stored_manifest self s))
  = Some (Some (dict_len (stored_papers s))) /\
  (total_batches <$> m_statistics (stored_manifest self s))
  = Some (Some (Z.of_nat (length (batches_of (stored_manifest self s))))).
Proof.
  intros (m & store & Hm & Hp & H1 & H2).
  unfold stored_manifest, stored_papers. rewrite Hm, Hp. split; assumption.
Qed.

Lemma build_post_preserves_consistency self xs s s' :
  build_post self xs s s' -> statistics_consistent s -> statistics_consistent s'.
Proof.
  intros H Hs.
  destruct (accepted (dict_keys (stored_papers s)) xs) as [|a acc] eqn:Hacc.
  - destruct (bp_none _ _ _ _ H Hacc) as (E1 & E2 & E3 & E4 & E5).
    destruct (statistics_consistent_stored self s Hs) as [S1 S2].
    eexists _, _. split; [apply (bp_manifest_json _ _ _ _ H)|].
    split; [apply (bp_papers_json _ _ _ _ H)|].
    cbn [pdoc_papers default]. unfold batches_of in *.
    rewrite E1, E3, E4. split; assumption.
  - apply (build_post_consistent self xs s s' H). rewrite Hacc. discriminate.
Qed.

(** C2, as amended. A build that accepts at least one record leaves
    [total_papers] equal to the size of the Store and [total_batches] equal
    to the length of the batch list; a build that accepts none leaves the
    statistics, the Store and the batch list as they were loaded, so the
    equalities hold afterwards whenever they held in the loaded
    documents. *)
Theorem statistics_after_build (self : StaticSiteBuilder)
    (xs : list PaperSummary) (s : state) :
  loadable s ->
  exists r s',
    build self xs s = Returns r s' /\
    (accepted (dict_keys (stored_papers s)) xs <> [] -> statistics_consistent s') /\
    (accepted (dict_keys (stored_papers s)) xs = [] ->
     m_statistics (stored_manifest self s') = m_statistics (stored_manifest self s) /\
     stored_papers s' = stored_papers s /\
     m_batches (stored_manifest self s') = m_batches (stored_manifest self s)) /\
    (statistics_consistent s -> statistics_consistent s').
Proof.
  intros Hload. destruct (build_run self xs s Hload) as (r & s' & Hrun & Hpost).
  exists r, s'. split; [exact Hrun|]. split; [|split].
  - apply (build_post_consistent self xs s s' Hpost).
  - intros Hacc. destruct (bp_none _ _ _ _ Hpost Hacc) as (E1 & E2 & E3 & E4 & E5).
    repeat split; assumption.
  - apply (build_post_preserves_consistency self xs s s' Hpost).
Qed.

Lemma manifest_lost_loadable : loadable Sample.manifest_lost.
Proof. split; exact I. Qed.

Lemma statistics_after_build_witness :
  loadable Sample.empty_world /\
  exists r s',
    build Sample.builder [Sample.p1; Sample.p2] Sample.empty_world = Returns r s' /\
    statistics_consistent s'.
Proof.
  split; [exact (conj I I)|].
  destruct (statistics_after_build Sample.builder [Sample.p1; Sample.p2]
              Sample.empty_world (conj I I))
    as (r & s' & Hrun & Hsome & _ & _).
  exists r, s'. split; [exact Hrun|]. apply Hsome. vm_compute. discriminate.
Defined.

(** The statistics sentence of the specification fails when nothing is
    accepted and the loaded statistics were not the current sizes: with
    [manifest.json] lost and one paper in the store, re-submitting that
    paper leaves [total_papers = 0] next to a store of one. *)
Lemma statistics_stale_without_new_papers : ~ statistics_hold_after_any_build.
Proof.
  intros Hclaim.
  destruct (build_run Sample.builder [Sample.p1] Sample.manifest_lost
              manifest_lost_loadable) as (r & s' & Hrun & Hpost).
  specialize (Hclaim _ _ _ _ _ Hrun).
  destruct (statistics_consistent_stored Sample.builder s' Hclaim) as [S1 _].
  destruct (bp_none _ _ _ _ Hpost eq_refl) as (E1 & _ & _ & E4 & _).
  rewrite E1, E4 in S1. vm_compute in S1. discriminate S1.
Qed.




Example second_run_keeps_first_time_stamp :
  let last_updated := fun s => m_last_updated (stored_manifest Sample.builder s) in
  after (builds Sample.builder [[Sample.p1]] Sample.empty_world) last_updated
  = Some "2024-09-10T08:00:00.3" /\
  after (builds Sample.builder [[Sample.p1]; [Sample.p1]] Sample.empty_world) last_updated
  = Some "2024-09-10T08:00:00.3".
Proof. vm_compute. split; reflexivity. Qed.

(** ** Batch bookkeeping *)

Lemma find_update_first {A} (p : A -> bool) (f : A -> A) (l : list A) (b : A) :
  find p l = Some b -> p (f b) = true ->
  find p (update_first p f l) = Some (f b).
Proof.
  intros Hfind Hp. induction l as [|x l IH]; [discriminate|].
  cbn [find update_first] in *. destruct (p x) eqn:E.
  - injection Hfind as ->. cbn [find]. rewrite Hp. reflexivity.
  - cbn [find]. rewrite E. apply IH, Hfind.
Qed.

Lemma elem_of_run_topics (t : string) (np : list PaperSummary) :
  t ∈ run_topics np <-> t ∈ map (fun p => topic_name (topic p)) np.
Proof.
  unfold run_topics, list_of_set. rewrite elem_of_elements, elem_of_list_to_set.
  reflexivity.
Qed.

Lemma elem_of_bump_topics (t : string) n topics (b : batch) :
  t ∈ topics_of (bump n topics b) <-> t ∈ topics_of b \/ t ∈ topics.
Proof.
  unfold bump, topics_of at 1, list_of_set. cbn [batch_topics default from_option id].
  rewrite elem_of_elements, elem_of_union, !elem_of_list_to_set. reflexivity.
Qed.

Lemma build_post_batches_grow self xs s s' :
  build_post self xs s s' ->
  batches_grow (batches_of (stored_manifest self s))
               (batches_of (stored_manifest self s')).
Proof.
  intros H.
  destruct (accepted (dict_keys (stored_papers s)) xs) as [|a acc] eqn:Hacc.
  - destruct (bp_none _ _ _ _ H Hacc) as (_ & _ & E3 & _).
    unfold batches_of. rewrite E3. apply batches_grow_refl.
  - assert (Hne : accepted (dict_keys (stored_papers s)) xs <> [])
      by (rewrite Hacc; discriminate).
    destruct (bp_some _ _ _ _ H Hne) as (_ & _ & Hb). cbv zeta in Hb.
    destruct (find _ _) in Hb.
    + rewrite Hb. exists 0%nat. split.
      * clear. induction (batches_of (stored_manifest self s)) as [|b l IH];
          [reflexivity|].
        cbn [update_first]. destruct (has_id _ b); cbn [length] in *; lia.
      * cbn [skipn]. apply update_first_bump_le.
    + destruct Hb as (g & ->). exists 1%nat. split; [reflexivity|].
      cbn [skipn]. apply batch_le_all_refl.
Qed.

Lemma builds_run self (runs : list (list PaperSummary)) s :
  loadable s ->
  exists s',
    builds self runs s = Returns tt s' /\
    batches_grow (batches_of (stored_manifest self s))
                 (batches_of (stored_manifest self s')).
Proof.
  revert s. induction runs as [|xs runs IH]; intros s Hload.
  - exists s. split; [reflexivity | apply batches_grow_refl].
  - cbn [builds]. run_step.
    destruct (build_run self xs s Hload) as (r & s1 & -> & Hpost).
    destruct (IH s1 (build_post_loadable _ _ _ _ Hpost)) as (s2 & -> & Hgrow).
    exists s2. split; [reflexivity|].
    eapply batches_grow_trans; [|exact Hgrow].
    apply (build_post_batches_grow self xs s s1 Hpost).
Qed.

(** C5. Over any sequence of builds, every batch entry of the manifest
    stays in the batch list, in its place counted from the end, with the
    same id, a paper count that is not smaller and a topic list that has
    lost no topic. In one build, the entry of the current batch id, when
    the manifest has one, gains exactly the number of accepted records and
    gets the union of its topics with the topics of the accepted records;
    when the manifest has none and a record is accepted, a new entry with
    that number of papers is put in front of the list. *)
Theorem batches_only_grow (self : StaticSiteBuilder) (s : state) :
  loadable s ->
  (forall runs : list (list PaperSummary),
     exists s',
       builds self runs s = Returns tt s' /\
       batches_grow (batches_of (stored_manifest self s))
                    (batches_of (stored_manifest self s'))) /\
  (forall xs : list PaperSummary,
     exists r s',
       build self xs s = Returns r s' /\
       let bid := batch_id_of (clock s (ticks s)) in
       let np := accepted (dict_keys (stored_papers s)) xs in
       forall b,
         find (has_id bid) (batches_of (stored_manifest self s)) = Some b ->
         exists b',
           find (has_id bid) (batches_of (stored_manifest self s')) = Some b' /\
           paper_count b' = paper_count b + Z.of_nat (length np) /\
           forall t,
             t ∈ topics_of b' <->
             t ∈ topics_of b \/ t ∈ map (fun p => topic_name (topic p)) np) /\
  (forall xs : list PaperSummary,
     exists r s',
       build self xs s = Returns r s' /\
       let bid := batch_id_of (clock s (ticks s)) in
       let np := accepted (dict_keys (stored_papers s)) xs in
       find (has_id bid) (batches_of (stored_manifest self s)) = None ->
       np <> [] ->
       exists g,
         batches_of (stored_manifest self s')
         = fresh_batch bid g np :: batches_of (stored_manifest self s)).
Proof.
  intros Hload. split; [|split].
  - intros runs. apply builds_run, Hload.
  - intros xs. destruct (build_run self xs s Hload) as (r & s' & Hrun & Hpost).
    exists r, s'. split; [exact Hrun|]. cbv zeta. intros b Hfind.
    destruct (accepted (dict_keys (stored_papers s)) xs) as [|a acc] eqn:Hacc.
    + destruct (bp_none _ _ _ _ Hpost Hacc) as (_ & _ & E3 & _).
      exists b. unfold batches_of in *. rewrite E3. split; [exact Hfind|].
      split; [cbn; lia|]. intros t. cbn [map]. rewrite elem_of_nil. tauto.
    + assert (Hne : accepted (dict_keys (stored_papers s)) xs <> [])
        by (rewrite Hacc; discriminate).
      destruct (bp_some _ _ _ _ Hpost Hne) as (_ & _ & Hb). cbv zeta in Hb.
      rewrite Hfind, Hacc in Hb.
      exists (bump (length (a :: acc)) (run_topics (a :: acc)) b).
      rewrite Hb. split; [|split].
      * apply find_update_first; [exact Hfind|].
        apply find_some in Hfind as [_ Hid]. exact Hid.
      * reflexivity.
      * intros t. rewrite elem_of_bump_topics, elem_of_run_topics. reflexivity.
  - intros xs. destruct (build_run self xs s Hload) as (r & s' & Hrun & Hpost).
    exists r, s'. split; [exact Hrun|]. cbv zeta. intros Hfind Hne.
    destruct (bp_some _ _ _ _ Hpost Hne) as (_ & _ & Hb). cbv zeta in Hb.
    rewrite Hfind in Hb. exact Hb.
Qed.

Lemma batches_only_grow_witness :
  loadable Sample.started /\
  (exists s',
     builds Sample.builder [[Sample.p1; Sample.p2]; [Sample.p1; Sample.p2; Sample.p3]]
       Sample.started = Returns tt s' /\
     batches_grow (batches_of (stored_manifest Sample.builder Sample.started))
                  (batches_of (stored_manifest Sample.builder s'))) /\
  (exists r s' b',
     build Sample.builder [Sample.p1; Sample.p3] Sample.started = Returns r s' /\
     find (has_id "2024-W37") (batches_of (stored_manifest Sample.builder s')) = Some b' /\
     paper_count b' = 3).
Proof.
  split; [exact (conj I I)|].
  destruct (batches_only_grow Sample.builder Sample.started (conj I I))
    as (Hchain & Hone & _).
  split; [apply Hchain|].
  destruct (Hone [Sample.p1; Sample.p3]) as (r & s' & Hrun & Hbatch).
  destruct (Hbatch _ eq_refl) as (b' & Hfind & Hcount & _).
  exists r, s', b'. split; [exact Hrun|]. split; [exact Hfind | exact Hcount].
Defined.

Example two_builds_in_one_week :
  let s := builds Sample.builder
             [[Sample.p1; Sample.p2]; [Sample.p1; Sample.p2; Sample.p3]]
             Sample.empty_world in
  after s (fun s => Some (map (fun b => (batch_id b, paper_count b, topics_of b))
                              (batches_of (stored_manifest Sample.builder s))))
  = Some [("2024-W37", 3, ["nlp"])] /\
  after s (fun s => Some (dict_keys (stored_papers s)))
  = Some ["2401.00001"; "2401.00002"; "2401.00003"] /\
  after s (fun s => m_statistics (stored_manifest Sample.builder s))
  = Some {| total_papers := Some 3; total_batches := Some 1 |}.
Proof. vm_compute. repeat split. Qed.

(** ** Re-ingestion *)

(** C1. A record whose identifier is in the loaded Store is skipped: its
    Store entry and its manifest index entry stay as they were and the
    build returns. Building with [xs] and then with [ys] leaves the same
    Store keys, in the same order, as building once with the de-duplicated
    [xs ++ ys]; the keys stay pairwise distinct (as the keys of the loaded
    dict are); and a build whose records are all in the Store leaves the
    Store and the index unchanged. *)
Theorem reingestion_idempotent (self : StaticSiteBuilder)
    (xs ys : list PaperSummary) (s : state) :
  loadable s ->
  NoDup (dict_keys (stored_papers s)) ->
  exists r1 s1 r2 s2 r3 s3,
    build self xs s = Returns r1 s1 /\
    build self ys s1 = Returns r2 s2 /\
    build self (dedup_by_id (xs ++ ys)) s = Returns r3 s3 /\
    dict_keys (stored_papers s2) = dict_keys (stored_papers s3) /\
    dict_dom (stored_papers s2) = dict_dom (stored_papers s3) /\
    dict_len (stored_papers s2) = dict_len (stored_papers s3) /\
    NoDup (dict_keys (stored_papers s2)) /\
    (forall x, x ∈ xs -> summary_id x ∈ dict_keys (stored_papers s) ->
       dict_get (summary_id x) (stored_papers s1)
       = dict_get (summary_id x) (stored_papers s) /\
       dict_get (summary_id x) (index_of (stored_manifest self s1))
       = dict_get (summary_id x) (index_of (stored_manifest self s))) /\
    ((forall x, x ∈ xs -> summary_id x ∈ dict_keys (stored_papers s)) ->
     stored_papers s1 = stored_papers s /\
     m_papers (stored_manifest self s1) = m_papers (stored_manifest self s)) /\
    ((forall y, y ∈ ys -> summary_id y ∈ dict_keys (stored_papers s1)) ->
     stored_papers s2 = stored_papers s1 /\
     m_papers (stored_manifest self s2) = m_papers (stored_manifest self s1)).
Proof.
  intros Hload Hnd.
  destruct (build_run self xs s Hload) as (r1 & s1 & Hrun1 & P1).
  destruct (build_run self ys s1 (build_post_loadable _ _ _ _ P1))
    as (r2 & s2 & Hrun2 & P2).
  destruct (build_run self (dedup_by_id (xs ++ ys)) s Hload)
    as (r3 & s3 & Hrun3 & P3).
  exists r1, s1, r2, s2, r3, s3.
  assert (Hkeys : dict_keys (stored_papers s2) = dict_keys (stored_papers s3)).
  { rewrite (bp_keys _ _ _ _ P2), (bp_keys _ _ _ _ P3), (bp_keys _ _ _ _ P1).
    rewrite accepted_dedup, accepted_app, map_app, <- app_assoc. reflexivity. }
  repeat split; try assumption.
  - apply dict_dom_keys, Hkeys.
  - rewrite !dict_len_keys, Hkeys. reflexivity.
  - rewrite (bp_keys _ _ _ _ P2). apply accepted_NoDup.
    rewrite (bp_keys _ _ _ _ P1). apply accepted_NoDup, Hnd.
  - apply (bp_old_papers _ _ _ _ P1), H0.
  - apply (bp_old_index _ _ _ _ P1), H0.
  - apply accepted_nil_iff in H. apply (bp_none _ _ _ _ P1 H).
  - apply accepted_nil_iff in H. apply (bp_none _ _ _ _ P1 H).
  - apply accepted_nil_iff in H. apply (bp_none _ _ _ _ P2 H).
  - apply accepted_nil_iff in H. apply (bp_none _ _ _ _ P2 H).
Qed.

Lemma reingestion_idempotent_witness :
  loadable Sample.started /\
  NoDup (dict_keys (stored_papers Sample.started)) /\
  exists r1 s1 r2 s2 r3 s3,
    build Sample.builder [Sample.p1; Sample.p3] Sample.started = Returns r1 s1 /\
    build Sample.builder [Sample.p1; Sample.p2; Sample.p3] s1 = Returns r2 s2 /\
    build Sample.builder
      (dedup_by_id ([Sample.p1; Sample.p3] ++ [Sample.p1; Sample.p2; Sample.p3]))
      Sample.started = Returns r3 s3 /\
    dict_keys (stored_papers s2) = dict_keys (stored_papers s3) /\
    dict_get "2401.00001" (stored_papers s1)
    = dict_get "2401.00001" (stored_papers Sample.started).
Proof.
  assert (Hnd : NoDup (dict_keys (stored_papers Sample.started))).
  { apply (bool_decide_unpack _). vm_compute. exact I. }
  split; [exact (conj I I)|]. split; [exact Hnd|].
  destruct (reingestion_idempotent Sample.builder [Sample.p1; Sample.p3]
              [Sample.p1; Sample.p2; Sample.p3] Sample.started (conj I I) Hnd)
    as (r1 & s1 & r2 & s2 & r3 & s3 & H1 & H2 & H3 & H4 & _ & _ & _ & Hskip & _).
  exists r1, s1, r2, s2, r3, s3. repeat split; try assumption.
  apply (Hskip Sample.p1).
  - apply list_elem_of_here.
  - apply (bool_decide_unpack _). vm_compute. exact I.
Defined.

(** ** Loading *)




Example faulty_document_escapes :
  forall self xs s e,
    manifest_json (fs s) = Faulty e -> build self xs s = Raises e.
Proof.
  intros self xs s e H. unfold build, _load_existing_data. run_step.
  rewrite H. reflexivity.
Qed.

Lemma batch_id_format_witness :
  isocalendar (clock Sample.empty_world (ticks Sample.empty_world)) = (2024, 37, 2) /\
  1 <= 37 <= 53 /\
  exists s', _get_batch_id Sample.empty_world = Returns "2024-W37" s'.
Proof.
  split; [reflexivity|]. split; [lia|].
  destruct (batch_id_format Sample.empty_world 2024 37 2 eq_refl ltac:(lia))
    as (s' & Hrun & _).
  exists s'. exact Hrun.
Defined.

(** ** The markdown table of the GitHub committer *)

(** When the rebuilt content is the existing content, [commit_papers]
    writes nothing and returns [True]. *)
Lemma commit_papers_no_change (timestamp : string)
    (papers : list GitHub.PaperMetadata) (r r1 : GitHub.remote) :
  GitHub._get_or_create_branch r = inr r1 ->
  GitHub._build_markdown_table timestamp papers (GitHub._get_existing_content r1)
  = GitHub._get_existing_content r1 ->
  exists r', GitHub.commit_papers timestamp papers r = inr (true, r') /\
    (r' = r \/ r' = r1) /\
    (GitHub.calls r1 = GitHub.calls r
     \/ GitHub.calls r1 = (GitHub.calls r ++ [GitHub.create_git_ref])%list).
Proof.
  intros Hbranch Hsame. unfold GitHub.commit_papers.
  destruct papers as [|p ps].
  - exists r. split; [reflexivity|]. split; [left; reflexivity|].
    unfold GitHub._get_or_create_branch in Hbranch.
    destruct (negb (GitHub.repo_accessible r)); [discriminate|].
    destruct (GitHub.branch_exists r); [injection Hbranch as <-; left; reflexivity|].
    destruct (GitHub.branch_creatable r); [|discriminate].
    injection Hbranch as <-. right. reflexivity.
  - rewrite Hbranch, Hsame, String.eqb_refl.
    exists r1. split; [reflexivity|]. split; [right; reflexivity|].
    unfold GitHub._get_or_create_branch in Hbranch.
    destruct (negb (GitHub.repo_accessible r)); [discriminate|].
    destruct (GitHub.branch_exists r); [injection Hbranch as <-; left; reflexivity|].
    destruct (GitHub.branch_creatable r); [|discriminate].
    injection Hbranch as <-. right. reflexivity.
Qed.

Example plain_title_is_not_repeated :
  let once := GitHub._build_markdown_table Sample.timestamp [Sample.plain_row] "" in
  GitHub._build_markdown_table Sample.timestamp [Sample.plain_row] once = once /\
  row_count Sample.plain_row once = 1%nat.
Proof. vm_compute. split; reflexivity. Qed.

Example parsed_title_of_demo_row :
  GitHub.row_title (GitHub.to_markdown_row Sample.demo_row) = Some "[Demo".
Proof. vm_compute. reflexivity. Qed.

Example parsed_title_of_wrapped_row :
  GitHub.row_title (GitHub.to_markdown_row Sample.wrapped_row)
  = Some "Automated Program Repair with Language Models".
Proof. vm_compute. reflexivity. Qed.

(** C10, evaluated where it fails. For the offline demo paper (its title
    begins with a bracketed tag) and for a paper whose title holds a line
    break, feeding the built table back in with the same paper adds the
    row a second time, and [commit_papers] then writes the file again; for
    a plain title the second application changes nothing and
    [commit_papers] writes nothing and returns [True]. *)
Theorem markdown_table_repeats_rows :
  let build := GitHub._build_markdown_table Sample.timestamp in
  let commit := fun paper =>
    GitHub.commit_papers Sample.timestamp [paper]
      (Sample.remote_with (Some (build [paper] ""))) in
  (row_count Sample.demo_row (build [Sample.demo_row] "") = 1%nat /\
   row_count Sample.demo_row (build [Sample.demo_row] (build [Sample.demo_row] ""))
   = 2%nat) /\
  (row_count Sample.wrapped_row (build [Sample.wrapped_row] "") = 1%nat /\
   row_count Sample.wrapped_row
     (build [Sample.wrapped_row] (build [Sample.wrapped_row] "")) = 2%nat) /\
  (exists r', commit Sample.demo_row = inr (true, r') /\
     GitHub.calls r'
     = [GitHub.update_file (build [Sample.demo_row] (build [Sample.demo_row] ""))]) /\
  (build [Sample.plain_row] (build [Sample.plain_row] "") = build [Sample.plain_row] "" /\
   commit Sample.plain_row
   = inr (true, Sample.remote_with (Some (build [Sample.plain_row] "")))).
Proof.
  cbv zeta. split; [|split; [|split]].
  - vm_compute. split; reflexivity.
  - vm_compute. split; reflexivity.
  - eexists. split; vm_compute; reflexivity.
  - vm_compute. split; reflexivity.
Qed.

(** ** Grouping by topic *)

Section Grouping.
Context {A B : Type}.
Implicit Types (g : dict (list B)) (k : string).

Lemma dict_keys_set_old {V} k (v : V) (d : dict V) :
  k ∈ dict_keys d -> dict_keys (dict_set k v d) = dict_keys d.
Proof.
  induction d as [|[k' v'] d IH]; intros H.
  - apply elem_of_nil in H. contradiction.
  - cbn [dict_set]. unfold dict_keys in *. cbn [map fst] in *.
    destruct (String.eqb_spec k' k) as [->|Hne]; [reflexivity|].
    cbn [map fst]. f_equal. apply IH.
    apply elem_of_cons in H as [H|H]; [congruence | exact H].
Qed.

Lemma group_append_keys k (v : B) g :
  dict_keys (group_append k v g)
  = if decide (k ∈ dict_keys g) then dict_keys g else (dict_keys g ++ [k])%list.
Proof.
  unfold group_append. destruct (dict_get k g) eqn:E.
  - assert (H : k ∈ dict_keys g).
    { destruct (decide (k ∈ dict_keys g)) as [H|H]; [exact H|].
      apply dict_get_None in H. congruence. }
    rewrite decide_True by exact H. apply dict_keys_set_old, H.
  - apply dict_get_None in E. rewrite decide_False by exact E.
    apply dict_keys_set_new, E.
Qed.

Lemma group_append_get_eq k (v : B) g :
  dict_get k (group_append k v g) = Some (default [] (dict_get k g) ++ [v])%list.
Proof.
  unfold group_append. destruct (dict_get k g); apply dict_get_set_eq.
Qed.

Lemma group_append_get_ne k k' (v : B) g :
  k <> k' -> dict_get k' (group_append k v g) = dict_get k' g.
Proof.
  intros H. unfold group_append.
  destruct (dict_get k g); apply dict_get_set_ne, H.
Qed.

Variables (key : A -> string) (val : A -> B).

Lemma grouped_get (xs : list A) : forall g k,
  default [] (dict_get k (grouped key val xs g))
  = (default [] (dict_get k g) ++ map val (filter (fun x => key x = k) xs))%list.
Proof.
  unfold grouped. induction xs as [|x xs IH]; intros g k; cbn [fold_left].
  - rewrite filter_nil. cbn [map]. rewrite app_nil_r. reflexivity.
  - rewrite IH. rewrite filter_cons.
    destruct (decide (key x = k)) as [<-|Hne].
    + rewrite group_append_get_eq. cbn [default from_option id map].
      rewrite <- app_assoc. reflexivity.
    + rewrite group_append_get_ne by exact Hne. reflexivity.
Qed.

Lemma elem_of_first_seen (l : list string) k : k ∈ first_seen l <-> k ∈ l.
Proof.
  induction l as [|a l IH]; cbn [first_seen]; [reflexivity|].
  rewrite !elem_of_cons, list_elem_of_filter, IH.
  destruct (decide (k = a)); tauto.
Qed.

Lemma NoDup_first_seen (l : list string) : NoDup (first_seen l).
Proof.
  induction l as [|a l IH]; cbn [first_seen]; [constructor|].
  constructor.
  - rewrite list_elem_of_filter. intros [H _]. apply H. reflexivity.
  - apply NoDup_filter, IH.
Qed.

Lemma grouped_keys (xs : list A) : forall g,
  dict_keys (grouped key val xs g)
  = (dict_keys g
     ++ filter (fun k => k ∉ dict_keys g) (first_seen (map key xs)))%list.
Proof.
  unfold grouped. induction xs as [|x xs IH]; intros g; cbn [fold_left map first_seen].
  - rewrite filter_nil, app_nil_r. reflexivity.
  - rewrite IH, group_append_keys, filter_cons.
    destruct (decide (key x ∈ dict_keys g)) as [Hin|Hin].
    + rewrite decide_False by (intros H; apply H, Hin).
      f_equal. rewrite list_filter_filter. apply list_filter_iff.
      intros k. split; [|intros [H _]; exact H]. intros H. split; [exact H|].
      intros ->. apply H, Hin.
    + rewrite decide_True by exact Hin.
      rewrite <- app_assoc. cbn [app]. do 2 f_equal.
      rewrite list_filter_filter. apply list_filter_iff.
      intros k. rewrite not_elem_of_app, list_elem_of_singleton. tauto.
Qed.

Lemma dict_set_values_new k (l : list B) g :
  dict_get k g = None ->
  concat (map snd (dict_set k l g)) ≡ₚ (concat (map snd g) ++ l)%list.
Proof.
  intros E. induction g as [|[k' v'] g IH]; cbn [dict_set dict_get] in *.
  - cbn. rewrite app_nil_r. reflexivity.
  - destruct (String.eqb k' k); [discriminate|]. cbn [map snd concat].
    rewrite <- app_assoc. apply Permutation_app_head, IH, E.
Qed.

Lemma dict_set_values_old k (old extra : list B) g :
  dict_get k g = Some old ->
  concat (map snd (dict_set k (old ++ extra)%list g))
  ≡ₚ (concat (map snd g) ++ extra)%list.
Proof.
  intros E. induction g as [|[k' v'] g IH]; [discriminate|].
  cbn [dict_set dict_get] in *.
  destruct (String.eqb k' k); cbn [map snd concat].
  - injection E as ->. rewrite <- !app_assoc.
    apply Permutation_app_head, Permutation_app_comm.
  - rewrite <- app_assoc. apply Permutation_app_head, IH, E.
Qed.

Lemma grouped_values (xs : list A) : forall g,
  concat (map snd (grouped key val xs g)) ≡ₚ (concat (map snd g) ++ map val xs)%list.
Proof.
  unfold grouped. induction xs as [|x xs IH]; intros g; cbn [fold_left map].
  - rewrite app_nil_r. reflexivity.
  - rewrite IH. unfold group_append.
    destruct (dict_get (key x) g) as [old|] eqn:E.
    + rewrite (dict_set_values_old _ _ _ _ E), <- app_assoc. reflexivity.
    + rewrite (dict_set_values_new _ _ _ E), <- app_assoc. reflexivity.
Qed.

End Grouping.

Lemma fold_left_ext {A B} (f g : A -> B -> A) (l : list B) :
  (forall a b, f a b = g a b) -> forall a, fold_left f l a = fold_left g l a.
Proof.
  intros H. induction l as [|b l IH]; intros a; cbn [fold_left]; [reflexivity|].
  rewrite H. apply IH.
Qed.

Lemma grouped_keys_nil {A B} (key : A -> string) (val : A -> B) xs :
  dict_keys (grouped key val xs []) = first_seen (map key xs).
Proof.
  rewrite grouped_keys. cbn [dict_keys map app].
  induction (first_seen (map key xs)) as [|k l IH]; [reflexivity|].
  rewrite filter_cons, decide_True by apply not_elem_of_nil.
  f_equal. exact IH.
Qed.

Lemma grouped_get_nil {A B} (key : A -> string) (val : A -> B) xs k :
  default [] (dict_get k (grouped key val xs []))
  = map val (filter (fun x => key x = k) xs).
Proof. rewrite grouped_get. reflexivity. Qed.

Lemma dict_get_elem {V} (d : dict V) k v :
  NoDup (dict_keys d) -> (k, v) ∈ d -> dict_get k d = Some v.
Proof.
  induction d as [|[k' v'] d IH]; intros Hnd Hin.
  - apply elem_of_nil in Hin. contradiction.
  - unfold dict_keys in *. cbn [map fst dict_get] in *.
    apply NoDup_cons in Hnd as [Hk' Hnd].
    apply elem_of_cons in Hin as [[= -> ->]|Hin].
    + rewrite String.eqb_refl. reflexivity.
    + destruct (String.eqb_spec k' k) as [->|_]; [|apply IH; assumption].
      exfalso. apply Hk'. apply list_elem_of_fmap. exists (k, v). split; [reflexivity|exact Hin].
Qed.

Lemma grouped_elem {A B} (key : A -> string) (val : A -> B) xs k l :
  (k, l) ∈ grouped key val xs [] ->
  l = map val (filter (fun x => key x = k) xs) /\ l <> [].
Proof.
  intros Hin.
  assert (Hnd : NoDup (dict_keys (grouped key val xs []))).
  { rewrite grouped_keys_nil. apply NoDup_first_seen. }
  pose proof (dict_get_elem _ _ _ Hnd Hin) as Hget.
  pose proof (grouped_get_nil key val xs k) as Hl.
  rewrite Hget in Hl. cbn [default from_option id] in Hl.
  split; [exact Hl|].
  assert (Hk : k ∈ dict_keys (grouped key val xs [])).
  { apply list_elem_of_fmap. exists (k, l). split; [reflexivity|exact Hin]. }
  rewrite grouped_keys_nil, elem_of_first_seen in Hk.
  apply list_elem_of_fmap in Hk as (x & -> & Hx).
  rewrite Hl. intros E. apply (f_equal (@length B)) in E.
  rewrite length_map in E. cbn [length] in E.
  assert (Hxin : x ∈ filter (fun y => key y = key x) xs).
  { apply list_elem_of_filter. split; [reflexivity|exact Hx]. }
  destruct (filter (fun y => key y = key x) xs); [|discriminate].
  apply elem_of_nil in Hxin. contradiction.
Qed.

Lemma topics_mapping_grouped papers :
  topics_mapping papers = grouped index_topic fst papers [].
Proof.
  unfold topics_mapping, grouped. apply fold_left_ext.
  intros g [k info]. reflexivity.
Qed.

Lemma current_batch_entries_grouped papers bid :
  current_batch_entries papers bid
  = grouped record_topic id
      (filter (fun d => pd_batch_id d = Some bid) (map snd papers)) [].
Proof. reflexivity. Qed.

(** X1. [_save_manifest] always returns, and the manifest it writes carries
    the legacy topic mapping of the paper index it holds: the topics are
    those of the index entries (["unknown"] for an entry without one), each
    once, in order of first appearance; under a topic stand the identifiers
    of the entries of that topic, each once, in index order. *)
Theorem saved_topics_mapping self s :
  exists s' mapping,
    _save_manifest self s = Returns tt s' /\
    manifest_json (fs s') = Holds (_existing_manifest s') /\
    m_topics (_existing_manifest s') = Some mapping /\
    dict_keys mapping
    = first_seen (map index_topic (index_of (_existing_manifest s))) /\
    forall t,
      default [] (dict_get t mapping)
      = map fst (filter (fun p => index_topic p = t)
                        (index_of (_existing_manifest s))).
Proof.
  exists (match _save_manifest self s with Returns _ s' => s' | Raises _ => s end).
  exists (topics_mapping (index_of (_existing_manifest s))).
  assert (Hrun : exists s',
            _save_manifest self s = Returns tt s' /\
            manifest_json (fs s') = Holds (_existing_manifest s') /\
            m_topics (_existing_manifest s')
            = Some (topics_mapping (index_of (_existing_manifest s)))).
  { unfold _save_manifest, index_of. run_step. cbn [PIPELINE_RUN_AT set_manifest].
    destruct (PIPELINE_RUN_AT s) as [v|]; [destruct (Py.truthy v)|];
      run_step; (eexists; split; [reflexivity|]); split; reflexivity. }
  destruct Hrun as (s' & Hrun & Hjson & Htopics). rewrite Hrun.
  repeat split; try assumption.
  - rewrite topics_mapping_grouped. apply grouped_keys_nil.
  - intros t. rewrite topics_mapping_grouped. apply grouped_get_nil.
Qed.

(** X2. The entries that [_render_main_index] passes to the index page are
    the stored records of the current batch and no others, grouped by
    topic name (["Unknown"] for a record without one): the topics come in
    order of first appearance in the store, the records of a topic in
    store order, every record of the batch stands in exactly one group,
    and no group is empty. *)
Theorem current_batch_entries_spec (papers : dict paper_data) (bid : string) :
  let current := filter (fun d => pd_batch_id d = Some bid) (map snd papers) in
  let entries := current_batch_entries papers bid in
  dict_keys entries = first_seen (map record_topic current) /\
  (forall t,
     default [] (dict_get t entries) = filter (fun d => record_topic d = t) current) /\
  concat (map snd entries) ≡ₚ current /\
  Forall (fun e => snd e = filter (fun d => record_topic d = fst e) current
                   /\ snd e <> []) entries.
Proof.
  cbv zeta. rewrite current_batch_entries_grouped.
  set (current := filter _ (map snd papers)).
  repeat split.
  - apply grouped_keys_nil.
  - intros t. rewrite grouped_get_nil, map_id. reflexivity.
  - rewrite grouped_values. cbn [map concat app]. rewrite map_id. reflexivity.
  - apply Forall_forall. intros [t l] Hin.
    apply grouped_elem in Hin as [Hl Hne]. rewrite map_id in Hl.
    split; assumption.
Qed.

(** ** The steps of a build, one by one *)

Lemma bind_returns {A B} (m : M A) (f : A -> M B) s a s1 :
  m s = Returns a s1 -> (m ≫= f) s = f a s1.
Proof. intros H. unfold mbind, M_bind. rewrite H. reflexivity. Qed.

Lemma process_loop_effect bid (xs : list PaperSummary) :
  forall np tg s np' tg' s',
    for_each_acc xs (np, tg) (process_summary bid) s = Returns (np', tg') s' ->
    let acc := accepted (dict_keys (_existing_papers s)) xs in
    np' = (np ++ acc)%list /\
    tg' = grouped summary_topic id acc tg /\
    stdout s' = (stdout s
                 ++ map skip_line (skipped (dict_keys (_existing_papers s)) xs))%list /\
    ticks s' = (ticks s + length acc)%nat /\
    forall x, x ∈ acc ->
      exists k, (ticks s <= k < ticks s')%nat /\
        dict_get (summary_id x) (_existing_papers s')
        = Some (stamp bid (isoformat (clock s k)) (PaperSummary_to_dict x)) /\
        dict_get (summary_id x) (index_of (_existing_manifest s'))
        = Some (index_entry_of bid x).
Proof.
  induction xs as [|x xs IH]; intros np tg s np' tg' s' Hrun; cbv zeta.
  - cbn [for_each_acc accepted skipped map] in *. injection Hrun as <- <- <-.
    rewrite !app_nil_r. split; [reflexivity|]. split; [reflexivity|]. split; [reflexivity|].
    split; [cbn [length]; lia|].
    intros x Hx. apply elem_of_nil in Hx. contradiction.
  - cbn [for_each_acc accepted skipped] in *. revert Hrun. run_step.
    unfold process_summary at 1. run_step.
    rewrite dict_mem_keys. fold (summary_id x).
    destruct (bool_decide (summary_id x ∈ dict_keys (_existing_papers s))) eqn:Hin.
    + intros Hrun. apply IH in Hrun.
      cbn [_existing_papers _existing_manifest fs clock ticks stdout] in Hrun.
      destruct Hrun as (H1 & H2 & H3 & H4 & H5).
      repeat split; try assumption.
      rewrite H3, <- app_assoc. reflexivity.
    + apply bool_decide_eq_false in Hin.
      cbn [_existing_papers _existing_manifest fs clock ticks PIPELINE_RUN_AT
           stdout set_papers set_manifest].
      intros Hrun.
      match type of Hrun with for_each_acc xs (?np1, ?tg1) _ ?s1 = _ =>
        destruct (process_loop bid xs np1 tg1 s1) as (tg'' & s'' & Hrun' & Hpost);
        pose proof (IH _ _ _ _ _ _ Hrun) as Hfacts end.
      unfold dict in *. rewrite Hrun' in Hrun. injection Hrun as _ _ <-.
      clear Hrun'.
      cbn [_existing_papers _existing_manifest fs clock ticks PIPELINE_RUN_AT
           stdout set_papers set_manifest] in Hfacts, Hpost.
      destruct Hpost as [Pk Pop Poi Pn Pb Pst Plu Pfs Pcl Penv Ptk].
      cbn [_existing_papers _existing_manifest fs clock ticks PIPELINE_RUN_AT
           stdout set_papers set_manifest] in *.
      rewrite dict_keys_set_new in * by exact Hin.
      destruct Hfacts as (H1 & H2 & H3 & H4 & H5).
      repeat split.
      * rewrite H1, <- app_assoc. reflexivity.
      * exact H2.
      * exact H3.
      * rewrite H4. cbn [length]. lia.
      * intros y Hy. apply elem_of_cons in Hy as [->|Hy].
        -- exists (ticks s). split; [lia|].
           assert (Hx : summary_id x ∈ (dict_keys (_existing_papers s) ++ [summary_id x])%list).
           { apply elem_of_app. right. apply list_elem_of_singleton. reflexivity. }
           rewrite (Pop _ Hx), (Poi _ Hx). unfold index_of.
           cbn [set_m_papers m_papers default from_option id].
           rewrite !dict_get_set_eq. split; reflexivity.
        -- destruct (H5 y Hy) as (k & Hk & E1 & E2).
           exists k. split; [lia|]. split; assumption.
Qed.

Lemma io_effect_refl s : io_effect [] [] s s.
Proof. split; [reflexivity | rewrite app_nil_r; reflexivity]. Qed.

Lemma io_effect_trans ws1 l1 ws2 l2 s1 s2 s3 :
  io_effect ws1 l1 s1 s2 -> io_effect ws2 l2 s2 s3 ->
  io_effect (ws1 ++ ws2) (l1 ++ l2) s1 s3.
Proof.
  intros [W1 L1] [W2 L2]. split.
  - rewrite W2, W1. unfold write_all. rewrite fold_left_app. reflexivity.
  - rewrite L2, L1, <- app_assoc. reflexivity.
Qed.

(** The steps of [build], with the states between them. *)
Lemma build_trace self (xs : list PaperSummary) s :
  loadable s ->
  let out := output_dir (site_config self) in
  let bid := batch_id_of (clock s (ticks s)) in
  let acc := accepted (dict_keys (stored_papers s)) xs in
  exists s0 s1 tg s2 s3 s4 s5 s6 s7 s8,
    _load_existing_data self s = Returns tt s0 /\
    _get_batch_id s0 = Returns bid s1 /\
    for_each_acc xs ([], []) (process_summary bid) s1 = Returns (acc, tg) s2 /\
    write_detail_pages self out tg s2 = Returns tt s3 /\
    step5 out bid acc s3 = Returns tt s4 /\
    _render_main_index self out bid s4 = Returns tt s5 /\
    _render_archive_index out s5 = Returns tt s6 /\
    _save_manifest self s6 = Returns tt s7 /\
    _save_paper_data s7 = Returns tt s8 /\
    build self xs s = Returns [("index", path_join out "index.html")] s8.
Proof.
  intros Hload out bid acc.
  destruct (load_existing_data_run self s Hload)
    as (s0 & H0 & Ep0 & Em0 & Efs0 & Ecl0 & Etk0 & Eso0 & Eenv0).
  destruct (get_batch_id_run s0) as (s1 & H1 & [Ep1 Em1 Emj1 Epj1 Ecl1 Eenv1 _] & Etk1).
  rewrite Ecl0, Etk0 in H1. fold bid in H1.
  destruct (process_loop bid xs [] [] s1) as (tg & s2 & H2 & _).
  rewrite Ep1, Ep0 in H2. cbn [app] in H2. fold acc in H2.
  destruct (write_detail_pages_same self out tg s2) as (s3 & H3 & _).
  assert (H4 : exists s4, step5 out bid acc s3 = Returns tt s4).
  { unfold step5. destruct acc as [|a acc']; [eexists; reflexivity|].
    destruct (update_batch_info_run bid (a :: acc') s3) as (t1 & E1 & _).
    destruct (render_batch_archive_same out bid (a :: acc') t1) as (t2 & E2 & _).
    rewrite (bind_returns _ _ _ _ _ E1), (bind_returns _ _ _ _ _ E2).
    eexists. reflexivity. }
  destruct H4 as (s4 & H4).
  destruct (render_main_index_same self out bid s4) as (s5 & H5 & _).
  destruct (render_archive_index_same out s5) as (s6 & H6 & _).
  destruct (save_manifest_run self s6) as (s7 & H7 & _).
  destruct (save_paper_data_run s7) as (s8 & H8 & _).
  exists s0, s1, tg, s2, s3, s4, s5, s6, s7, s8.
  repeat (split; [assumption|]).
  unfold build. fold out.
  rewrite (bind_returns _ _ _ _ _ H0), (bind_returns _ _ _ _ _ H1).
  unfold dict in *.
  rewrite (bind_returns _ _ _ _ _ H2). cbn beta iota.
  rewrite (bind_returns _ _ _ _ _ H3).
  change (match acc with
          | [] => print "[INFO] No new papers to add"
          | _ :: _ => _
          end) with (step5 out bid acc).
  rewrite (bind_returns _ _ _ _ _ H4), (bind_returns _ _ _ _ _ H5),
    (bind_returns _ _ _ _ _ H6), (bind_returns _ _ _ _ _ H7),
    (bind_returns _ _ _ _ _ H8).
  reflexivity.
Qed.

Ltac same_run L H F :=
  let s' := fresh "s" in
  let E := fresh "E" in
  destruct L as (s' & E & F); rewrite E in H; injection H as ->; clear E.

Lemma get_batch_id_io s b s' : _get_batch_id s = Returns b s' -> io_effect [] [] s s'.
Proof.
  unfold _get_batch_id. run_step.
  destruct (isocalendar (clock s (ticks s))) as [[year week] weekday].
  intros [= _ <-]. split; cbn; [reflexivity | rewrite app_nil_r; reflexivity].
Qed.

Lemma write_text_io p c s s' :
  write_text p c s = Returns tt s' -> io_effect [(p, c)] [] s s'.
Proof.
  intros [= <-]. split; cbn; [reflexivity | rewrite app_nil_r; reflexivity].
Qed.

Lemma for_each_io {A} (ws : A -> list (string * content)) (body : A -> M unit) :
  (forall x s s', body x s = Returns tt s' -> io_effect (ws x) [] s s') ->
  forall xs s s',
    for_each xs body s = Returns tt s' -> io_effect (concat (map ws xs)) [] s s'.
Proof.
  intros Hbody. induction xs as [|x xs IH]; intros s s'; cbn [for_each map concat].
  - intros [= <-]. apply io_effect_refl.
  - unfold mbind, M_bind. destruct (body x s) as [[] s1|e] eqn:E; [|discriminate].
    intros H. apply (io_effect_trans _ [] _ [] s s1 s').
    + apply Hbody, E.
    + apply IH, H.
Qed.

Lemma for_each_write_io {A} (p : A -> string) (c : A -> content) :
  forall xs s s',
    for_each xs (fun x => write_text (p x) (c x)) s = Returns tt s' ->
    io_effect (map (fun x => (p x, c x)) xs) [] s s'.
Proof.
  induction xs as [|x xs IH]; intros s s'; cbn [for_each map].
  - intros [= <-]. apply io_effect_refl.
  - unfold mbind, M_bind.
    destruct (write_text (p x) (c x) s) as [[] s1|e] eqn:E; [|discriminate].
    intros H. apply (io_effect_trans [_] [] _ [] s s1 s').
    + apply write_text_io, E.
    + apply IH, H.
Qed.

Lemma write_detail_pages_io self out tg s s' :
  write_detail_pages self out tg s = Returns tt s' ->
  io_effect (detail_writes self out tg) [] s s'.
Proof.
  unfold write_detail_pages, detail_writes. apply for_each_io.
  intros [t l] s0 s1. apply for_each_write_io.
Qed.

Lemma load_existing_data_io self s s' :
  _load_existing_data self s = Returns tt s' -> io_effect [] [] s s'.
Proof.
  unfold _load_existing_data. run_step.
  destruct (manifest_json (fs s)); try discriminate;
    destruct (papers_json (fs s)); try discriminate;
    intros [= <-]; (split; cbn; [reflexivity | rewrite app_nil_r; reflexivity]).
Qed.

Lemma update_batch_info_io bid (np : list PaperSummary) s s' :
  _update_batch_info bid np s = Returns tt s' -> io_effect [] [] s s'.
Proof.
  unfold _update_batch_info. run_step.
  destruct (find _ (default [] (m_batches (_existing_manifest s))));
    run_step; intros [= <-];
    (split; cbn; [reflexivity | rewrite app_nil_r; reflexivity]).
Qed.

Lemma render_batch_archive_io out bid (np : list PaperSummary) s s' :
  _render_batch_archive out bid np s = Returns tt s' ->
  io_effect (batch_writes out bid (isoformat (clock s (ticks s))) np) [] s s' /\
  ticks s' = S (ticks s).
Proof.
  unfold _render_batch_archive, write_text. run_step.
  intros [= <-]. split; [|reflexivity].
  split; cbn; [reflexivity | rewrite app_nil_r; reflexivity].
Qed.

Lemma print_io text s s' : print text s = Returns tt s' -> io_effect [] [text] s s'.
Proof. intros [= <-]. split; reflexivity. Qed.

Lemma step5_effect out bid (acc : list PaperSummary) s s' :
  step5 out bid acc s = Returns tt s' ->
  clock s' = clock s /\ (ticks s <= ticks s')%nat /\
  _existing_papers s' = _existing_papers s /\
  m_papers (_existing_manifest s') = m_papers (_existing_manifest s) /\
  exists kb,
    (acc <> [] -> (ticks s <= kb < ticks s')%nat) /\
    io_effect match acc with
              | _ :: _ => batch_writes out bid (isoformat (clock s kb)) acc
              | [] => []
              end
              [summary_line bid acc] s s'.
Proof.
  unfold step5. destruct acc as [|a acc'].
  - intros H. pose proof (print_io _ _ _ H) as Hio. injection H as <-.
    repeat split; try reflexivity. exists (ticks s).
    split; [intros Hne; contradiction Hne; reflexivity | exact Hio].
  - set (np := a :: acc'). unfold mbind, M_bind.
    destruct (_update_batch_info bid np s) as [[] t1|e] eqn:E1; [|discriminate].
    destruct (_render_batch_archive out bid np t1) as [[] t2|e] eqn:E2; [|discriminate].
    intros H3.
    pose proof (update_batch_info_io _ _ _ _ E1) as Hio1.
    destruct (render_batch_archive_io _ _ _ _ _ E2) as [Hio2 Htk2].
    pose proof (print_io _ _ _ H3) as Hio3.
    destruct (update_batch_info_run bid np s) as (t1' & E1' & Hu).
    rewrite E1' in E1. injection E1 as ->.
    destruct Hu as [U1 U2 U3 U4 U5 U6 U7 U8 U9].
    destruct (render_batch_archive_same out bid np t1) as (t2' & E2' & Hr).
    rewrite E2' in E2. injection E2 as ->.
    destruct Hr as [V1 V2 V3 V4 V5 V6 V7].
    injection H3 as <-.
    cbn [clock ticks _existing_papers _existing_manifest].
    repeat split; try congruence; try lia.
    exists (ticks t1). split; [intros _; lia|].
    rewrite <- U3.
    pose proof (io_effect_trans _ _ _ _ _ _ _
                  (io_effect_trans _ _ _ _ _ _ _ Hio1 Hio2) Hio3) as Hio.
    exact Hio.
Qed.

Lemma render_main_index_io self out bid s s' :
  _render_main_index self out bid s = Returns tt s' ->
  io_effect [ (path_join out "index.html",
               PageHtml (main_index_page self bid (strftime_ymd (clock s (ticks s)))
                           (_existing_papers s) (_existing_manifest s))) ] [] s s' /\
  ticks s' = S (ticks s).
Proof.
  unfold _render_main_index, write_text, main_index_page, batches_of. run_step.
  intros [= <-]. split; [|reflexivity].
  split; cbn; [reflexivity | rewrite app_nil_r; reflexivity].
Qed.

Lemma render_archive_index_io out s s' :
  _render_archive_index out s = Returns tt s' ->
  io_effect [ (path_join (path_join out "archives") "index.html",
               ArchiveListingHtml (batches_of (_existing_manifest s))) ] [] s s'.
Proof.
  unfold _render_archive_index, write_text, batches_of. run_step.
  intros [= <-]. split; cbn; [reflexivity | rewrite app_nil_r; reflexivity].
Qed.

Lemma save_manifest_io self s s' :
  _save_manifest self s = Returns tt s' -> io_effect [] [] s s'.
Proof.
  unfold _save_manifest. run_step. cbn [PIPELINE_RUN_AT set_manifest].
  destruct (PIPELINE_RUN_AT s) as [v|]; [destruct (Py.truthy v)|];
    run_step; intros [= <-];
    (split; cbn; [reflexivity | rewrite app_nil_r; reflexivity]).
Qed.

Lemma save_paper_data_io s s' :
  _save_paper_data s = Returns tt s' -> io_effect [] [] s s'.
Proof.
  intros [= <-]. split; cbn; [reflexivity | rewrite app_nil_r; reflexivity].
Qed.

Lemma main_index_page_ext self bid d papers m m' :
  m_statistics m = m_statistics m' -> m_batches m = m_batches m' ->
  main_index_page self bid d papers m = main_index_page self bid d papers m'.
Proof. unfold main_index_page, batches_of. intros -> ->. reflexivity. Qed.

(** What one [build] writes, prints and stores. *)
Lemma build_effect self (xs : list PaperSummary) s :
  loadable s ->
  let bid := batch_id_of (clock s (ticks s)) in
  let acc := accepted (dict_keys (stored_papers s)) xs in
  exists s' kb ki,
    build self xs s
    = Returns [("index", path_join (output_dir (site_config self)) "index.html")] s' /\
    (ticks s <= kb < ticks s')%nat /\ (ticks s <= ki < ticks s')%nat /\
    io_effect
      (build_writes self bid (isoformat (clock s kb)) (strftime_ymd (clock s ki))
                    acc (stored_papers s') (stored_manifest self s'))
      (map skip_line (skipped (dict_keys (stored_papers s)) xs)
       ++ [summary_line bid acc])%list s s' /\
    forall x, x ∈ acc ->
      exists k, (ticks s <= k < ticks s')%nat /\
        dict_get (summary_id x) (stored_papers s')
        = Some (stamp bid (isoformat (clock s k)) (PaperSummary_to_dict x)) /\
        dict_get (summary_id x) (index_of (stored_manifest self s'))
        = Some (index_entry_of bid x).
Proof.
  intros Hload bid acc.
  destruct (build_trace self xs s Hload)
    as (s0 & s1 & tg & s2 & s3 & s4 & s5 & s6 & s7 & s8
        & H0 & H1 & H2 & H3 & H4 & H5 & H6 & H7 & H8 & Hb).
  fold bid acc in H1, H2, H4, H5, Hb.
  set (out := output_dir (site_config self)) in *.
  pose proof (load_existing_data_io _ _ _ H0) as I0.
  pose proof (get_batch_id_io _ _ _ H1) as I1.
  pose proof (process_loop_effect _ _ _ _ _ _ _ _ H2) as (_ & L2 & L3 & L4 & L5).
  pose proof (write_detail_pages_io _ _ _ _ _ H3) as I3.
  pose proof (step5_effect _ _ _ _ _ H4) as (C4 & T4 & P4 & M4 & kb & K4 & I4).
  pose proof (render_main_index_io _ _ _ _ _ H5) as (I5 & T5).
  pose proof (render_archive_index_io _ _ _ H6) as I6.
  pose proof (save_manifest_io _ _ _ H7) as I7.
  pose proof (save_paper_data_io _ _ H8) as I8.
  same_run (load_existing_data_run self s Hload) H0 F0.
  destruct F0 as (Ep0 & Em0 & Efs0 & Ecl0 & Etk0 & Eso0 & Eenv0).
  destruct (get_batch_id_run s0) as (s1' & E1 & F1).
  rewrite E1 in H1. injection H1 as _ ->. clear E1.
  destruct F1 as [[Ep1 Em1 Emj1 Epj1 Ecl1 Eenv1 _] Etk1].
  destruct (process_loop bid xs [] [] s1) as (tg' & s2' & E2 & Post).
  unfold dict in *. rewrite E2 in H2.
  injection H2 as _ -> ->. clear E2.
  destruct Post as [Pk Pop Poi Pn Pb Pst Plu Pfs Pcl Penv Ptk].
  same_run (write_detail_pages_same self out tg s2) H3 F3.
  destruct F3 as [Ep3 Em3 Emj3 Epj3 Ecl3 Eenv3 Etk3].
  same_run (render_main_index_same self out bid s4) H5 F5.
  same_run (render_archive_index_same out s5) H6 F6.
  same_run (save_manifest_run self s6) H7 F7.
  same_run (save_paper_data_run s7) H8 F8.
  destruct (tail_facts self _ _ _ _ _ F5 F6 F7 F8)
    as (T1 & T2 & T3 & T4' & T5' & T6 & T7 & T8 & T9 & T10 & T11 & T12).
  destruct F5 as [A1 A2 A3 A4 A5 A6 A7]. destruct F6 as [B1 B2 B3 B4 B5 B6 B7].
  destruct F7 as [D1 D2 D3 D4 D5 D6 D7 D8 D9 D10 D11 D12].
  destruct F8 as [G1 G2 G3 G4 G5].
  assert (Hclock4 : clock s4 = clock s) by congruence.
  assert (Hclock3 : clock s3 = clock s) by congruence.
  assert (Hclock1 : clock s1 = clock s) by congruence.
  exists s8, (if decide (acc = []) then ticks s else kb), (ticks s4).
  split; [exact Hb|].
  split; [destruct (decide (acc = [])) as [_|Hne]; [lia | specialize (K4 Hne); lia]|].
  split; [lia|].
  split.
  - assert (I2 : io_effect [] (map skip_line (skipped (dict_keys (_existing_papers s1)) xs))
                   s1 s2) by (split; [rewrite Pfs; reflexivity | exact L3]).
    pose proof (io_effect_trans _ _ _ _ _ _ _ I0
       (io_effect_trans _ _ _ _ _ _ _ I1
        (io_effect_trans _ _ _ _ _ _ _ I2
         (io_effect_trans _ _ _ _ _ _ _ I3
          (io_effect_trans _ _ _ _ _ _ _ I4
           (io_effect_trans _ _ _ _ _ _ _ I5
            (io_effect_trans _ _ _ _ _ _ _ I6
             (io_effect_trans _ _ _ _ _ _ _ I7 I8)))))))) as Hio.
    cbn [app] in Hio. rewrite ?app_nil_r in Hio.
    rewrite Ep1, Ep0 in Hio, L2. fold acc in L2.
    rewrite Hclock3, Hclock4 in Hio.
    unfold build_writes. fold out.
    rewrite <- L2, T3.
    rewrite (main_index_page_ext self bid _ _ (stored_manifest self s8)
               (_existing_manifest s4)) by congruence.
    replace (batches_of (stored_manifest self s8))
      with (batches_of (_existing_manifest s5))
      by (unfold batches_of; congruence).
    destruct (decide (acc = [])) as [Hnil|Hne].
    + revert Hio. generalize acc Hnil. intros acc' ->. intros Hio. exact Hio.
    + exact Hio.
  - intros x Hx. rewrite Ep1, Ep0 in L5. destruct (L5 x Hx) as (k & Hk & E1 & E2).
    exists k. split; [lia|]. rewrite Hclock1 in E1.
    rewrite T3, P4, Ep3. split; [exact E1|].
    unfold index_of in *. rewrite T4', M4, Em3. exact E2.
Qed.

(** ** Strings as lists of characters *)

Lemma chars_app (a b : string) : chars (a +:+ b) = (chars a ++ chars b)%list.
Proof.
  unfold chars. induction a as [|c a IH]; [reflexivity|].
  change (c :: list_ascii_of_string (a +:+ b)
          = c :: (list_ascii_of_string a ++ list_ascii_of_string b)%list).
  f_equal. exact IH.
Qed.

Lemma chars_inj (a b : string) : chars a = chars b -> a = b.
Proof.
  unfold chars. intros H. rewrite <- (string_of_list_ascii_of_string a),
    <- (string_of_list_ascii_of_string b), H. reflexivity.
Qed.

Lemma chars_length (a : string) : length (chars a) = String.length a.
Proof.
  unfold chars. induction a as [|c a IH]; [reflexivity|].
  cbn [list_ascii_of_string length String.length]. rewrite IH. reflexivity.
Qed.

Lemma chars_path_join (a b : string) :
  chars (path_join a b) = (chars a ++ "/"%char :: chars b)%list.
Proof. unfold path_join. rewrite !chars_app. reflexivity. Qed.

(** A list is cut in one way only at the first occurrence of [a]. *)
Lemma cut_at_first {A} (a : A) (l1 l2 r1 r2 : list A) :
  a ∉ l1 -> a ∉ l2 -> (l1 ++ a :: r1 = l2 ++ a :: r2)%list -> l1 = l2 /\ r1 = r2.
Proof.
  revert l2. induction l1 as [|x l1 IH]; intros [|y l2] H1 H2 E; cbn in E.
  - injection E as ->. split; reflexivity.
  - injection E as <- _. exfalso. apply H2. left.
  - injection E as -> _. exfalso. apply H1. left.
  - injection E as -> E. apply not_elem_of_cons in H1 as [_ H1].
    apply not_elem_of_cons in H2 as [_ H2].
    destruct (IH l2 H1 H2 E) as [-> ->]. split; reflexivity.
Qed.

Lemma contains_slash (s : string) :
  Py.contains "/" s = false -> "/"%char ∉ chars s.
Proof.
  unfold chars. induction s as [|c s IH]; cbn [Py.contains list_ascii_of_string].
  - intros _. apply not_elem_of_nil.
  - intros H. apply orb_false_iff in H as [H1 H2].
    apply not_elem_of_cons. split; [|apply IH, H2].
    intros <-. cbn in H1. rewrite prefix_empty in H1. discriminate.
Qed.

(** ** The paths that a build writes to *)

Section Paths.
Variables (out bid : string).

Ltac path_chars E :=
  apply (f_equal chars) in E; unfold detail_path in E;
  rewrite ?chars_path_join, ?chars_app in E;
  rewrite <- ?app_assoc in E; cbn [app] in E;
  repeat (apply app_inv_head in E; try injection E as E).

Lemma index_ne_archive_index :
  path_join out "index.html" <> path_join (path_join out "archives") "index.html".
Proof. intros E. path_chars E. discriminate. Qed.

Lemma batch_json_ne_batch_index :
  path_join (path_join (path_join out "archives") bid) "batch.json"
  <> path_join (path_join (path_join out "archives") bid) "index.html".
Proof. intros E. path_chars E. discriminate. Qed.

Lemma batch_file_ne_index (f : string) :
  path_join (path_join (path_join out "archives") bid) f
  <> path_join out "index.html".
Proof. intros E. path_chars E. discriminate. Qed.

Lemma batch_file_ne_archive_index (f : string) :
  String.length f = 10%nat ->
  path_join (path_join (path_join out "archives") bid) f
  <> path_join (path_join out "archives") "index.html".
Proof.
  intros Hf E. path_chars E. cbn in E.
  repeat (injection E as _ E). 
  apply (f_equal (@length ascii)) in E. rewrite length_app in E.
  cbn [length] in E. rewrite (chars_length f), Hf in E. lia.
Qed.

Lemma detail_ne_index x : detail_path out x <> path_join out "index.html".
Proof. intros E. path_chars E. discriminate. Qed.

Lemma detail_ne_archive (p : string) x :
  detail_path out x <> path_join (path_join out "archives") p.
Proof. intros E. path_chars E. discriminate. Qed.

Lemma detail_ne_batch_file (f : string) x :
  detail_path out x <> path_join (path_join (path_join out "archives") bid) f.
Proof. intros E. path_chars E. discriminate. Qed.

Lemma detail_path_inj x y :
  Py.contains "/" (summary_topic x) = false ->
  Py.contains "/" (summary_topic y) = false ->
  detail_path out x = detail_path out y ->
  summary_topic x = summary_topic y /\ summary_id x = summary_id y.
Proof.
  intros Hx Hy E. path_chars E.
  apply cut_at_first in E as [Et Ei]; try (apply contains_slash; assumption).
  apply app_inv_tail in Ei.
  split; apply chars_inj; assumption.
Qed.

End Paths.

(** ** Files written one after another *)

Lemma write_all_app ws1 ws2 w :
  write_all (ws1 ++ ws2) w = write_all ws2 (write_all ws1 w).
Proof. unfold write_all. apply fold_left_app. Qed.

Lemma write_all_get_other ws : forall w p,
  p ∉ map fst ws -> dict_get p (write_all ws w) = dict_get p w.
Proof.
  induction ws as [|[q c] ws IH]; intros w p Hp; [reflexivity|].
  cbn [map fst] in Hp. apply not_elem_of_cons in Hp as [Hne Hp].
  change (dict_get p (write_all ws (dict_set q c w)) = dict_get p w).
  rewrite IH by exact Hp. apply dict_get_set_ne. congruence.
Qed.

Lemma write_all_get ws : forall w p c,
  NoDup (map fst ws) -> (p, c) ∈ ws -> dict_get p (write_all ws w) = Some c.
Proof.
  induction ws as [|[q d] ws IH]; intros w p c Hnd Hin.
  - apply elem_of_nil in Hin. contradiction.
  - cbn [map fst] in Hnd. apply NoDup_cons in Hnd as [Hq Hnd].
    change (dict_get p (write_all ws (dict_set q d w)) = Some c).
    apply elem_of_cons in Hin as [[= -> ->]|Hin].
    + rewrite write_all_get_other by exact Hq. apply dict_get_set_eq.
    + apply IH; assumption.
Qed.

Lemma dict_keys_set_mono {V} k (v : V) (d : dict V) p :
  p ∈ dict_keys d -> p ∈ dict_keys (dict_set k v d).
Proof.
  intros Hp. destruct (decide (k ∈ dict_keys d)) as [Hk|Hk].
  - rewrite dict_keys_set_old by exact Hk. exact Hp.
  - rewrite dict_keys_set_new by exact Hk. apply elem_of_app. left. exact Hp.
Qed.

Lemma write_all_keys ws : forall w p,
  p ∈ dict_keys w -> p ∈ dict_keys (write_all ws w).
Proof.
  induction ws as [|[q c] ws IH]; intros w p Hp; [exact Hp|].
  change (p ∈ dict_keys (write_all ws (dict_set q c w))).
  apply IH, dict_keys_set_mono, Hp.
Qed.

Lemma detail_writes_grouped self out (acc : list PaperSummary) :
  detail_writes self out (grouped summary_topic id acc [])
  ≡ₚ map (detail_page_of self out) acc.
Proof.
  assert (H : detail_writes self out (grouped summary_topic id acc [])
              = map (detail_page_of self out)
                    (concat (map snd (grouped summary_topic id acc [])))).
  { unfold detail_writes.
    assert (Hin : forall e, e ∈ grouped summary_topic id acc [] ->
                    forall x, x ∈ snd e -> summary_topic x = fst e).
    { intros [t l] He x Hx. apply grouped_elem in He as [Hl _].
      rewrite map_id in Hl. cbn [fst snd] in *. rewrite Hl in Hx.
      apply list_elem_of_filter in Hx as [Hx _]. exact Hx. }
    induction (grouped summary_topic id acc []) as [|[t l] g IH];
      [reflexivity|].
    cbn [map concat snd]. rewrite map_app. f_equal.
    - apply map_ext_in. intros x Hx. unfold detail_page_of, detail_path.
      assert (Ht : summary_topic x = t).
      { apply (Hin (t, l)); [left | apply list_elem_of_In, Hx]. }
      unfold summary_topic in Ht. rewrite Ht. reflexivity.
    - apply IH. intros e He. apply Hin. right. exact He. }
  rewrite H. apply fmap_Permutation.
  rewrite grouped_values. cbn [map concat app]. rewrite map_id. reflexivity.
Qed.

(** ** What a build prints *)

Lemma accepted_skipped (seen : list string) (xs : list PaperSummary) :
  (accepted seen xs ++ skipped seen xs)%list ≡ₚ xs.
Proof.
  revert seen. induction xs as [|x xs IH]; intros seen; cbn [accepted skipped].
  - reflexivity.
  - destruct (bool_decide (summary_id x ∈ seen)).
    + rewrite <- Permutation_middle. constructor. apply IH.
    + cbn [app]. constructor. apply IH.
Qed.

Lemma accepted_subset (seen : list string) (xs : list PaperSummary) x :
  x ∈ accepted seen xs -> x ∈ xs.
Proof.
  intros H. rewrite <- (accepted_skipped seen xs). apply elem_of_app. left. exact H.
Qed.

Lemma accepted_fresh (xs : list PaperSummary) : forall seen,
  NoDup (map summary_id (accepted seen xs)) /\
  forall x, x ∈ accepted seen xs -> summary_id x ∉ seen.
Proof.
  induction xs as [|x xs IH]; intros seen; cbn [accepted map].
  - split; [constructor | intros x Hx; apply elem_of_nil in Hx; contradiction].
  - destruct (bool_decide (summary_id x ∈ seen)) eqn:E; [apply IH|].
    apply bool_decide_eq_false in E.
    destruct (IH (seen ++ [summary_id x])%list) as [Hnd Hfresh].
    split.
    + cbn [map]. constructor; [|exact Hnd].
      intros Hin. apply list_elem_of_fmap in Hin as (y & Ey & Hy).
      apply (Hfresh y Hy). apply elem_of_app. right.
      apply list_elem_of_singleton. symmetry. exact Ey.
    + intros y Hy. apply elem_of_cons in Hy as [->|Hy]; [exact E|].
      intros Hin. apply (Hfresh y Hy). apply elem_of_app. left. exact Hin.
Qed.

(** X3. A build of a loadable directory prints one line for every summary
    that it skips, in input order, and then one closing line: the number
    of new papers and the batch, or that there were none. It prints
    nothing else; every input summary is either accepted or skipped. *)
Theorem build_prints self (xs : list PaperSummary) s :
  loadable s ->
  let seen := dict_keys (stored_papers s) in
  let bid := batch_id_of (clock s (ticks s)) in
  exists r s',
    build self xs s = Returns r s' /\
    stdout s'
    = (stdout s ++ map skip_line (skipped seen xs)
       ++ [summary_line bid (accepted seen xs)])%list /\
    (accepted seen xs ++ skipped seen xs)%list ≡ₚ xs.
Proof.
  intros Hload seen bid.
  destruct (build_effect self xs s Hload) as (s' & kb & ki & Hrun & _ & _ & Hio & _).
  eexists; exists s'. split; [exact Hrun|]. split; [|apply accepted_skipped].
  apply (io_stdout _ _ _ _ Hio).
Qed.

Lemma build_prints_witness :
  loadable Sample.started /\
  exists r s',
    build Sample.builder [Sample.p1; Sample.p3] Sample.started = Returns r s' /\
    stdout s'
    = [ "[INFO] Paper 2401.00001 already exists, skipping...";
        "[INFO] Added 1 new papers to batch 2024-W37" ].
Proof.
  split; [exact (conj I I)|].
  destruct (build_prints Sample.builder [Sample.p1; Sample.p3] Sample.started
              (conj I I)) as (r & s' & Hrun & Hout & _).
  exists r, s'. split; [exact Hrun|]. rewrite Hout. vm_compute. reflexivity.
Defined.

(** ** What a build stores *)

(** X4. Every summary that a build accepts is in the persisted Store
    afterwards, under its arXiv id: its serialised form, stamped with the
    batch id of the build and a time read during the build; and the
    persisted manifest has its index entry (topic, batch, title,
    publication date, formatted score). *)
Theorem accepted_are_stored self (xs : list PaperSummary) s :
  loadable s ->
  let bid := batch_id_of (clock s (ticks s)) in
  exists r s',
    build self xs s = Returns r s' /\
    forall x, x ∈ accepted (dict_keys (stored_papers s)) xs ->
      exists k, (ticks s <= k < ticks s')%nat /\
        dict_get (summary_id x) (stored_papers s')
        = Some (stamp bid (isoformat (clock s k)) (PaperSummary_to_dict x)) /\
        dict_get (summary_id x) (index_of (stored_manifest self s'))
        = Some (index_entry_of bid x).
Proof.
  intros Hload bid.
  destruct (build_effect self xs s Hload) as (s' & kb & ki & Hrun & _ & _ & _ & H).
  eexists; exists s'. split; [exact Hrun | exact H].
Qed.

Lemma accepted_are_stored_witness :
  loadable Sample.started /\
  exists r s',
    build Sample.builder [Sample.p1; Sample.p3] Sample.started = Returns r s' /\
    exists k,
      dict_get "2401.00003" (stored_papers s')
      = Some (stamp "2024-W37" (isoformat (Sample.week37 k))
                    (PaperSummary_to_dict Sample.p3)) /\
      dict_get "2401.00003" (index_of (stored_manifest Sample.builder s'))
      = Some (index_entry_of "2024-W37" Sample.p3).
Proof.
  split; [exact (conj I I)|].
  destruct (accepted_are_stored Sample.builder [Sample.p1; Sample.p3]
              Sample.started (conj I I)) as (r & s' & Hrun & H).
  exists r, s'. split; [exact Hrun|].
  destruct (H Sample.p3) as (k & _ & E1 & E2).
  { vm_compute. left. }
  exists k. split; [exact E1 | exact E2].
Defined.

(** ** What a build writes *)

(** X5. A build of a loadable directory always writes the two index pages,
    and both show the documents as the build persists them: [index.html]
    is the index page of the current batch computed from the persisted
    Store and the persisted statistics and batch list, dated with a time
    read during the build; [archives/index.html] lists the persisted
    batches. The build returns the path of [index.html]. *)
Theorem index_pages_written self (xs : list PaperSummary) s :
  loadable s ->
  let out := output_dir (site_config self) in
  let bid := batch_id_of (clock s (ticks s)) in
  exists s' k,
    build self xs s = Returns [("index", path_join out "index.html")] s' /\
    (ticks s <= k < ticks s')%nat /\
    dict_get (path_join out "index.html") (written (fs s'))
    = Some (PageHtml (main_index_page self bid (strftime_ymd (clock s k))
                        (stored_papers s') (stored_manifest self s'))) /\
    dict_get (path_join (path_join out "archives") "index.html") (written (fs s'))
    = Some (ArchiveListingHtml (batches_of (stored_manifest self s'))).
Proof.
  intros Hload out bid.
  destruct (build_effect self xs s Hload) as (s' & kb & ki & Hrun & _ & Hki & Hio & _).
  exists s', ki. split; [exact Hrun|]. split; [exact Hki|].
  rewrite (io_written _ _ _ _ Hio). unfold build_writes. fold out bid.
  rewrite app_assoc, !write_all_app.
  match goal with |- context [write_all [?a; ?b] ?w] =>
    change (write_all [a; b] w) with (dict_set (fst b) (snd b) (dict_set (fst a) (snd a) w))
  end.
  cbn [fst snd]. split.
  - rewrite dict_get_set_ne by (intros E; symmetry in E; revert E; apply index_ne_archive_index).
    apply dict_get_set_eq.
  - apply dict_get_set_eq.
Qed.

Lemma index_pages_written_witness :
  loadable Sample.started /\
  exists s' k,
    build Sample.builder [Sample.p3] Sample.started
    = Returns [("index", path_join (output_dir Sample.site) "index.html")] s' /\
    dict_get (path_join (path_join (output_dir Sample.site) "archives") "index.html")
             (written (fs s'))
    = Some (ArchiveListingHtml (batches_of (stored_manifest Sample.builder s'))) /\
    dict_get (path_join (output_dir Sample.site) "index.html") (written (fs s'))
    = Some (PageHtml (main_index_page Sample.builder "2024-W37"
                        (strftime_ymd (Sample.week37 k))
                        (stored_papers s') (stored_manifest Sample.builder s'))).
Proof.
  split; [exact (conj I I)|].
  destruct (index_pages_written Sample.builder [Sample.p3] Sample.started (conj I I))
    as (s' & k & Hrun & _ & E1 & E2).
  exists s', k. split; [exact Hrun|]. split; [exact E2 | exact E1].
Defined.

(** X6. When a build accepts at least one summary it writes the batch
    archive, [archives/<batch id>/batch.json] and
    [archives/<batch id>/index.html]; both describe the summaries accepted
    by this build and no others, also when the batch already had papers
    from an earlier build of the same week. When it accepts none, it leaves
    both files as they are. *)
Theorem batch_archive_written self (xs : list PaperSummary) s :
  loadable s ->
  let out := output_dir (site_config self) in
  let bid := batch_id_of (clock s (ticks s)) in
  let acc := accepted (dict_keys (stored_papers s)) xs in
  let batch_dir := path_join (path_join out "archives") bid in
  exists r s',
    build self xs s = Returns r s' /\
    (acc <> [] ->
     exists k, (ticks s <= k < ticks s')%nat /\
       dict_get (path_join batch_dir "batch.json") (written (fs s'))
       = Some (BatchJson {| bm_id := bid; bm_generated := isoformat (clock s k);
                            bm_papers := map summary_id acc |}) /\
       dict_get (path_join batch_dir "index.html") (written (fs s'))
       = Some (BatchIndexHtml bid acc)) /\
    (acc = [] ->
     dict_get (path_join batch_dir "batch.json") (written (fs s'))
     = dict_get (path_join batch_dir "batch.json") (written (fs s)) /\
     dict_get (path_join batch_dir "index.html") (written (fs s'))
     = dict_get (path_join batch_dir "index.html") (written (fs s))).
Proof.
  intros Hload out bid acc batch_dir.
  destruct (build_effect self xs s Hload) as (s' & kb & ki & Hrun & Hkb & _ & Hio & _).
  eexists; exists s'. split; [exact Hrun|].
  rewrite (io_written _ _ _ _ Hio). unfold build_writes. fold out bid acc.
  pose proof (batch_file_ne_index out bid) as N1.
  pose proof (batch_file_ne_archive_index out bid) as N2.
  pose proof (batch_json_ne_batch_index out bid) as N3.
  fold batch_dir in N1, N2, N3.
  split.
  - intros Hne. exists kb. split; [exact Hkb|].
    destruct acc as [|a acc']; [contradiction Hne; reflexivity|].
    rewrite !write_all_app. unfold batch_writes. fold batch_dir.
    cbn [write_all fold_left fst snd].
    split.
    + rewrite !dict_get_set_ne by (intros E; symmetry in E; revert E;
        first [apply N1 | apply N2; reflexivity]).
      rewrite dict_get_set_ne by (intros E; symmetry in E; revert E; apply N3).
      apply dict_get_set_eq.
    + rewrite !dict_get_set_ne by (intros E; symmetry in E; revert E;
        first [apply N1 | apply N2; reflexivity]).
      apply dict_get_set_eq.
  - intros Hnil. rewrite Hnil. cbn [grouped fold_left detail_writes map concat app].
    cbn [write_all fold_left fst snd].
    split; rewrite !dict_get_set_ne by (intros E; symmetry in E; revert E;
        first [apply N1 | apply N2; reflexivity]); reflexivity.
Qed.

Lemma batch_archive_written_witness :
  loadable Sample.started /\
  exists r s',
    build Sample.builder [Sample.p1; Sample.p3] Sample.started = Returns r s' /\
    dict_get (path_join (path_join (path_join (output_dir Sample.site) "archives")
                                   "2024-W37") "index.html")
             (written (fs s'))
    = Some (BatchIndexHtml "2024-W37" [Sample.p3]).
Proof.
  split; [exact (conj I I)|].
  destruct (batch_archive_written Sample.builder [Sample.p1; Sample.p3]
              Sample.started (conj I I)) as (r & s' & Hrun & Hsome & _).
  exists r, s'. split; [exact Hrun|].
  destruct Hsome as (k & _ & _ & E); [vm_compute; discriminate | exact E].
Defined.

Lemma NoDup_fmap_elems {A B} (f : A -> B) (l : list A) x y :
  NoDup (map f l) -> x ∈ l -> y ∈ l -> f x = f y -> x = y.
Proof.
  induction l as [|a l IH]; intros Hnd Hx Hy E.
  - apply elem_of_nil in Hx. contradiction.
  - cbn [map] in Hnd. apply NoDup_cons in Hnd as [Ha Hnd].
    apply elem_of_cons in Hx as [->|Hx]; apply elem_of_cons in Hy as [->|Hy].
    + reflexivity.
    + exfalso. apply Ha. rewrite E. apply list_elem_of_fmap. exists y. split; [reflexivity|exact Hy].
    + exfalso. apply Ha. rewrite <- E. apply list_elem_of_fmap. exists x. split; [reflexivity|exact Hx].
    + apply IH; assumption.
Qed.

Lemma detail_paths_NoDup out (seen : list string) (xs : list PaperSummary) :
  Forall (fun x => Py.contains "/" (summary_topic x) = false) xs ->
  NoDup (map (detail_path out) (accepted seen xs)).
Proof.
  intros Hxs. destruct (accepted_fresh xs seen) as [Hnd _].
  apply NoDup_fmap_2_strong; [|eapply NoDup_fmap_1; exact Hnd].
  intros x y Hx Hy E.
  assert (Hsx : Py.contains "/" (summary_topic x) = false).
  { apply (proj1 (Forall_forall _ _) Hxs), (accepted_subset seen), Hx. }
  assert (Hsy : Py.contains "/" (summary_topic y) = false).
  { apply (proj1 (Forall_forall _ _) Hxs), (accepted_subset seen), Hy. }
  destruct (detail_path_inj out x y Hsx Hsy E) as [_ Ei].
  apply (NoDup_fmap_elems summary_id (accepted seen xs)); assumption.
Qed.

Lemma build_paths_writes self bid g d acc papers m :
  map fst (build_writes self bid g d acc papers m) ≡ₚ build_paths self bid acc.
Proof.
  unfold build_writes, build_paths. rewrite !map_app.
  apply Permutation_app.
  - rewrite detail_writes_grouped, map_map. reflexivity.
  - destruct acc; reflexivity.
Qed.

(** X7. When no topic name has a slash in it, every summary that a build
    accepts has its detail page at [topics/<topic>/<arXiv id>.html]
    afterwards, and the page is the one rendered from that summary. *)
Theorem detail_pages_written self (xs : list PaperSummary) s :
  loadable s ->
  Forall (fun x => Py.contains "/" (summary_topic x) = false) xs ->
  exists r s',
    build self xs s = Returns r s' /\
    forall x, x ∈ accepted (dict_keys (stored_papers s)) xs ->
      dict_get (detail_path (output_dir (site_config self)) x) (written (fs s'))
      = Some (PageHtml (_render_paper self x)).
Proof.
  intros Hload Hxs.
  destruct (build_effect self xs s Hload) as (s' & kb & ki & Hrun & _ & _ & Hio & _).
  eexists; exists s'. split; [exact Hrun|]. intros x Hx.
  rewrite (io_written _ _ _ _ Hio). unfold build_writes.
  set (out := output_dir (site_config self)).
  set (acc := accepted (dict_keys (stored_papers s)) xs) in *.
  rewrite write_all_app.
  rewrite write_all_get_other.
  - apply write_all_get.
    + rewrite detail_writes_grouped, map_map. apply detail_paths_NoDup, Hxs.
    + rewrite detail_writes_grouped. apply list_elem_of_fmap.
      exists x. split; [reflexivity | exact Hx].
  - rewrite map_app. intros Hin. apply elem_of_app in Hin as [Hin|Hin].
    + destruct acc; [apply elem_of_nil in Hin; exact Hin|].
      cbn [batch_writes map fst] in Hin.
      apply elem_of_cons in Hin as [E|Hin]; [exact (detail_ne_batch_file _ _ _ _ E)|].
      apply list_elem_of_singleton in Hin. exact (detail_ne_batch_file _ _ _ _ Hin).
    + cbn [map fst] in Hin.
      apply elem_of_cons in Hin as [E|Hin]; [exact (detail_ne_index _ _ E)|].
      apply list_elem_of_singleton in Hin. exact (detail_ne_archive _ _ _ Hin).
Qed.

Lemma detail_pages_written_witness :
  loadable Sample.empty_world /\
  Forall (fun x => Py.contains "/" (summary_topic x) = false) [Sample.p1; Sample.p2] /\
  exists r s',
    build Sample.builder [Sample.p1; Sample.p2] Sample.empty_world = Returns r s' /\
    dict_get (detail_path (output_dir Sample.site) Sample.p2) (written (fs s'))
    = Some (PageHtml (_render_paper Sample.builder Sample.p2)).
Proof.
  split; [exact (conj I I)|].
  assert (H : Forall (fun x => Py.contains "/" (summary_topic x) = false)
                     [Sample.p1; Sample.p2]).
  { repeat constructor. }
  split; [exact H|].
  destruct (detail_pages_written Sample.builder [Sample.p1; Sample.p2]
              Sample.empty_world (conj I I) H) as (r & s' & Hrun & Hpages).
  exists r, s'. split; [exact Hrun|].
  apply (Hpages Sample.p2). vm_compute. right. left.
Defined.

(** X8. A build never removes a file: every path that held a page or a
    batch document before holds one afterwards; and it leaves every file
    untouched except the detail pages of the summaries it accepts, the two
    files of the batch archive (when it accepts any) and the two index
    pages. *)
Theorem build_keeps_files self (xs : list PaperSummary) s :
  loadable s ->
  let bid := batch_id_of (clock s (ticks s)) in
  let acc := accepted (dict_keys (stored_papers s)) xs in
  exists r s',
    build self xs s = Returns r s' /\
    (forall p, p ∈ dict_keys (written (fs s)) -> p ∈ dict_keys (written (fs s'))) /\
    (forall p, p ∉ build_paths self bid acc ->
       dict_get p (written (fs s')) = dict_get p (written (fs s))).
Proof.
  intros Hload bid acc.
  destruct (build_effect self xs s Hload) as (s' & kb & ki & Hrun & _ & _ & Hio & _).
  eexists; exists s'. split; [exact Hrun|].
  rewrite (io_written _ _ _ _ Hio). split.
  - intros p Hp. apply write_all_keys, Hp.
  - intros p Hp. apply write_all_get_other.
    rewrite build_paths_writes. exact Hp.
Qed.

Lemma build_keeps_files_witness :
  loadable Sample.started /\
  exists r s',
    build Sample.builder [Sample.p3] Sample.started = Returns r s' /\
    dict_get "site/topics/nlp/2401.00001.html" (written (fs s'))
    = dict_get "site/topics/nlp/2401.00001.html" (written (fs Sample.started)).
Proof.
  split; [exact (conj I I)|].
  destruct (build_keeps_files Sample.builder [Sample.p3] Sample.started (conj I I))
    as (r & s' & Hrun & _ & Hframe).
  exists r, s'. split; [exact Hrun|].
  apply Hframe. vm_compute.
  intros H. repeat (apply elem_of_cons in H as [H|H]; [discriminate H|]).
  apply elem_of_nil in H. exact H.
Defined.

(** ** Building again *)

(** The [generated] stamp that [_save_manifest] writes. *)
Lemma save_manifest_effect self s s' :
  _save_manifest self s = Returns tt s' ->
  exists g,
    _existing_manifest s'
    = set_m_topics (topics_mapping (index_of (_existing_manifest s)))
        (set_m_generated g
           (set_m_base_url (base_url (site_config self)) (_existing_manifest s))) /\
    manifest_json (fs s') = Holds (_existing_manifest s') /\
    g = match PIPELINE_RUN_AT s with
        | Some v => if Py.truthy v then v else isoformat (clock s (ticks s))
        | None => isoformat (clock s (ticks s))
        end.
Proof.
  unfold _save_manifest, index_of. run_step. cbn [PIPELINE_RUN_AT set_manifest].
  destruct (PIPELINE_RUN_AT s) as [v|]; [destruct (Py.truthy v)|];
    run_step; intros [= <-]; eexists; repeat split.
Qed.

Lemma accepted_all_seen (xs : list PaperSummary) : forall seen x,
  x ∈ xs -> summary_id x ∈ (seen ++ map summary_id (accepted seen xs))%list.
Proof.
  induction xs as [|a xs IH]; intros seen x Hx.
  - apply elem_of_nil in Hx. contradiction.
  - cbn [accepted]. destruct (bool_decide (summary_id a ∈ seen)) eqn:E.
    + apply bool_decide_eq_true in E.
      apply elem_of_cons in Hx as [->|Hx]; [|apply IH, Hx].
      apply elem_of_app. left. exact E.
    + cbn [map].
      change (summary_id a :: map summary_id (accepted (seen ++ [summary_id a]) xs))%list
        with ([summary_id a] ++ map summary_id (accepted (seen ++ [summary_id a]) xs))%list.
      rewrite app_assoc.
      apply elem_of_cons in Hx as [->|Hx]; [|apply IH, Hx].
      apply elem_of_app. left. apply elem_of_app. right.
      apply list_elem_of_singleton. reflexivity.
Qed.

(** The two documents after a build, in terms of the builder's fields
    before [_save_manifest]. *)
Lemma build_documents self (xs : list PaperSummary) s :
  loadable s ->
  let acc := accepted (dict_keys (stored_papers s)) xs in
  exists s' g,
    build self xs s
    = Returns [("index", path_join (output_dir (site_config self)) "index.html")] s' /\
    papers_json (fs s')
    = Holds {| pdoc_version := Some "1.0"; pdoc_papers := Some (stored_papers s') |} /\
    manifest_json (fs s') = Holds (stored_manifest self s') /\
    m_base_url (stored_manifest self s') = Some (base_url (site_config self)) /\
    m_generated (stored_manifest self s') = Some g /\
    m_topics (stored_manifest self s')
    = Some (topics_mapping (index_of (stored_manifest self s'))) /\
    (acc = [] ->
     stored_papers s' = stored_papers s /\
     stored_manifest self s'
     = set_m_topics (topics_mapping (index_of (stored_manifest self s)))
         (set_m_generated g
            (set_m_base_url (base_url (site_config self)) (stored_manifest self s)))).
Proof.
  intros Hload acc.
  destruct (build_trace self xs s Hload)
    as (s0 & s1 & tg & s2 & s3 & s4 & s5 & s6 & s7 & s8
        & H0 & H1 & H2 & H3 & H4 & H5 & H6 & H7 & H8 & Hb).
  fold acc in H2, H4.
  set (out := output_dir (site_config self)) in *.
  set (bid := batch_id_of (clock s (ticks s))) in *.
  destruct (save_manifest_effect _ _ _ H7) as (g & Eg & Ej & _).
  same_run (load_existing_data_run self s Hload) H0 F0.
  destruct F0 as (Ep0 & Em0 & Efs0 & Ecl0 & Etk0 & Eso0 & Eenv0).
  destruct (get_batch_id_run s0) as (s1' & E1 & F1).
  rewrite E1 in H1. injection H1 as _ ->. clear E1.
  destruct F1 as [[Ep1 Em1 Emj1 Epj1 Ecl1 Eenv1 _] Etk1].
  destruct (process_loop bid xs [] [] s1) as (tg' & s2' & E2 & Post).
  unfold dict in *. rewrite E2 in H2.
  injection H2 as _ -> ->. clear E2.
  destruct Post as [Pk Pop Poi Pn Pb Pst Plu Pfs Pcl Penv Ptk].
  same_run (write_detail_pages_same self out tg s2) H3 F3.
  destruct F3 as [Ep3 Em3 Emj3 Epj3 Ecl3 Eenv3 Etk3].
  same_run (render_main_index_same self out bid s4) H5 F5.
  same_run (render_archive_index_same out s5) H6 F6.
  same_run (save_manifest_run self s6) H7 F7.
  same_run (save_paper_data_run s7) H8 F8.
  destruct (tail_facts self _ _ _ _ _ F5 F6 F7 F8)
    as (T1 & T2 & T3 & T4' & T5' & T6 & T7 & T8 & T9 & T10 & T11 & T12).
  destruct F5 as [A1 A2 A3 A4 A5 A6 A7]. destruct F6 as [B1 B2 B3 B4 B5 B6 B7].
  destruct F7 as [D1 D2 D3 D4 D5 D6 D7 D8 D9 D10 D11 D12].
  destruct F8 as [G1 G2 G3 G4 G5].
  assert (HM : stored_manifest self s8 = _existing_manifest s7).
  { apply stored_manifest_holds. rewrite G2. exact D1. }
  exists s8, g. split; [exact Hb|]. split; [exact T2|]. split; [exact T1|].
  split; [exact T11|].
  split; [rewrite HM, Eg; reflexivity|].
  split; [rewrite HM, Eg; reflexivity|].
  intros Hnil. fold acc in Pn. rewrite Ep1, Ep0 in Pn. fold acc in Pn.
  destruct (Pn Hnil) as [Pn1 Pn2].
  revert H4. fold acc. rewrite Hnil. intros [= <-].
  cbn [_existing_papers _existing_manifest] in *.
  split; [congruence|].
  rewrite HM, Eg. congruence.
Qed.

(** X9. Running a build a second time with the same summaries accepts
    nothing, rewrites [data/papers.json] with the same content and rewrites
    [manifest.json] with the same content except for its [generated]
    stamp: index, batches, statistics, [last_updated] and the topic
    mapping are those of the first run. *)
Theorem rebuild_changes_only_generated self (xs : list PaperSummary) s :
  loadable s ->
  exists r1 s1 r2 s2 g,
    build self xs s = Returns r1 s1 /\
    build self xs s1 = Returns r2 s2 /\
    accepted (dict_keys (stored_papers s1)) xs = [] /\
    papers_json (fs s2) = papers_json (fs s1) /\
    manifest_json (fs s2) = Holds (set_m_generated g (stored_manifest self s1)).
Proof.
  intros Hload.
  destruct (build_documents self xs s Hload)
    as (s1 & g1 & Hrun1 & J1 & M1 & B1 & _ & T1 & _).
  destruct (build_run self xs s Hload) as (r1' & s1' & Hrun1' & Post1).
  rewrite Hrun1 in Hrun1'. injection Hrun1' as <- <-.
  assert (Hload1 : loadable s1) by exact (build_post_loadable _ _ _ _ Post1).
  assert (Hnil : accepted (dict_keys (stored_papers s1)) xs = []).
  { apply accepted_nil_iff. intros x Hx.
    rewrite (bp_keys _ _ _ _ Post1). apply accepted_all_seen, Hx. }
  destruct (build_documents self xs s1 Hload1)
    as (s2 & g2 & Hrun2 & J2 & M2 & _ & _ & _ & Hnoop).
  destruct (Hnoop Hnil) as [EP EM].
  eexists. exists s1. eexists. exists s2, g2.
  split; [exact Hrun1|]. split; [exact Hrun2|]. split; [exact Hnil|].
  split; [rewrite J2, J1, EP; reflexivity|].
  rewrite M2, EM. f_equal.
  destruct (stored_manifest self s1); cbn in *.
  unfold set_m_topics, set_m_generated, set_m_base_url; cbn.
  rewrite B1, T1. reflexivity.
Qed.

Lemma rebuild_changes_only_generated_witness :
  loadable Sample.empty_world /\
  exists r1 s1 r2 s2 g,
    build Sample.builder [Sample.p1; Sample.p2] Sample.empty_world = Returns r1 s1 /\
    build Sample.builder [Sample.p1; Sample.p2] s1 = Returns r2 s2 /\
    papers_json (fs s2) = papers_json (fs s1) /\
    manifest_json (fs s2) = Holds (set_m_generated g (stored_manifest Sample.builder s1)).
Proof.
  split; [exact (conj I I)|].
  destruct (rebuild_changes_only_generated Sample.builder [Sample.p1; Sample.p2]
              Sample.empty_world (conj I I))
    as (r1 & s1 & r2 & s2 & g & H1 & H2 & _ & H3 & H4).
  exists r1, s1, r2, s2, g. repeat split; assumption.
Defined.

(** ** Splitting at a character *)

Section SplitOne.
Variable c : ascii.

Lemma split_go_one_cons cur a s :
  Py.split_go (String c "") cur 0 (String a s)
  = if Ascii.eqb c a then cur :: Py.split_go (String c "") "" 0 s
    else Py.split_go (String c "") (cur +:+ String a "") 0 s.
Proof.
  cbn [Py.split_go String.prefix String.length Nat.sub].
  destruct (ascii_dec c a) as [->|Hne].
  - rewrite Ascii.eqb_refl, prefix_empty. reflexivity.
  - apply Ascii.eqb_neq in Hne. rewrite Hne. reflexivity.
Qed.

Lemma append_assoc (a b d : string) : (a +:+ b) +:+ d = a +:+ (b +:+ d).
Proof.
  induction a as [|x a IH]; [reflexivity|].
  rewrite !append_String, IH. reflexivity.
Qed.

Lemma append_nil_r (a : string) : a +:+ "" = a.
Proof. induction a as [|x a IH]; [reflexivity|]. rewrite append_String, IH. reflexivity. Qed.

Lemma split_go_one_none s : forall cur,
  c ∉ chars s -> Py.split_go (String c "") cur 0 s = [cur +:+ s].
Proof.
  induction s as [|a s IH]; intros cur H.
  - cbn [Py.split_go]. rewrite append_nil_r. reflexivity.
  - rewrite split_go_one_cons. unfold chars in H. cbn [list_ascii_of_string] in H.
    apply not_elem_of_cons in H as [Hne H].
    apply Ascii.eqb_neq in Hne. rewrite Hne. rewrite IH by exact H.
    rewrite append_assoc. reflexivity.
Qed.

Lemma split_go_one_app s : forall cur t,
  Py.split_go (String c "") cur 0 (s +:+ String c t)
  = (Py.split_go (String c "") cur 0 s ++ Py.split_go (String c "") "" 0 t)%list.
Proof.
  induction s as [|a s IH]; intros cur t.
  - rewrite append_empty, split_go_one_cons, Ascii.eqb_refl. reflexivity.
  - rewrite append_String, !split_go_one_cons.
    destruct (Ascii.eqb c a); [cbn [app]; f_equal|]; apply IH.
Qed.

(** The pieces of a split hold no separator. *)
Lemma split_go_one_pieces s : forall cur,
  c ∉ chars cur ->
  Forall (fun piece => c ∉ chars piece) (Py.split_go (String c "") cur 0 s).
Proof.
  induction s as [|a s IH]; intros cur H.
  - cbn [Py.split_go]. constructor; [exact H | constructor].
  - rewrite split_go_one_cons. destruct (Ascii.eqb c a) eqn:E.
    + constructor; [exact H|]. apply IH. apply not_elem_of_nil.
    + apply IH. rewrite chars_app. apply Ascii.eqb_neq in E.
      intros Hin. apply elem_of_app in Hin as [Hin|Hin]; [exact (H Hin)|].
      apply list_elem_of_singleton in Hin. congruence.
Qed.

Lemma split_one_join (l : string) (ls : list string) :
  Py.split (String c "") (Py.join (String c "") (l :: ls))
  = concat (map (Py.split (String c "")) (l :: ls)).
Proof.
  revert l. induction ls as [|l2 ls IH]; intros l.
  - cbn [Py.join map concat]. rewrite app_nil_r. reflexivity.
  - change (Py.join (String c "") (l :: l2 :: ls))
      with (l +:+ String c (Py.join (String c "") (l2 :: ls))).
    unfold Py.split at 1. rewrite split_go_one_app.
    change (Py.split_go (String c "") "" 0 (Py.join (String c "") (l2 :: ls)))
      with (Py.split (String c "") (Py.join (String c "") (l2 :: ls))).
    rewrite IH. reflexivity.
Qed.

End SplitOne.

(** ** White space *)

Lemma words_go_spaceless s : forall cur,
  spaceless cur -> Forall spaceless (Py.words_go cur s).
Proof.
  induction s as [|a s IH]; intros cur H; cbn [Py.words_go].
  - destruct (String.eqb cur ""); repeat constructor. exact H.
  - destruct (Py.is_space a) eqn:E.
    + destruct (String.eqb cur "").
      * apply IH. constructor.
      * constructor; [exact H|]. apply IH. constructor.
    + apply IH. unfold spaceless. rewrite chars_app.
      apply Forall_app. split; [exact H|]. repeat constructor. exact E.
Qed.

(** A text whose white space is single blanks holds no line break. *)
Lemma join_words_one_line (s : string) :
  "010"%char ∉ chars (Py.join " " (Py.words s)).
Proof.
  unfold Py.words.
  pose proof (words_go_spaceless s "" (Forall_nil_2 _)) as H.
  induction H as [|w ws Hw Hws IH]; [apply not_elem_of_nil|].
  assert (Hw' : "010"%char ∉ chars w).
  { intros Hin. apply (proj1 (Forall_forall _ _) Hw) in Hin. discriminate Hin. }
  destruct ws as [|w2 ws]; [exact Hw'|].
  change (Py.join " " (w :: w2 :: ws)) with (w +:+ String " " (Py.join " " (w2 :: ws))).
  rewrite chars_app. intros Hin. apply elem_of_app in Hin as [Hin|Hin]; [exact (Hw' Hin)|].
  unfold chars in Hin. cbn [list_ascii_of_string] in Hin.
  apply elem_of_cons in Hin as [Hin|Hin]; [discriminate Hin | exact (IH Hin)].
Qed.

Lemma not_in_chars_app (c : ascii) (a b : string) :
  c ∉ chars a -> c ∉ chars b -> c ∉ chars (a +:+ b).
Proof.
  intros Ha Hb. rewrite chars_app. intros H.
  apply elem_of_app in H as [H|H]; [exact (Ha H) | exact (Hb H)].
Qed.

Ltac lit_free :=
  let H := fresh in
  unfold chars; cbn [list_ascii_of_string]; intros H;
  repeat (apply elem_of_cons in H as [H|H]; [discriminate H|]);
  apply elem_of_nil in H; exact H.

Ltac chars_free :=
  repeat first
    [ assumption
    | apply join_words_one_line
    | apply not_in_chars_app
    | lit_free ].

(** ** The rows of the markdown table *)

Lemma row_has_no_line_break (p : GitHub.PaperMetadata) :
  "010"%char ∉ chars (GitHub.published_date p) ->
  "010"%char ∉ chars (GitHub.arxiv_url p) ->
  "010"%char ∉ chars (GitHub.to_markdown_row p).
Proof.
  intros Hd Hu. unfold GitHub.to_markdown_row. cbv zeta.
  destruct (Py.truthy (GitHub.arxiv_url p)); chars_free.
Qed.

(** X10. A table row is one line: whatever white space the title and the
    venue hold (line breaks included), the row of a paper whose date and
    link hold no line break holds none, so that splitting it into lines
    gives the row itself. *)
Theorem markdown_row_is_one_line (p : GitHub.PaperMetadata) :
  "010"%char ∉ chars (GitHub.published_date p) ->
  "010"%char ∉ chars (GitHub.arxiv_url p) ->
  ("010"%char ∉ chars (GitHub.to_markdown_row p)) /\
  Py.split Py.nl (GitHub.to_markdown_row p) = [GitHub.to_markdown_row p].
Proof.
  intros Hd Hu.
  pose proof (row_has_no_line_break p Hd Hu) as H.
  split; [exact H|].
  unfold Py.split, Py.nl. rewrite split_go_one_none by exact H. reflexivity.
Qed.

Lemma markdown_row_is_one_line_witness :
  ("010"%char ∉ chars (GitHub.published_date Sample.wrapped_row)) /\
  ("010"%char ∉ chars (GitHub.arxiv_url Sample.wrapped_row)) /\
  ("010"%char ∈ chars (GitHub.title Sample.wrapped_row)) /\
  Py.split Py.nl (GitHub.to_markdown_row Sample.wrapped_row)
  = [GitHub.to_markdown_row Sample.wrapped_row].
Proof.
  assert (Hd : "010"%char ∉ chars (GitHub.published_date Sample.wrapped_row))
    by (vm_compute; lit_free).
  assert (Hu : "010"%char ∉ chars (GitHub.arxiv_url Sample.wrapped_row))
    by (vm_compute; lit_free).
  split; [exact Hd|]. split; [exact Hu|]. split.
  - vm_compute. do 24 right. left.
  - exact (proj2 (markdown_row_is_one_line Sample.wrapped_row Hd Hu)).
Defined.

(** ** Where the new rows go *)

Lemma insert_after_separator_done rows lines :
  GitHub.insert_after_separator rows true lines = (lines, true).
Proof.
  induction lines as [|l lines IH]; [reflexivity|].
  cbn [GitHub.insert_after_separator negb andb]. rewrite IH. reflexivity.
Qed.

Lemma insert_after_separator_none rows lines :
  Forall (fun l => is_separator l = false) lines ->
  GitHub.insert_after_separator rows false lines = (lines, false).
Proof.
  induction 1 as [|l lines Hl _ IH]; [reflexivity|].
  cbn [GitHub.insert_after_separator negb andb].
  unfold is_separator in Hl. rewrite Hl, IH. reflexivity.
Qed.

Lemma insert_after_separator_first rows pre sep post :
  Forall (fun l => is_separator l = false) pre ->
  is_separator sep = true ->
  GitHub.insert_after_separator rows false (pre ++ sep :: post)
  = ((pre ++ sep :: rows ++ post)%list, true).
Proof.
  intros Hpre Hsep. induction Hpre as [|l pre Hl _ IH].
  - cbn [app GitHub.insert_after_separator negb andb].
    unfold is_separator in Hsep. rewrite Hsep, insert_after_separator_done.
    reflexivity.
  - cbn [app GitHub.insert_after_separator negb andb].
    unfold is_separator in Hl. rewrite Hl, IH. reflexivity.
Qed.

(** X11. When the existing file has a table (it holds ["| Title |"]) and
    there are rows to add, the rows go directly below the first separator
    line ([| --- ...]), in input order and above the rows already there;
    when no line is a separator they go at the end. Every other line stays
    where it was. *)
Theorem rows_go_below_the_separator (timestamp : string)
    (papers : list GitHub.PaperMetadata) (existing_content : string) :
  let rows := GitHub.new_rows papers existing_content in
  let lines := Py.split Py.nl existing_content in
  let result := GitHub._build_markdown_table timestamp papers existing_content in
  rows <> [] ->
  Py.contains "| Title |" existing_content = true ->
  (forall pre sep post,
     lines = (pre ++ sep :: post)%list ->
     Forall (fun l => is_separator l = false) pre ->
     is_separator sep = true ->
     result = Py.join Py.nl (pre ++ sep :: rows ++ post)) /\
  (Forall (fun l => is_separator l = false) lines ->
   result = Py.join Py.nl (lines ++ rows)).
Proof.
  intros rows lines result Hrows Htable.
  assert (E : result
              = let '(result_lines, inserted) :=
                  GitHub.insert_after_separator rows false lines in
                Py.join Py.nl
                  (if inserted then result_lines else (result_lines ++ rows)%list)).
  { unfold result, GitHub._build_markdown_table. fold rows lines.
    destruct rows as [|r rows']; [contradiction Hrows; reflexivity|].
    rewrite Htable, orb_true_r. reflexivity. }
  split.
  - intros pre sep post Hlines Hpre Hsep.
    rewrite E, Hlines, (insert_after_separator_first _ _ _ _ Hpre Hsep).
    reflexivity.
  - intros Hnone. rewrite E, (insert_after_separator_none _ _ Hnone). reflexivity.
Qed.

Lemma rows_go_below_the_separator_witness :
  let existing :=
    GitHub._build_markdown_table Sample.timestamp [Sample.plain_row] "" in
  GitHub.new_rows [Sample.wrapped_row] existing <> [] /\
  Py.contains "| Title |" existing = true /\
  GitHub._build_markdown_table Sample.timestamp [Sample.wrapped_row] existing
  = Py.join Py.nl
      [ "# Paper Updates"; ""; "*Last updated: 2024-09-10 08:00 UTC*"; "";
        "| Title | Published Date | Venue/Conference |";
        "| --- | --- | --- |";
        GitHub.to_markdown_row Sample.wrapped_row;
        GitHub.to_markdown_row Sample.plain_row ].
Proof.
  cbv zeta.
  assert (H1 : GitHub.new_rows [Sample.wrapped_row]
                 (GitHub._build_markdown_table Sample.timestamp [Sample.plain_row] "")
               <> []) by (vm_compute; discriminate).
  assert (H2 : Py.contains "| Title |"
                 (GitHub._build_markdown_table Sample.timestamp [Sample.plain_row] "")
               = true) by (vm_compute; reflexivity).
  split; [exact H1|]. split; [exact H2|].
  rewrite (proj1 (rows_go_below_the_separator Sample.timestamp [Sample.wrapped_row]
                    _ H1 H2)
             [ "# Paper Updates"; ""; "*Last updated: 2024-09-10 08:00 UTC*"; "";
               "| Title | Published Date | Venue/Conference |" ]
             "| --- | --- | --- |"
             [ GitHub.to_markdown_row Sample.plain_row ]).
  - vm_compute. reflexivity.
  - vm_compute. reflexivity.
  - repeat constructor.
  - reflexivity.
Defined.

(** ** The lines of the table file *)

Lemma split_nl_pieces (s : string) :
  Forall (fun l => "010"%char ∉ chars l) (Py.split Py.nl s).
Proof. apply split_go_one_pieces. apply not_elem_of_nil. Qed.

Lemma split_nl_one_line (l : string) :
  "010"%char ∉ chars l -> Py.split Py.nl l = [l].
Proof. intros H. unfold Py.split, Py.nl. rewrite split_go_one_none by exact H. reflexivity. Qed.

Lemma split_nl_not_nil (s : string) : Py.split Py.nl s <> [].
Proof.
  unfold Py.split. generalize "". induction s as [|a s IH]; intros cur.
  - discriminate.
  - unfold Py.nl. rewrite split_go_one_cons.
    destruct (Ascii.eqb _ a); [discriminate | apply IH].
Qed.

Lemma concat_split_lines (ls : list string) :
  Forall (fun l => "010"%char ∉ chars l) ls ->
  concat (map (Py.split Py.nl) ls) = ls.
Proof.
  induction 1 as [|l ls Hl _ IH]; [reflexivity|].
  cbn [map concat]. rewrite (split_nl_one_line l Hl), IH. reflexivity.
Qed.

Lemma sublist_concat_map {A B} (f : A -> list B) (l1 l2 : list A) :
  sublist l1 l2 -> sublist (concat (map f l1)) (concat (map f l2)).
Proof.
  induction 1 as [|x l1 l2 _ IH|x l1 l2 _ IH]; cbn [map concat].
  - constructor.
  - apply sublist_app; [reflexivity | exact IH].
  - apply sublist_inserts_l, IH.
Qed.

Lemma split_nl_join (ls : list string) :
  ls <> [] ->
  Py.split Py.nl (Py.join Py.nl ls) = concat (map (Py.split Py.nl) ls).
Proof. destruct ls as [|l ls]; [congruence|]. intros _. apply split_one_join. Qed.

Lemma insert_after_separator_sublist rows lines : forall inserted,
  sublist lines (fst (GitHub.insert_after_separator rows inserted lines)).
Proof.
  induction lines as [|l lines IH]; intros inserted; [constructor|].
  cbn [GitHub.insert_after_separator].
  destruct (negb inserted && Py.startswith "| ---" l && Py.contains "---" l).
  - specialize (IH true).
    destruct (GitHub.insert_after_separator rows true lines) as [out fl].
    cbn [fst] in *. cbn [app]. constructor. apply sublist_inserts_l, IH.
  - specialize (IH inserted).
    destruct (GitHub.insert_after_separator rows inserted lines) as [out fl].
    cbn [fst] in *. constructor. exact IH.
Qed.

Lemma insert_after_separator_rows rows lines :
  snd (GitHub.insert_after_separator rows false lines) = true ->
  forall r, r ∈ rows -> r ∈ fst (GitHub.insert_after_separator rows false lines).
Proof.
  induction lines as [|l lines IH]; [discriminate|].
  cbn [GitHub.insert_after_separator negb andb].
  destruct (Py.startswith "| ---" l && Py.contains "---" l).
  - rewrite insert_after_separator_done. cbn [fst snd]. intros _ r Hr.
    right. apply elem_of_app. left. exact Hr.
  - destruct (GitHub.insert_after_separator rows false lines) as [out fl].
    cbn [fst snd] in *. intros Hfl r Hr. right. apply IH; assumption.
Qed.


Lemma lines_sublist (l1 ls : list string) :
  Forall (fun l => "010"%char ∉ chars l) l1 ->
  sublist l1 ls -> sublist l1 (concat (map (Py.split Py.nl) ls)).
Proof.
  intros H Hsub. rewrite <- (concat_split_lines l1 H).
  apply sublist_concat_map, Hsub.
Qed.

Lemma table_branch_lines (rows lines : list string) :
  let '(out, fl) := GitHub.insert_after_separator rows false lines in
  let ls := if fl then out else (out ++ rows)%list in
  sublist lines ls /\ forall r, r ∈ rows -> r ∈ ls.
Proof.
  pose proof (insert_after_separator_sublist rows lines false) as Hsub.
  pose proof (insert_after_separator_rows rows lines) as Hin.
  destruct (GitHub.insert_after_separator rows false lines) as [out fl].
  cbn [fst snd] in *. destruct fl.
  - split; [exact Hsub | intros r Hr; apply Hin; [reflexivity | exact Hr]].
  - split; [apply sublist_inserts_r, Hsub|].
    intros r Hr. apply elem_of_app. right. exact Hr.
Qed.

Lemma new_table_lines (timestamp existing : string) (rows : list string) :
  let content_lines :=
    ([ "# Paper Updates"; ""; "*Last updated: " +:+ timestamp +:+ "*"; "";
       GitHub.table_header ] ++ rows)%list in
  let ls :=
    if Py.truthy existing
    then (content_lines ++ [""; "---"; ""; existing])%list
    else content_lines in
  sublist (Py.split Py.nl existing) (concat (map (Py.split Py.nl) ls)) /\
  ls <> [] /\ forall r, r ∈ rows -> r ∈ ls.
Proof.
  cbv zeta. destruct (Py.truthy existing) eqn:Et.
  - split; [|split].
    + rewrite map_app, concat_app. apply sublist_inserts_l.
      cbn [map concat]. do 3 apply sublist_inserts_l.
      rewrite app_nil_r. reflexivity.
    + discriminate.
    + intros r Hr. apply elem_of_app. left. apply elem_of_app. right. exact Hr.
  - assert (E : existing = "").
    { unfold Py.truthy in Et. apply negb_false_iff, String.eqb_eq in Et. exact Et. }
    subst existing. split; [|split].
    + assert (H0 : "010"%char ∉ chars "") by apply not_elem_of_nil.
      rewrite (split_nl_one_line "" H0).
      apply lines_sublist; [repeat constructor; exact H0|].
      apply sublist_inserts_r. apply sublist_cons, sublist_skip, sublist_nil_l.
    + discriminate.
    + intros r Hr. apply elem_of_app. right. exact Hr.
Qed.

(** The list of lines that [_build_markdown_table] joins when there are
    rows to add. *)
Lemma build_markdown_table_lines (timestamp : string)
    (papers : list GitHub.PaperMetadata) (existing : string) :
  GitHub.new_rows papers existing <> [] ->
  exists ls,
    GitHub._build_markdown_table timestamp papers existing = Py.join Py.nl ls /\
    sublist (Py.split Py.nl existing) (concat (map (Py.split Py.nl) ls)) /\
    ls <> [] /\
    forall r, r ∈ GitHub.new_rows papers existing -> r ∈ ls.
Proof.
  intros Hrows. unfold GitHub._build_markdown_table.
  generalize dependent (GitHub.new_rows papers existing). intros rows Hrows.
  destruct rows as [|r0 rows']; [contradiction Hrows; reflexivity|].
  generalize (r0 :: rows'). clear r0 rows' Hrows. intros rows.
  destruct (Py.contains GitHub.table_header existing
            || Py.contains "| Title |" existing).
  - pose proof (table_branch_lines rows (Py.split Py.nl existing)) as H.
    destruct (GitHub.insert_after_separator rows false (Py.split Py.nl existing))
      as [out fl].
    destruct H as [Hsub Hin].
    exists (if fl then out else (out ++ rows)%list).
    split; [reflexivity|]. split; [|split].
    + apply lines_sublist; [apply split_nl_pieces | exact Hsub].
    + intros E. rewrite E in Hsub. apply sublist_nil_r in Hsub.
      exact (split_nl_not_nil _ Hsub).
    + exact Hin.
  - destruct (new_table_lines timestamp existing rows) as (H1 & H2 & H3).
    eexists. split; [reflexivity|]. split; [exact H1|]. split; [exact H2 | exact H3].
Qed.

(** X12. [_build_markdown_table] never loses a line of the existing file:
    the lines of the existing content are among the lines of the result,
    in the same order. *)
Theorem existing_lines_are_kept (timestamp : string)
    (papers : list GitHub.PaperMetadata) (existing_content : string) :
  sublist (Py.split Py.nl existing_content)
          (Py.split Py.nl
             (GitHub._build_markdown_table timestamp papers existing_content)).
Proof.
  destruct (decide (GitHub.new_rows papers existing_content = [])) as [E|Hne].
  - unfold GitHub._build_markdown_table. rewrite E. reflexivity.
  - destruct (build_markdown_table_lines timestamp papers existing_content Hne)
      as (ls & -> & Hsub & Hnil & _).
    rewrite (split_nl_join _ Hnil). exact Hsub.
Qed.

(** ** Reading the titles back *)

Lemma elem_of_existing_titles (content t : string) :
  t ∈ GitHub.existing_titles content <->
  exists line, line ∈ Py.split Py.nl content /\
    GitHub.is_title_row line = true /\ GitHub.row_title line = Some t.
Proof.
  assert (Hfold : forall lines (acc : gset string),
    t ∈ fold_left (fun titles line =>
                     if GitHub.is_title_row line then
                       match GitHub.row_title line with
                       | Some t => titles ∪ {[ t ]}
                       | None => titles
                       end
                     else titles) lines acc
    <-> t ∈ acc \/ exists line, line ∈ lines /\
          GitHub.is_title_row line = true /\ GitHub.row_title line = Some t).
  { induction lines as [|l lines IH]; intros acc; cbn [fold_left].
    - split; [intros H; left; exact H|].
      intros [H|(line & Hin & _)]; [exact H|]. apply elem_of_nil in Hin. contradiction.
    - rewrite IH. split.
      + intros [H|(line & Hin & H1 & H2)].
        * destruct (GitHub.is_title_row l) eqn:E1; [|left; exact H].
          destruct (GitHub.row_title l) as [t'|] eqn:E2; [|left; exact H].
          apply elem_of_union in H as [H|H]; [left; exact H|].
          apply elem_of_singleton in H. subst t'.
          right. exists l. split; [left|]. split; assumption.
        * right. exists line. split; [right; exact Hin|]. split; assumption.
      + intros [H|(line & Hin & H1 & H2)].
        * left. destruct (GitHub.is_title_row l); [|exact H].
          destruct (GitHub.row_title l); [|exact H].
          apply elem_of_union. left. exact H.
        * apply elem_of_cons in Hin as [->|Hin].
          -- left. rewrite H1, H2. apply elem_of_union. right.
             apply elem_of_singleton. reflexivity.
          -- right. exists line. split; [exact Hin|]. split; assumption. }
  unfold GitHub.existing_titles. destruct (Py.truthy content) eqn:Et.
  - rewrite Hfold. split; [intros [H|H]; [|exact H] | intros H; right; exact H].
    apply elem_of_empty in H. contradiction.
  - assert (E : content = "").
    { unfold Py.truthy in Et. apply negb_false_iff, String.eqb_eq in Et. exact Et. }
    subst content. split; [intros H; apply elem_of_empty in H; contradiction|].
    intros (line & Hin & H1 & _). change (Py.split Py.nl "") with [""] in Hin.
    apply list_elem_of_singleton in Hin. subst line. discriminate H1.
Qed.

Lemma first_cut (c : ascii) (s : string) :
  c ∈ chars s -> exists u v, s = u +:+ String c v /\ c ∉ chars u.
Proof.
  induction s as [|a s IH]; intros H.
  - apply elem_of_nil in H. contradiction.
  - destruct (ascii_dec a c) as [->|Hne].
    + exists "", s. split; [reflexivity | apply not_elem_of_nil].
    + unfold chars in H. cbn [list_ascii_of_string] in H.
      apply elem_of_cons in H as [H|H]; [congruence|].
      destruct (IH H) as (u & v & -> & Hu).
      exists (String a u), v. split; [reflexivity|].
      unfold chars. cbn [list_ascii_of_string]. apply not_elem_of_cons.
      split; [congruence | exact Hu].
Qed.

Lemma rstrip_nonspace (a : ascii) (s : string) :
  Py.is_space a = false -> Py.rstrip (String a s) = String a (Py.rstrip s).
Proof. intros H. cbn [Py.rstrip]. rewrite H. destruct (Py.rstrip s); reflexivity. Qed.

Lemma rstrip_append (x y : string) :
  Py.rstrip y <> "" -> Py.rstrip (x +:+ y) = x +:+ Py.rstrip y.
Proof.
  intros Hy. induction x as [|a x IH]; [reflexivity|].
  rewrite !append_String. cbn [Py.rstrip]. rewrite IH.
  destruct (x +:+ Py.rstrip y) eqn:E; [|reflexivity].
  destruct x; [|discriminate E]. contradiction Hy.
Qed.

(** The row of a paper with a link, cut after the title. *)
Lemma linked_row (p : GitHub.PaperMetadata) :
  Py.truthy (GitHub.arxiv_url p) = true ->
  exists z,
    GitHub.to_markdown_row p
    = "| [" +:+ Py.join " " (Py.words (GitHub.title p)) +:+ "](" +:+ z /\
    "|"%char ∈ chars z.
Proof.
  intros Hurl. unfold GitHub.to_markdown_row. cbv zeta. rewrite Hurl.
  eexists. split.
  - rewrite !append_assoc. reflexivity.
  - rewrite !chars_app. apply elem_of_app. right. apply elem_of_app. right.
    apply elem_of_app. left. right. left.
Qed.

Lemma row_title_read_back (p : GitHub.PaperMetadata) :
  read_back p ->
  GitHub.is_title_row (GitHub.to_markdown_row p) = true /\
  GitHub.row_title (GitHub.to_markdown_row p) = Some (GitHub.title p).
Proof.
  intros (Hurl & Hclean & Hbar & Hbr & _ & _).
  destruct (linked_row p Hurl) as (z & -> & Hz). rewrite Hclean.
  set (t := GitHub.title p) in *.
  split.
  - unfold GitHub.is_title_row, Py.startswith.
    change ("| [" +:+ t +:+ "](" +:+ z)
      with (String "|" (String " " (String "[" (t +:+ "](" +:+ z)))).
    cbn [String.prefix]. repeat (destruct (ascii_dec _ _); [|congruence]).
    rewrite prefix_empty. reflexivity.
  - destruct (first_cut _ _ Hz) as (u & v & -> & Hu).
    unfold GitHub.row_title.
    change ("| [" +:+ t +:+ "](" +:+ u +:+ String "|" v)
      with (String "|" (" [" +:+ t +:+ "](" +:+ u +:+ String "|" v)).
    unfold Py.split at 1. rewrite split_go_one_cons, Ascii.eqb_refl.
    replace (" [" +:+ t +:+ "](" +:+ u +:+ String "|" v)
      with ((" [" +:+ t +:+ "](" +:+ u) +:+ String "|" v)
      by (rewrite !append_assoc; reflexivity).
    rewrite split_go_one_app.
    rewrite (split_go_one_none "|" (" [" +:+ t +:+ "](" +:+ u) "")
      by (cbn [chars list_ascii_of_string]; chars_free).
    cbn [app]. rewrite append_empty.
    unfold Py.strip.
    change (Py.lstrip (" [" +:+ t +:+ "](" +:+ u)) with ("[" +:+ t +:+ "](" +:+ u).
    replace ("[" +:+ t +:+ "](" +:+ u) with (("[" +:+ t) +:+ "](" +:+ u)
      by (rewrite !append_assoc; reflexivity).
    assert (Hr : exists w, Py.rstrip ("](" +:+ u) = String "]" w).
    { change ("](" +:+ u) with (String "]" ("(" +:+ u)).
      rewrite rstrip_nonspace by reflexivity. eexists. reflexivity. }
    destruct Hr as (w & Hr).
    rewrite rstrip_append by (rewrite Hr; discriminate). rewrite Hr.
    assert (Hpre : Py.startswith "[" (("[" +:+ t) +:+ String "]" w) = true).
    { unfold Py.startswith. rewrite append_assoc.
      change ("[" +:+ t +:+ String "]" w) with (String "[" (t +:+ String "]" w)).
      cbn [String.prefix]. destruct (ascii_dec _ _); [|congruence].
      apply prefix_empty. }
    rewrite Hpre. unfold Py.split. rewrite split_go_one_app.
    rewrite (split_go_one_none "]" ("[" +:+ t) "")
      by (cbn [chars list_ascii_of_string]; chars_free).
    cbn [app hd]. reflexivity.
Qed.

Lemma new_rows_nil (papers : list GitHub.PaperMetadata) (content : string) :
  (forall p, p ∈ papers -> GitHub.title p ∈ GitHub.existing_titles content) ->
  GitHub.new_rows papers content = [].
Proof.
  intros H. unfold GitHub.new_rows. induction papers as [|p ps IH]; [reflexivity|].
  rewrite filter_cons.
  rewrite decide_False by (intros Hn; apply Hn, H; left).
  apply IH. intros q Hq. apply H. right. exact Hq.
Qed.

Lemma elem_of_new_rows (papers : list GitHub.PaperMetadata) (content : string) p :
  p ∈ papers -> GitHub.title p ∉ GitHub.existing_titles content ->
  GitHub.to_markdown_row p ∈ GitHub.new_rows papers content.
Proof.
  intros Hp Hn. unfold GitHub.new_rows. apply list_elem_of_fmap.
  exists p. split; [reflexivity|]. apply list_elem_of_filter. split; assumption.
Qed.

(** X13. For papers whose rows are read back with their titles (a link, a
    title in single-blank form without bar or closing bracket, no line
    break in date and link), building the table is idempotent: feeding the
    result back in with the same papers returns it unchanged, whatever the
    file held before. *)
Theorem table_is_stable_for_read_back_titles (timestamp : string)
    (papers : list GitHub.PaperMetadata) (existing_content : string) :
  Forall read_back papers ->
  let once := GitHub._build_markdown_table timestamp papers existing_content in
  GitHub.new_rows papers once = [] /\
  GitHub._build_markdown_table timestamp papers once = once.
Proof.
  intros Hpapers once.
  assert (Hnil : GitHub.new_rows papers once = []).
  { destruct (decide (GitHub.new_rows papers existing_content = [])) as [E|Hne].
    - unfold once, GitHub._build_markdown_table. rewrite E. exact E.
    - destruct (build_markdown_table_lines timestamp papers existing_content Hne)
        as (ls & Hjoin & Hsub & Hls & Hrows).
      assert (Hlines : Py.split Py.nl once = concat (map (Py.split Py.nl) ls)).
      { unfold once. rewrite Hjoin. apply split_nl_join, Hls. }
      apply new_rows_nil. intros p Hp.
      destruct (decide (GitHub.title p ∈ GitHub.existing_titles existing_content))
        as [Hin|Hnin].
      + apply elem_of_existing_titles in Hin as (line & Hline & H1 & H2).
        apply elem_of_existing_titles. exists line. split; [|split; assumption].
        rewrite Hlines. eapply elem_of_sublist; eassumption.
      + pose proof (proj1 (Forall_forall _ _) Hpapers p Hp) as Hrb.
        destruct (row_title_read_back p Hrb) as [H1 H2].
        apply elem_of_existing_titles. exists (GitHub.to_markdown_row p).
        split; [|split; assumption].
        rewrite Hlines. apply list_elem_of_In, in_concat.
        exists (Py.split Py.nl (GitHub.to_markdown_row p)). split.
        * apply in_map, list_elem_of_In, Hrows, elem_of_new_rows; assumption.
        * destruct Hrb as (_ & _ & _ & _ & Hd & Hu).
          rewrite (split_nl_one_line _ (row_has_no_line_break p Hd Hu)). left. reflexivity. }
  split; [exact Hnil|].
  unfold GitHub._build_markdown_table at 1. rewrite Hnil. reflexivity.
Qed.

Lemma table_is_stable_for_read_back_titles_witness :
  Forall read_back [Sample.plain_row] /\
  GitHub._build_markdown_table Sample.timestamp [Sample.plain_row]
    (GitHub._build_markdown_table Sample.timestamp [Sample.plain_row] "")
  = GitHub._build_markdown_table Sample.timestamp [Sample.plain_row] "".
Proof.
  assert (H : Forall read_back [Sample.plain_row]).
  { constructor; [|constructor].
    split; [reflexivity|]. split; [vm_compute; reflexivity|].
    repeat split; vm_compute; lit_free. }
  split; [exact H|].
  exact (proj2 (table_is_stable_for_read_back_titles Sample.timestamp
                  [Sample.plain_row] "" H)).
Defined.

(** ** What [commit_papers] does to the repository *)

(** X14. [commit_papers] raises only [ValueError], and only when there are
    papers and the repository cannot be reached or the branch can neither
    be found nor created. Otherwise it returns; it creates the branch only
    when it is missing; it writes nothing, and returns [True], when there
    are no papers or the rebuilt table is the existing file; and when it
    writes, every writing call carries the rebuilt table: [update_file]
    for an existing file, then [create_file] when that fails or when there
    is no file. The flag is [False] exactly when the last of these calls
    failed. *)
Theorem commit_papers_outcomes (timestamp : string)
    (papers : list GitHub.PaperMetadata) (r : GitHub.remote) :
  let existing := default "" (GitHub.file_content r) in
  let new := GitHub._build_markdown_table timestamp papers existing in
  match GitHub.commit_papers timestamp papers r with
  | inl e =>
      e = "ValueError" /\ papers <> [] /\
      (GitHub.repo_accessible r = false \/
       (GitHub.branch_exists r = false /\ GitHub.branch_creatable r = false))
  | inr (ok, r') =>
      (papers <> [] ->
       GitHub.repo_accessible r = true /\
       (GitHub.branch_exists r = true \/ GitHub.branch_creatable r = true)) /\
      exists branch_calls write_calls,
        GitHub.calls r' = (GitHub.calls r ++ branch_calls ++ write_calls)%list /\
        branch_calls
        = (if negb (GitHub.branch_exists r) && negb (bool_decide (papers = []))
           then [GitHub.create_git_ref] else []) /\
        (papers = [] \/ new = existing -> write_calls = [] /\ ok = true) /\
        (papers <> [] -> new <> existing ->
         write_calls
         = match GitHub.file_content r with
           | Some _ =>
               if GitHub.update_succeeds r then [GitHub.update_file new]
               else [GitHub.update_file new; GitHub.create_file new]
           | None => [GitHub.create_file new]
           end /\
         ok = match GitHub.file_content r with
              | Some _ => GitHub.update_succeeds r || GitHub.create_succeeds r
              | None => GitHub.create_succeeds r
              end)
  end.
Proof.
  cbv zeta. unfold GitHub.commit_papers.
  destruct papers as [|p ps].
  - split; [intros H; contradiction H; reflexivity|].
    exists [], []. rewrite !app_nil_r, andb_false_r.
    split; [reflexivity|]. split; [reflexivity|].
    split; [intros _; split; reflexivity|].
    intros Hp. contradiction Hp. reflexivity.
  - unfold GitHub._get_or_create_branch, GitHub._get_existing_content.
    rewrite (bool_decide_eq_false_2 (p :: ps = [])) by discriminate.
    destruct r as [ra be bc fc us cs cl].
    destruct ra, be, bc;
      cbn [GitHub.repo_accessible GitHub.branch_exists GitHub.branch_creatable
           GitHub.file_content GitHub.update_succeeds GitHub.create_succeeds
           GitHub.calls GitHub.called negb andb];
      cbv beta iota zeta;
      cbn [GitHub.repo_accessible GitHub.branch_exists GitHub.branch_creatable
           GitHub.file_content GitHub.update_succeeds GitHub.create_succeeds
           GitHub.calls GitHub.called negb andb];
      try (split; [reflexivity|]; split; [discriminate|];
           first [left; reflexivity | right; split; reflexivity]);
      generalize (GitHub._build_markdown_table timestamp (p :: ps) (default "" fc));
      intros new;
      (destruct (String.eqb_spec new (default "" fc)) as [E|E]; cbv beta iota;
       [ | destruct fc as [c|]; [destruct us|]; destruct cs;
           cbn [GitHub.repo_accessible GitHub.branch_exists GitHub.branch_creatable
                GitHub.file_content GitHub.update_succeeds GitHub.create_succeeds
                GitHub.calls GitHub.called orb];
           cbv beta iota; cbn [GitHub.calls] ]);
      (split;
       [ intros _; split; [reflexivity | first [left; reflexivity | right; reflexivity]]
       | eexists _, _;
         (split;
          [ | split;
              [ reflexivity
              | split;
                [ first [ intros [H|H]; [discriminate H | contradiction]
                        | intros _; split; reflexivity ]
                | first [ intros _ Hne; contradiction
                        | intros _ _; split; reflexivity ] ] ] ]);
         cbn [app]; rewrite <- ?app_assoc, ?app_nil_r; reflexivity ]).
Qed.
